(** * Verification of libavcodec/decode.c (generic decoding code)

    A shallow embedding of the parts of [libavcodec/decode.c] that drive
    decoding: the bitstream-filter chain pull, the packet source
    [ff_decode_get_packet], the simple decode loop, the send/receive
    entry points, flushing, cropping normalisation, parameter-change side
    data, the frame buffer pool, pixel-format negotiation
    ([ff_get_format]) and frame buffer allocation ([ff_get_buffer]).  C integers are [Z] with their
    wrap-around written out: [int] is 32-bit two's complement, [size_t]
    is 64-bit unsigned. *)

From Stdlib Require Import ZArith List Bool Lia.
Import ListNotations.
Open Scope Z_scope.

(** ** C integer types and error codes *)

Definition INT_MAX : Z := 2147483647.

(** Conversion of a mathematical integer to [int] (two's complement wrap). *)
Definition to_int (z : Z) : Z :=
  let m := z mod 2 ^ 32 in if m >=? 2 ^ 31 then m - 2 ^ 32 else m.

(** Conversion to [size_t] (64-bit unsigned wrap). *)
Definition to_size (z : Z) : Z := z mod 2 ^ 64.

(** [AVERROR(e)] and the [FFERRTAG] error codes of libavutil/error.h. *)
Definition AVERROR_EINVAL : Z := -22.
Definition AVERROR_EAGAIN : Z := -11.
Definition AVERROR_ENOMEM : Z := -12.
Definition FFERRTAG (a b c d : Z) : Z := - (a + b * 256 + c * 65536 + d * 16777216).
Definition AVERROR_EOF : Z := FFERRTAG 69 79 70 32.          (* 'E','O','F',' ' *)
Definition AVERROR_BUG : Z := FFERRTAG 66 85 71 33.          (* 'B','U','G','!' *)
Definition AVERROR_INVALIDDATA : Z := FFERRTAG 73 78 68 65.  (* 'I','N','D','A' *)

(** Log levels of the messages emitted through [av_log]. *)
Inductive log_level := AV_LOG_ERROR | AV_LOG_WARNING.

(** ** Cropping ([calc_cropping_offsets], [apply_cropping]) *)
Module Cropping.

(** The part of [AVPixFmtDescriptor] the cropping code reads.  A component
    descriptor is reduced to its [plane] and [step]. *)
Record comp_desc := { plane : Z; step : Z }.

Record pix_desc := {
  log2_chroma_w : Z;
  log2_chroma_h : Z;
  desc_flags : Z;
  comp : list comp_desc  (* [nb_components] is [length comp] *)
}.

Definition AV_PIX_FMT_FLAG_PAL       : Z := 2.
Definition AV_PIX_FMT_FLAG_BITSTREAM : Z := 4.
Definition AV_PIX_FMT_FLAG_HWACCEL   : Z := 8.
Definition AV_PIX_FMT_FLAG_PSEUDOPAL : Z := 64.
Definition AV_CODEC_FLAG_UNALIGNED   : Z := 1.

(** The fields of [AVFrame] touched by cropping.  [data] lists the
    non-NULL plane pointers [data[0..]] (the C loops stop at the first NULL
    entry), as addresses. *)
Record frame := {
  data : list Z;
  linesize : list Z;
  width : Z;
  height : Z;
  format : Z;
  crop_left : Z;
  crop_right : Z;
  crop_top : Z;
  crop_bottom : Z
}.

Definition set_crops (f : frame) (l r t b : Z) : frame :=
  {| data := data f; linesize := linesize f; width := width f;
     height := height f; format := format f;
     crop_left := l; crop_right := r; crop_top := t; crop_bottom := b |}.

Definition set_geometry (f : frame) (d : list Z) (w h : Z) : frame :=
  {| data := d; linesize := linesize f; width := w; height := h;
     format := format f; crop_left := crop_left f; crop_right := crop_right f;
     crop_top := crop_top f; crop_bottom := crop_bottom f |}.

(** The codec-context fields read by [apply_cropping]. *)
Record crop_ctx := { ctx_apply_cropping : bool; ctx_flags : Z }.

(** "find any component descriptor for this plane" *)
Fixpoint find_comp (i : Z) (cs : list comp_desc) : option comp_desc :=
  match cs with
  | [] => None
  | c :: cs' => if plane c =? i then Some c else find_comp i cs'
  end.

(** [calc_cropping_offsets]: returns the computed offsets [offsets[0..k-1]]
    and the return code.  Entries the C function leaves unwritten (after a
    [break] or the [AVERROR_BUG] return) are absent from the list; readers
    use [nth i offsets 0]. *)
Fixpoint calc_offsets_from (i : Z) (planes : list Z) (f : frame) (d : pix_desc)
  : list Z * Z :=
  match planes with
  | [] => ([], 0)
  | _ :: planes' =>
      let shift_x := if (i =? 1) || (i =? 2) then log2_chroma_w d else 0 in
      let shift_y := if (i =? 1) || (i =? 2) then log2_chroma_h d else 0 in
      if negb (Z.land (desc_flags d) (Z.lor AV_PIX_FMT_FLAG_PAL AV_PIX_FMT_FLAG_PSEUDOPAL)
               =? 0) && (i =? 1)
      then ([0], 0)
      else match find_comp i (comp d) with
           | None => ([], AVERROR_BUG)
           | Some c =>
               let off := to_size (Z.shiftr (crop_top f) shift_y
                                     * to_size (nth (Z.to_nat i) (linesize f) 0)
                                   + Z.shiftr (crop_left f) shift_x
                                     * to_size (step c)) in
               let '(rest, r) := calc_offsets_from (i + 1) planes' f d in
               (off :: rest, r)
           end
  end.

Definition calc_cropping_offsets (f : frame) (d : pix_desc) : list Z * Z :=
  calc_offsets_from 0 (data f) f d.

Fixpoint ctz_aux (n : nat) (k u : Z) : Z :=
  match n with
  | O => k
  | S n' => if Z.testbit u k then k else ctz_aux n' (k + 1) u
  end.

(** [av_ctz] on an [int]: the offset is truncated to 32 bits; the value
    32 is used for a zero argument. *)
Definition av_ctz (v : Z) : Z := ctz_aux 32 0 (v mod 2 ^ 32).

(** [min_log2_align]: the smallest [av_ctz] over the non-zero offsets of the
    present planes, [INT_MAX] if all are zero. *)
Definition min_log2_align (nplanes : nat) (offsets : list Z) : Z :=
  fold_left (fun m i =>
               let o := nth i offsets 0 in
               Z.min (if o =? 0 then INT_MAX else av_ctz o) m)
            (seq 0 nplanes) INT_MAX.

(** [apply_cropping]: returns the updated frame, the return code and the
    levels of the messages logged. *)
Definition apply_cropping (desc_get : Z -> option pix_desc) (c : crop_ctx)
    (f : frame) : frame * Z * list log_level :=
  if (to_size (INT_MAX - crop_right f) <=? crop_left f) ||
     (to_size (INT_MAX - crop_bottom f) <=? crop_top f) ||
     (to_size (width f) <=? to_size (crop_left f + crop_right f)) ||
     (to_size (height f) <=? to_size (crop_top f + crop_bottom f))
  then (set_crops f 0 0 0 0, 0, [AV_LOG_WARNING])
  else if negb (ctx_apply_cropping c) then (f, 0, [])
  else match desc_get (format f) with
  | None => (f, AVERROR_BUG, [])
  | Some d =>
      if Z.land (desc_flags d) (Z.lor AV_PIX_FMT_FLAG_BITSTREAM AV_PIX_FMT_FLAG_HWACCEL)
         =? 0 then
        let offsets := fst (calc_cropping_offsets f d) in
        let f1 :=
          if Z.land (ctx_flags c) AV_CODEC_FLAG_UNALIGNED =? 0 then
            let m := min_log2_align (length (data f)) offsets in
            if m <? 5 then
              set_crops f (to_size (Z.land (crop_left f) (Z.lnot (Z.shiftl 1 m - 1))))
                        (crop_right f) (crop_top f) (crop_bottom f)
            else f
          else f in
        let offsets1 :=
          if (Z.land (ctx_flags c) AV_CODEC_FLAG_UNALIGNED =? 0) &&
             (min_log2_align (length (data f)) offsets <? 5)
          then fst (calc_cropping_offsets f1 d) else offsets in
        let data' := map (fun '(p, i) => p + nth i offsets1 0)
                         (combine (data f1) (seq 0 (length (data f1)))) in
        let f2 := set_geometry f1 data'
                    (to_int (to_size (width f1) - to_size (crop_left f1 + crop_right f1)))
                    (to_int (to_size (height f1) - to_size (crop_top f1 + crop_bottom f1))) in
        (set_crops f2 0 0 0 0, 0, [])
      else
        let f1 := set_geometry f (data f)
                    (to_int (to_size (width f) - crop_right f))
                    (to_int (to_size (height f) - crop_bottom f)) in
        (set_crops f1 (crop_left f) 0 (crop_top f) 0, 0, [])
  end.

End Cropping.

(** ** Parameter-change side data ([apply_param_change]) *)
Module ParamChange.

Definition AV_SIDE_DATA_PARAM_CHANGE_CHANNEL_COUNT  : Z := 1.
Definition AV_SIDE_DATA_PARAM_CHANGE_CHANNEL_LAYOUT : Z := 2.
Definition AV_SIDE_DATA_PARAM_CHANGE_SAMPLE_RATE    : Z := 4.
Definition AV_SIDE_DATA_PARAM_CHANGE_DIMENSIONS     : Z := 8.
Definition AV_EF_EXPLODE : Z := 8.

(** The codec-context fields written by [apply_param_change]. *)
Record pctx := {
  channels : Z;
  channel_layout : Z;
  sample_rate : Z;
  width : Z;
  height : Z
}.

Definition set_channels (c : pctx) v :=
  {| channels := v; channel_layout := channel_layout c; sample_rate := sample_rate c;
     width := width c; height := height c |}.
Definition set_channel_layout (c : pctx) v :=
  {| channels := channels c; channel_layout := v; sample_rate := sample_rate c;
     width := width c; height := height c |}.
Definition set_sample_rate (c : pctx) v :=
  {| channels := channels c; channel_layout := channel_layout c; sample_rate := v;
     width := width c; height := height c |}.
Definition set_wh (c : pctx) w h :=
  {| channels := channels c; channel_layout := channel_layout c;
     sample_rate := sample_rate c; width := w; height := h |}.

(** [bytestream_get_le32] / [bytestream_get_le64] on a byte list (bytes are
    [Z] in [0, 255]); the caller has checked that enough bytes remain. *)
Fixpoint get_le (n : nat) (bs : list Z) : Z :=
  match n, bs with
  | O, _ => 0
  | S n', b :: bs' => b + 256 * get_le n' bs'
  | S _, [] => 0
  end.

(** Outcome of the body of [apply_param_change] before its [fail] and
    [fail2] labels. *)
Inductive pc_outcome :=
| PCDone (c : pctx)
| PCFail (c : pctx)              (* goto fail *)
| PCFail2 (c : pctx) (ret : Z).  (* goto fail2 with ret *)

Section ApplyParamChange.

(** [ff_set_dimensions] lives in libavcodec/utils.c: it returns the
    dimensions it stores in the context and its return code. *)
Variable ff_set_dimensions : Z -> Z -> (Z * Z) * Z.

(** The body of [apply_param_change] after the capability check, with
    [FF_API_OLD_CHANNEL_LAYOUT] enabled.  [size] is the number of bytes
    left and [data] the read cursor. *)
Definition param_change_body (data : list Z) (c : pctx) : pc_outcome :=
  let size := Z.of_nat (List.length data) in
  if size <? 4 then PCFail c else
  let flags := get_le 4 data in
  let data := skipn 4 data in
  let size := size - 4 in
  let '(c, data, size, ok) :=
    if Z.land flags AV_SIDE_DATA_PARAM_CHANGE_CHANNEL_COUNT =? 0 then (c, data, size, true)
    else if size <? 4 then (c, data, size, false)
    else (set_channels c (to_int (get_le 4 data)), skipn 4 data, size - 4, true) in
  if negb ok then PCFail c else
  let '(c, data, size, ok) :=
    if Z.land flags AV_SIDE_DATA_PARAM_CHANGE_CHANNEL_LAYOUT =? 0 then (c, data, size, true)
    else if size <? 8 then (c, data, size, false)
    else (set_channel_layout c (get_le 8 data), skipn 8 data, size - 8, true) in
  if negb ok then PCFail c else
  let '(c, data, size, ok) :=
    if Z.land flags AV_SIDE_DATA_PARAM_CHANGE_SAMPLE_RATE =? 0 then (c, data, size, true)
    else if size <? 4 then (c, data, size, false)
    else (set_sample_rate c (to_int (get_le 4 data)), skipn 4 data, size - 4, true) in
  if negb ok then PCFail c else
  if Z.land flags AV_SIDE_DATA_PARAM_CHANGE_DIMENSIONS =? 0 then PCDone c
  else if size <? 8 then PCFail c
  else
    let c := set_wh c (to_int (get_le 4 data)) (to_int (get_le 4 (skipn 4 data))) in
    let '((w, h), ret) := ff_set_dimensions (width c) (height c) in
    let c := set_wh c w h in
    if ret <? 0 then PCFail2 c ret else PCDone c.

(** [apply_param_change]: [side] is the [AV_PKT_DATA_PARAM_CHANGE] side data
    of the packet, if any; [cap_param_change] is the codec's
    [AV_CODEC_CAP_PARAM_CHANGE] capability.  Returns the updated context,
    the return code and the levels of the messages logged. *)
Definition apply_param_change (cap_param_change : bool) (err_recognition : Z)
    (side : option (list Z)) (c : pctx) : pctx * Z * list log_level :=
  let fail2 c ret logs :=
    if ret <? 0 then
      if negb (Z.land err_recognition AV_EF_EXPLODE =? 0)
      then (c, ret, logs ++ [AV_LOG_ERROR])
      else (c, 0, logs ++ [AV_LOG_ERROR])
    else (c, 0, logs) in
  match side with
  | None => (c, 0, [])
  | Some data =>
      if negb cap_param_change then fail2 c AVERROR_EINVAL [AV_LOG_ERROR]
      else match param_change_body data c with
           | PCDone c => (c, 0, [])
           | PCFail c => fail2 c AVERROR_INVALIDDATA [AV_LOG_ERROR]
           | PCFail2 c ret => fail2 c ret []
           end
  end.

End ApplyParamChange.

End ParamChange.

(** ** Packets *)

(** [AVPacket]: [pkt_data] is [None] for a NULL data pointer, otherwise
    the payload bytes ([size] is their number); [pkt_side] lists the side
    data as (type, payload) pairs. *)
Record packet := {
  pkt_data : option (list Z);
  pkt_side : list (Z * list Z);
  pkt_pts : Z;
  pkt_dts : Z
}.

Definition AV_NOPTS_VALUE : Z := - 2 ^ 63.

(** The state of a packet after [av_packet_unref]. *)
Definition blank_packet : packet :=
  {| pkt_data := None; pkt_side := []; pkt_pts := AV_NOPTS_VALUE;
     pkt_dts := AV_NOPTS_VALUE |}.

Definition pkt_size (p : packet) : Z :=
  match pkt_data p with Some d => Z.of_nat (List.length d) | None => 0 end.

(** [pkt->data || pkt->side_data_elems] *)
Definition pkt_nonblank (p : packet) : bool :=
  match pkt_data p, pkt_side p with None, [] => false | _, _ => true end.

(** ** The bitstream-filter chain ([bsfs_poll]) *)
Module BSF.

(** Modelled from the spec: the bitstream-filter implementations and
    [av_bsf_send_packet] / [av_bsf_receive_packet] (libavcodec/bsf.c, not
    part of this file).  The spec fixes only the push/pull protocol: a
    filter accepts packets or an end marker, and hands out packets,
    "no data yet" ([EAGAIN]) or [EOF].  A filter here keeps its input in
    order and releases it in batches of [bsf_batch] packets (the "null"
    pass-through filter has batch 1); at the end marker it releases what
    it still holds. *)
Record bsf := {
  bsf_batch : nat;
  bsf_in : list packet;
  bsf_out : list packet;
  bsf_eof : bool
}.

Definition mk_bsf (batch : nat) : bsf :=
  {| bsf_batch := batch; bsf_in := []; bsf_out := []; bsf_eof := false |}.

(** [av_bsf_send_packet]: [None] stands for a NULL packet. *)
Definition av_bsf_send_packet (f : bsf) (p : option packet) : bsf * Z :=
  match p with
  | Some q =>
      if negb (pkt_nonblank q) then
        ({| bsf_batch := bsf_batch f; bsf_in := bsf_in f; bsf_out := bsf_out f;
            bsf_eof := true |}, 0)
      else if bsf_eof f then (f, AVERROR_EINVAL)
      else ({| bsf_batch := bsf_batch f; bsf_in := bsf_in f ++ [q];
               bsf_out := bsf_out f; bsf_eof := false |}, 0)
  | None =>
      ({| bsf_batch := bsf_batch f; bsf_in := bsf_in f; bsf_out := bsf_out f;
          bsf_eof := true |}, 0)
  end.

(** [av_bsf_receive_packet]: the packet handed out, or the error code. *)
Definition av_bsf_receive_packet (f : bsf) : bsf * (packet + Z) :=
  match bsf_out f with
  | p :: rest =>
      ({| bsf_batch := bsf_batch f; bsf_in := bsf_in f; bsf_out := rest;
          bsf_eof := bsf_eof f |}, inl p)
  | [] =>
      match bsf_in f with
      | p :: rest =>
          if Nat.leb (bsf_batch f) (List.length (bsf_in f)) || bsf_eof f then
            ({| bsf_batch := bsf_batch f; bsf_in := []; bsf_out := rest;
                bsf_eof := bsf_eof f |}, inl p)
          else (f, inr AVERROR_EAGAIN)
      | [] => (f, inr (if bsf_eof f then AVERROR_EOF else AVERROR_EAGAIN))
      end
  end.

(** [s->bsfs[idx] = f] *)
Fixpoint set_nth {A} (n : nat) (l : list A) (x : A) : list A :=
  match n, l with
  | O, _ :: l' => x :: l'
  | S n', y :: l' => y :: set_nth n' l' x
  | _, [] => []
  end.

(** The [while (idx >= 0)] loop of [bsfs_poll].  [chain] is [s->bsfs]
    ([nb_bsfs] is its length).  The result is the packet returned through
    [pkt] or the return code; [None] only when [fuel] runs out. *)
Fixpoint bsfs_poll_loop (fuel : nat) (idx : Z) (chain : list bsf)
  : option (list bsf * (packet + Z)) :=
  match fuel with
  | O => None
  | S fuel' =>
      if idx <? 0 then Some (chain, inr AVERROR_EAGAIN) else
      let i := Z.to_nat idx in
      let '(f, r) := av_bsf_receive_packet (nth i chain (mk_bsf 1)) in
      let chain := set_nth i chain f in
      match r with
      | inr e =>
          if e =? AVERROR_EAGAIN then bsfs_poll_loop fuel' (idx - 1) chain
          else if negb (e =? AVERROR_EOF) then Some (chain, inr e)
          else if idx =? Z.of_nat (List.length chain) - 1 then Some (chain, inr e)
          else
            let j := S i in
            let '(g, ret) := av_bsf_send_packet (nth j chain (mk_bsf 1)) None in
            let chain := set_nth j chain g in
            if ret <? 0 then Some (chain, inr ret)
            else bsfs_poll_loop fuel' (idx + 1) chain
      | inl p =>
          if idx =? Z.of_nat (List.length chain) - 1 then Some (chain, inl p)
          else
            let j := S i in
            let '(g, ret) := av_bsf_send_packet (nth j chain (mk_bsf 1)) (Some p) in
            let chain := set_nth j chain g in
            if ret <? 0 then Some (chain, inr ret)
            else bsfs_poll_loop fuel' (idx + 1) chain
      end
  end.

(** Packets held by the chain, oldest first: the last filter holds the
    oldest ones, and inside a filter the released packets precede the
    ones still batched. *)
Definition pending (chain : list bsf) : list packet :=
  concat (map (fun f => bsf_out f ++ bsf_in f) (rev chain)).

(** Enough iterations for [bsfs_poll_loop]: each iteration either moves
    the cursor one filter earlier, or moves a packet or the end marker one
    filter later. *)
Definition poll_fuel (chain : list bsf) : nat :=
  S ((List.length chain + 1) *
     (List.length chain * (List.length (pending chain) + 1) + 1)).

(** [bsfs_poll]: start with the last filter in the chain. *)
Definition bsfs_poll (chain : list bsf) : option (list bsf * (packet + Z)) :=
  bsfs_poll_loop (poll_fuel chain) (Z.of_nat (List.length chain) - 1) chain.

(** A client of the chain, as [avcodec_send_packet] (push into the first
    filter) and [ff_decode_get_packet] (pull) use it.  [tr_sent] lists the
    packets the first filter accepted, [tr_emitted] the packets pulled out
    of the chain, [tr_eof] whether a pull returned [EOF]. *)
Inductive chain_op := ChainSend (p : packet) | ChainPoll.

Record trace := {
  tr_chain : list bsf;
  tr_sent : list packet;
  tr_emitted : list packet;
  tr_eof : bool
}.

Fixpoint run_chain (ops : list chain_op) (t : trace) : option trace :=
  match ops with
  | [] => Some t
  | ChainSend p :: ops' =>
      let '(f, ret) := av_bsf_send_packet (nth 0 (tr_chain t) (mk_bsf 1)) (Some p) in
      run_chain ops'
        {| tr_chain := set_nth 0 (tr_chain t) f;
           tr_sent := if (ret =? 0) && pkt_nonblank p then tr_sent t ++ [p] else tr_sent t;
           tr_emitted := tr_emitted t; tr_eof := tr_eof t |}
  | ChainPoll :: ops' =>
      match bsfs_poll (tr_chain t) with
      | None => None
      | Some (c, inl p) =>
          run_chain ops' {| tr_chain := c; tr_sent := tr_sent t;
                            tr_emitted := tr_emitted t ++ [p]; tr_eof := tr_eof t |}
      | Some (c, inr e) =>
          run_chain ops' {| tr_chain := c; tr_sent := tr_sent t;
                            tr_emitted := tr_emitted t;
                            tr_eof := tr_eof t || (e =? AVERROR_EOF) |}
      end
  end.

Definition init_trace (batches : list nat) : trace :=
  {| tr_chain := map mk_bsf batches; tr_sent := []; tr_emitted := []; tr_eof := false |}.

End BSF.

(** ** The frame buffer pool ([update_frame_pool]) *)
Module Pool.

(** [FramePool] (libavcodec/internal.h).  A pool handle is [Some h]; a
    released slot is [None]. *)
Record FramePool := {
  format : Z;
  width : Z;
  height : Z;
  stride_align : list Z;
  linesize : list Z;
  planes : Z;
  channels : Z;
  samples : Z;
  pools : list (option Z)
}.

Inductive media_type := AVMEDIA_TYPE_VIDEO | AVMEDIA_TYPE_AUDIO | AVMEDIA_TYPE_OTHER.

(** The codec-context fields read. *)
Record pool_ctx := { codec_type : media_type; pix_fmt : Z; ctx_nb_channels : Z }.

(** The frame fields read. *)
Record pool_frame := {
  fr_format : Z; fr_width : Z; fr_height : Z; fr_nb_channels : Z; fr_nb_samples : Z
}.

Definition with_pools (p : FramePool) (ps : list (option Z)) : FramePool :=
  {| format := format p; width := width p; height := height p;
     stride_align := stride_align p; linesize := linesize p; planes := planes p;
     channels := channels p; samples := samples p; pools := ps |}.

Definition with_linesize (p : FramePool) (ls : list Z) : FramePool :=
  {| format := format p; width := width p; height := height p;
     stride_align := stride_align p; linesize := ls; planes := planes p;
     channels := channels p; samples := samples p; pools := pools p |}.

Definition with_stride_align (p : FramePool) (sa : list Z) : FramePool :=
  {| format := format p; width := width p; height := height p;
     stride_align := sa; linesize := linesize p; planes := planes p;
     channels := channels p; samples := samples p; pools := pools p |}.

Definition with_video_shape (p : FramePool) (fmt w h : Z) : FramePool :=
  {| format := fmt; width := w; height := h;
     stride_align := stride_align p; linesize := linesize p; planes := planes p;
     channels := channels p; samples := samples p; pools := pools p |}.

Definition with_audio_shape (p : FramePool) (fmt pl ch ns : Z) : FramePool :=
  {| format := fmt; width := width p; height := height p;
     stride_align := stride_align p; linesize := linesize p; planes := pl;
     channels := ch; samples := ns; pools := pools p |}.

(** [av_buffer_pool_uninit(&pool->pools[i])] *)
Definition pool_uninit (p : FramePool) (i : nat) : FramePool :=
  with_pools p (BSF.set_nth i (pools p) None).

(** The [fail:] label: every pool released, the descriptor emptied. *)
Definition pool_fail (p : FramePool) : FramePool :=
  let p := fold_left pool_uninit [0; 1; 2; 3]%nat p in
  {| format := -1; width := 0; height := 0;
     stride_align := stride_align p; linesize := linesize p; planes := 0;
     channels := 0; samples := 0; pools := pools p |}.

(** Bound on the iterations of the linesize loop; [w] has its lowest set
    bit doubled at each one, so an [int] [w] overflows after 31. *)
Definition LINESIZE_LOOP_BOUND : nat := 64.

Section UpdateFramePool.

(** The libavutil and libavcodec services [update_frame_pool] calls. *)
(** [avcodec_align_dimensions2]: aligned [w], [h] and [linesize_align]. *)
Variable avcodec_align_dimensions2 : pool_ctx -> Z -> Z -> (Z * Z) * list Z.
(** [av_image_fill_linesizes] for a pixel format and width. *)
Variable av_image_fill_linesizes : Z -> Z -> list Z.
(** [av_image_fill_pointers] with a NULL base: the four plane pointers
    ([0] for NULL) and the returned size. *)
Variable av_image_fill_pointers : Z -> Z -> list Z -> list Z * Z.
(** [av_sample_fmt_is_planar] *)
Variable av_sample_fmt_is_planar : Z -> bool.
(** [av_samples_get_buffer_size]: from the old [linesize[0]], the channel
    count, sample count and format, the new [linesize[0]] and the result. *)
Variable av_samples_get_buffer_size : Z -> Z -> Z -> Z -> Z * Z.
(** [av_buffer_pool_init]: a new pool, or [None] on allocation failure. *)
Variable av_buffer_pool_init : Z -> option Z.

Fixpoint linesize_loop (fuel : nat) (pixfmt w : Z) (align : list Z) : option (list Z) :=
  match fuel with
  | O => None
  | S fuel' =>
      let ls := av_image_fill_linesizes pixfmt w in
      let w := w + Z.land w (Z.lnot (w - 1)) in
      let unaligned :=
        fold_left (fun u i => Z.lor u (Z.rem (nth i ls 0) (nth i align 0)))
                  [0; 1; 2; 3]%nat 0 in
      if unaligned =? 0 then Some ls else linesize_loop fuel' pixfmt w align
  end.

(** [size[0..3]] from the plane pointers and the total size. *)
Fixpoint plane_sizes (n i : nat) (data : list Z) (tmpsize : Z) : list Z :=
  match n with
  | S n' =>
      if negb (nth (S i) data 0 =? 0)
      then (nth (S i) data 0 - nth i data 0) :: plane_sizes n' (S i) data tmpsize
      else [tmpsize - (nth i data 0 - nth 0 data 0)]
  | O => [tmpsize - (nth i data 0 - nth 0 data 0)]
  end.

(** The loop re-creating the four per-plane pools; [Error] is the jump to
    [fail]. *)
Fixpoint rebuild_pools (idx : list nat) (p : FramePool) (ls size : list Z)
  : FramePool + FramePool :=
  match idx with
  | [] => inl p
  | i :: idx' =>
      let p := pool_uninit p i in
      let p := with_linesize p (BSF.set_nth i (linesize p) (nth i ls 0)) in
      if nth i size 0 =? 0 then rebuild_pools idx' p ls size
      else match av_buffer_pool_init (nth i size 0 + 16) with
           | None => inr p
           | Some h => rebuild_pools idx' (with_pools p (BSF.set_nth i (pools p) (Some h))) ls size
           end
  end.

(** [update_frame_pool]: the updated pool and the return code; [None] when
    the linesize loop does not settle within its bound or the codec type is
    neither video nor audio ([av_assert0(0)]). *)
Definition update_frame_pool (avctx : pool_ctx) (p : FramePool) (fr : pool_frame)
  : option (FramePool * Z) :=
  match codec_type avctx with
  | AVMEDIA_TYPE_VIDEO =>
      if (format p =? fr_format fr) && (width p =? fr_width fr) && (height p =? fr_height fr)
      then Some (p, 0)
      else
        let '((w, h), sa) := avcodec_align_dimensions2 avctx (fr_width fr) (fr_height fr) in
        let p := with_stride_align p sa in
        match linesize_loop LINESIZE_LOOP_BOUND (pix_fmt avctx) w sa with
        | None => None
        | Some ls =>
            let '(data, tmpsize) := av_image_fill_pointers (pix_fmt avctx) h ls in
            if tmpsize <? 0 then Some (p, -1)
            else
              match rebuild_pools [0; 1; 2; 3]%nat p ls (plane_sizes 3 0 data tmpsize) with
              | inr p => Some (pool_fail p, AVERROR_ENOMEM)
              | inl p => Some (with_video_shape p (fr_format fr) (fr_width fr) (fr_height fr), 0)
              end
        end
  | AVMEDIA_TYPE_AUDIO =>
      let ch := fr_nb_channels fr in
      let planar := av_sample_fmt_is_planar (fr_format fr) in
      let pl := if planar then ctx_nb_channels avctx else 1 in
      if (format p =? fr_format fr) && (planes p =? pl) && (channels p =? ch) &&
         (fr_nb_samples fr =? samples p)
      then Some (p, 0)
      else
        let p := pool_uninit p 0 in
        let '(ls0, ret) := av_samples_get_buffer_size (nth 0 (linesize p) 0) ch
                             (fr_nb_samples fr) (fr_format fr) in
        let p := with_linesize p (BSF.set_nth 0 (linesize p) ls0) in
        if ret <? 0 then Some (pool_fail p, ret)
        else match av_buffer_pool_init ls0 with
             | None => Some (pool_fail p, AVERROR_ENOMEM)
             | Some hdl =>
                 let p := with_pools p (BSF.set_nth 0 (pools p) (Some hdl)) in
                 Some (with_audio_shape p (fr_format fr) pl ch (fr_nb_samples fr), 0)
             end
  | AVMEDIA_TYPE_OTHER => None
  end.

End UpdateFramePool.

End Pool.

(** ** The decoding driver (send/receive API) *)
Module Driver.
Import BSF.
#[local] Set Implicit Arguments.

(** [AVFrame] as the driver sees it: [buf0] is [frame->buf[0]] ([None]
    for NULL), [img] the picture fields cropping reads and writes. *)
Record dframe := { buf0 : option Z; img : Cropping.frame; frame_pkt_dts : Z }.

(** A frame after [av_frame_unref] (defaults of [get_frame_defaults]). *)
Definition unset_frame : dframe :=
  {| buf0 := None;
     img := {| Cropping.data := []; Cropping.linesize := []; Cropping.width := 0;
               Cropping.height := 0; Cropping.format := -1; Cropping.crop_left := 0;
               Cropping.crop_right := 0; Cropping.crop_top := 0; Cropping.crop_bottom := 0 |};
     frame_pkt_dts := AV_NOPTS_VALUE |}.

Definition set_img (f : dframe) (i : Cropping.frame) : dframe :=
  {| buf0 := buf0 f; img := i; frame_pkt_dts := frame_pkt_dts f |}.

Definition set_frame_pkt_dts (f : dframe) (d : Z) : dframe :=
  {| buf0 := buf0 f; img := img f; frame_pkt_dts := d |}.

(** [AV_PKT_DATA_PARAM_CHANGE] and [av_packet_get_side_data]. *)
Definition AV_PKT_DATA_PARAM_CHANGE : Z := 2.

Definition get_side_data (p : packet) (ty : Z) : option (list Z) :=
  option_map snd (find (fun e => fst e =? ty) (pkt_side p)).

(** The fields [av_packet_copy_props] copies (everything but the data). *)
Definition packet_props (p : packet) : packet :=
  {| pkt_data := None; pkt_side := pkt_side p; pkt_pts := pkt_pts p; pkt_dts := pkt_dts p |}.

(** The settings of an open codec context that decoding does not change.
    [thread_frame] is [active_thread_type & FF_THREAD_FRAME] (with
    [HAVE_THREADS]). *)
Record config := {
  is_open : bool;             (* avcodec_is_open *)
  is_decoder : bool;          (* av_codec_is_decoder(avctx->codec) *)
  thread_frame : bool;
  cfg_apply_cropping : bool;
  cfg_flags : Z;
  err_recognition : Z;
  pix_fmt : Z;
  sample_fmt : Z;
  refcounted_frames : bool
}.

(** Counters and copies the driver writes but never reads. *)
Record book := {
  frame_number : Z;
  compat_decode_consumed : Z;
  last_pkt_props : packet;
  to_free : dframe
}.

Section Driver.

(** The private state of the codec implementation. *)
Variable BState : Type.

(** A [receive_frame] callback: it pulls packets through
    [ff_decode_get_packet] (the continuation gets its return code and
    packet) and finishes with its new state, the frame and a return
    code. *)
Inductive rprog :=
| RDone (s : BState) (f : dframe) (ret : Z)
| RGetPacket (k : Z -> packet -> rprog).

(** The [AVCodec] callbacks and capabilities the driver reads.
    [decode] is [avctx->codec->decode] and [thread_decode]
    [ff_thread_decode_frame]: new state, frame, [got_frame], return code.
    [codec_bsfs] is [avctx->codec->bsfs] as the batch sizes of its filters
    ([None] for NULL, i.e. "null"); [bsfs_init_err] the error of
    [bsfs_init]'s allocation and initialisation steps, if one fails. *)
Record codec := {
  receive_frame : option (BState -> dframe -> rprog);
  decode : BState -> dframe -> packet -> BState * dframe * bool * Z;
  thread_decode : BState -> dframe -> packet -> BState * dframe * bool * Z;
  flush : option (BState -> BState);
  thread_flush : BState -> BState;
  cap_delay : bool;
  cap_dr1 : bool;
  cap_param_change : bool;
  sets_pkt_dts : bool;
  codec_type : Pool.media_type;
  codec_bsfs : option (list nat);
  bsfs_init_err : option Z
}.

(** The per-stream state of [AVCodecInternal] and the fields of the
    context it updates. *)
Record state := {
  params : ParamChange.pctx;
  draining : bool;
  draining_done : bool;
  buffer_pkt : packet;
  buffer_pkt_valid : bool;
  buffer_frame : dframe;
  compat_decode_frame : dframe;
  in_pkt : packet;             (* ds.in_pkt *)
  chain : list bsf;            (* filter.bsfs, nb_bsfs is its length *)
  bst : BState
}.

Record dctx := { cfg : config; st : state; bk : book }.

Definition upd_st (c : dctx) (f : state -> state) : dctx :=
  {| cfg := cfg c; st := f (st c); bk := bk c |}.
Definition upd_bk (c : dctx) (f : book -> book) : dctx :=
  {| cfg := cfg c; st := st c; bk := f (bk c) |}.

Definition set_params c v := upd_st c (fun s => Build_state v (draining s) (draining_done s)
  (buffer_pkt s) (buffer_pkt_valid s) (buffer_frame s) (compat_decode_frame s) (in_pkt s) (chain s) (bst s)).
Definition set_draining c v := upd_st c (fun s => Build_state (params s) v (draining_done s)
  (buffer_pkt s) (buffer_pkt_valid s) (buffer_frame s) (compat_decode_frame s) (in_pkt s) (chain s) (bst s)).
Definition set_draining_done c v := upd_st c (fun s => Build_state (params s) (draining s) v
  (buffer_pkt s) (buffer_pkt_valid s) (buffer_frame s) (compat_decode_frame s) (in_pkt s) (chain s) (bst s)).
Definition set_buffer_pkt c v := upd_st c (fun s => Build_state (params s) (draining s) (draining_done s)
  v (buffer_pkt_valid s) (buffer_frame s) (compat_decode_frame s) (in_pkt s) (chain s) (bst s)).
Definition set_buffer_frame c v := upd_st c (fun s => Build_state (params s) (draining s) (draining_done s)
  (buffer_pkt s) (buffer_pkt_valid s) v (compat_decode_frame s) (in_pkt s) (chain s) (bst s)).
Definition set_in_pkt c v := upd_st c (fun s => Build_state (params s) (draining s) (draining_done s)
  (buffer_pkt s) (buffer_pkt_valid s) (buffer_frame s) (compat_decode_frame s) v (chain s) (bst s)).
Definition set_chain c v := upd_st c (fun s => Build_state (params s) (draining s) (draining_done s)
  (buffer_pkt s) (buffer_pkt_valid s) (buffer_frame s) (compat_decode_frame s) (in_pkt s) v (bst s)).
Definition set_bst c v := upd_st c (fun s => Build_state (params s) (draining s) (draining_done s)
  (buffer_pkt s) (buffer_pkt_valid s) (buffer_frame s) (compat_decode_frame s) (in_pkt s) (chain s) v).

(** [compat_decode_consumed += n]: the field is a [size_t], the [int]
    added is converted to it, and the sum wraps modulo 2^64. *)
Definition add_consumed c (n : Z) := upd_bk c (fun b => Build_book (frame_number b)
  ((compat_decode_consumed b + n) mod 2 ^ 64) (last_pkt_props b) (to_free b)).
Definition set_last_pkt_props c v := upd_bk c (fun b => Build_book (frame_number b)
  (compat_decode_consumed b) v (to_free b)).
Definition incr_frame_number c := upd_bk c (fun b => Build_book (frame_number b + 1)
  (compat_decode_consumed b) (last_pkt_props b) (to_free b)).
Definition set_to_free c v := upd_bk c (fun b => Build_book (frame_number b)
  (compat_decode_consumed b) (last_pkt_props b) v).

(** [avctx->codec] *)
Variable avcodec : codec.
(** [ff_set_dimensions] (libavcodec/utils.c), as in [apply_param_change]. *)
Variable ff_set_dimensions : Z -> Z -> (Z * Z) * Z.
(** [av_pix_fmt_desc_get] (libavutil/pixdesc.c). *)
Variable av_pix_fmt_desc_get : Z -> option Cropping.pix_desc.

(** [bsfs_init]: build the chain on first use.  On failure the [fail:]
    path ([ff_decode_bsfs_uninit]) leaves no filter. *)
Definition bsfs_init (c : dctx) : dctx * Z :=
  match chain (st c) with
  | _ :: _ => (c, 0)
  | [] =>
      match bsfs_init_err avcodec with
      | Some e => (set_chain c [], e)
      | None =>
          let batches := match codec_bsfs avcodec with Some l => l | None => [1%nat] end in
          (set_chain c (map mk_bsf batches), 0)
      end
  end.

(** [bsfs_poll] always returns within its iteration bound
    ([BSFFacts.bsfs_poll_some]); the [None] branch is never taken. *)
Definition bsfs_poll_total (l : list bsf) : list bsf * (packet + Z) :=
  match bsfs_poll l with Some r => r | None => (l, inr AVERROR_BUG) end.

(** [ff_decode_get_packet]: the updated context, the return code and the
    packet ([av_packet_copy_props] is taken to succeed). *)
Definition ff_decode_get_packet (c : dctx) : dctx * Z * packet :=
  if draining (st c) then (c, AVERROR_EOF, blank_packet)
  else
    let '(l, r) := bsfs_poll_total (chain (st c)) in
    let c := set_chain c l in
    match r with
    | inr ret =>
        let c := if ret =? AVERROR_EOF then set_draining c true else c in
        (c, ret, blank_packet)
    | inl pkt =>
        let c := set_last_pkt_props c (packet_props pkt) in
        let '(pc, ret, _) :=
          ParamChange.apply_param_change ff_set_dimensions (cap_param_change avcodec)
            (err_recognition (cfg c)) (get_side_data pkt AV_PKT_DATA_PARAM_CHANGE)
            (params (st c)) in
        let c := set_params c pc in
        if ret <? 0 then (c, ret, blank_packet)
        else
          let c := match receive_frame avcodec with
                   | Some _ => add_consumed c (pkt_size pkt)
                   | None => c
                   end in
          (c, 0, pkt)
    end.

(** [pkt->data += consumed; pkt->size -= consumed; pts = dts = NOPTS] *)
Definition advance_packet (p : packet) (n : Z) : packet :=
  {| pkt_data := option_map (skipn (Z.to_nat n)) (pkt_data p); pkt_side := pkt_side p;
     pkt_pts := AV_NOPTS_VALUE; pkt_dts := AV_NOPTS_VALUE |}.

(** The frame parameters set after [decode] when the codec does not
    have [AV_CODEC_CAP_DR1] ([sample_aspect_ratio] is not modelled). *)
Definition set_frame_params (c : dctx) (f : dframe) : dframe :=
  let i := img f in
  set_img f {| Cropping.data := Cropping.data i; Cropping.linesize := Cropping.linesize i;
               Cropping.width := ParamChange.width (params (st c));
               Cropping.height := ParamChange.height (params (st c));
               Cropping.format := match codec_type avcodec with
                                  | Pool.AVMEDIA_TYPE_VIDEO => pix_fmt (cfg c)
                                  | _ => sample_fmt (cfg c)
                                  end;
               Cropping.crop_left := Cropping.crop_left i;
               Cropping.crop_right := Cropping.crop_right i;
               Cropping.crop_top := Cropping.crop_top i;
               Cropping.crop_bottom := Cropping.crop_bottom i |}.

Definition is_video : bool :=
  match codec_type avcodec with Pool.AVMEDIA_TYPE_VIDEO => true | _ => false end.

(** [decode_simple_internal]; [None] is a failed [av_assert0]. *)
Definition decode_simple_internal (c : dctx) (frame : dframe) : option (dctx * dframe * Z) :=
  let '(c, early) :=
    if (match pkt_data (in_pkt (st c)) with None => true | Some _ => false end)
       && negb (draining (st c)) then
      let '(c, ret, p) := ff_decode_get_packet (set_in_pkt c blank_packet) in
      let c := set_in_pkt c p in
      if (ret <? 0) && negb (ret =? AVERROR_EOF) then (c, Some ret) else (c, None)
    else (c, None) in
  match early with
  | Some ret => Some (c, frame, ret)
  | None =>
  let pkt := in_pkt (st c) in
  if draining_done (st c) then Some (c, frame, AVERROR_EOF)
  else if (match pkt_data pkt with None => true | Some _ => false end) &&
          negb (cap_delay avcodec || thread_frame (cfg c))
  then Some (c, frame, AVERROR_EOF)
  else
    let '(s, frame, got_frame, ret) :=
      if thread_frame (cfg c) then thread_decode avcodec (bst (st c)) frame pkt
      else
        let '(s, frame, got_frame, ret) := decode avcodec (bst (st c)) frame pkt in
        let frame := if sets_pkt_dts avcodec then frame else set_frame_pkt_dts frame (pkt_dts pkt) in
        let frame := if cap_dr1 avcodec then frame else set_frame_params c frame in
        (s, frame, got_frame, ret) in
    let c := set_bst c s in
    let frame := if got_frame then frame else unset_frame in
    let ret := if (0 <=? ret) && is_video then pkt_size pkt else ret in
    let c := if draining (st c) && negb got_frame then set_draining_done c true else c in
    let c := add_consumed c ret in
    let c := if (pkt_size pkt <=? ret) || (ret <? 0) then set_in_pkt c blank_packet
             else
               let c := set_in_pkt c (advance_packet pkt ret) in
               let lp := last_pkt_props (bk c) in
               set_last_pkt_props c {| pkt_data := pkt_data lp; pkt_side := pkt_side lp;
                                       pkt_pts := AV_NOPTS_VALUE; pkt_dts := AV_NOPTS_VALUE |} in
    if got_frame && (match buf0 frame with None => true | Some _ => false end) then None
    else Some (c, frame, if ret <? 0 then ret else 0)
  end.

(** [decode_simple_receive_frame]: the [while (!frame->buf[0])] loop,
    with a bound on its iterations ([None] when the bound is reached or
    an assertion fails). *)
Fixpoint decode_simple_receive_frame (fuel : nat) (c : dctx) (frame : dframe)
  : option (dctx * dframe * Z) :=
  match fuel with
  | O => None
  | S fuel' =>
      match buf0 frame with
      | Some _ => Some (c, frame, 0)
      | None =>
          match decode_simple_internal c frame with
          | None => None
          | Some (c, frame, ret) =>
              if ret <? 0 then Some (c, frame, ret)
              else decode_simple_receive_frame fuel' c frame
          end
      end
  end.

Definition DECODE_LOOP_BOUND : nat := 1000.

(** Running a [receive_frame] callback: each packet request is served by
    [ff_decode_get_packet]. *)
Fixpoint run_rprog (pr : rprog) (c : dctx) : dctx * dframe * Z :=
  match pr with
  | RDone s f ret => (set_bst c s, f, ret)
  | RGetPacket k =>
      let '(c, ret, p) := ff_decode_get_packet c in
      run_rprog (k ret p) c
  end.

(** [decode_receive_frame_internal] *)
Definition decode_receive_frame_internal (c : dctx) (frame : dframe)
  : option (dctx * dframe * Z) :=
  match buf0 frame with
  | Some _ => None
  | None =>
      let r := match receive_frame avcodec with
               | Some rf => Some (run_rprog (rf (bst (st c)) frame) c)
               | None => decode_simple_receive_frame DECODE_LOOP_BOUND c frame
               end in
      match r with
      | None => None
      | Some (c, frame, ret) =>
          Some (if ret =? AVERROR_EOF then set_draining_done c true else c, frame, ret)
      end
  end.

(** [avcodec_send_packet]; [avpkt] is [None] for a NULL pointer.
    [av_packet_ref] is taken to succeed.  [None]: the decode loop did not
    finish, an assertion failed, or [bsfs[0]] does not exist. *)
Definition avcodec_send_packet (c : dctx) (avpkt : option packet) : option (dctx * Z) :=
  if negb (is_open (cfg c) && is_decoder (cfg c)) then Some (c, AVERROR_EINVAL)
  else if draining (st c) then Some (c, AVERROR_EOF)
  else
    let '(c, ret) := bsfs_init c in
    if ret <? 0 then Some (c, ret)
    else
      let c := set_buffer_pkt c blank_packet in
      let c := match avpkt with
               | Some p => if pkt_nonblank p then set_buffer_pkt c p else c
               | None => c
               end in
      match chain (st c) with
      | [] => None
      | f0 :: rest =>
          let '(f0, ret) := av_bsf_send_packet f0 (Some (buffer_pkt (st c))) in
          (* the packet is moved into the filter, or unreferenced on error *)
          let c := set_buffer_pkt (set_chain c (f0 :: rest)) blank_packet in
          if ret <? 0 then Some (c, ret)
          else
            match buf0 (buffer_frame (st c)) with
            | Some _ => Some (c, 0)
            | None =>
                match decode_receive_frame_internal c (buffer_frame (st c)) with
                | None => None
                | Some (c, f, ret) =>
                    let c := set_buffer_frame c f in
                    if (ret <? 0) && negb (ret =? AVERROR_EAGAIN) && negb (ret =? AVERROR_EOF)
                    then Some (c, ret) else Some (c, 0)
                end
            end
      end.

(** [avcodec_receive_frame]: the context, the caller's frame and the
    return code. *)
Definition avcodec_receive_frame (c : dctx) (frame : dframe) : option (dctx * dframe * Z) :=
  let frame := unset_frame in
  if negb (is_open (cfg c) && is_decoder (cfg c)) then Some (c, frame, AVERROR_EINVAL)
  else
    let '(c, ret) := bsfs_init c in
    if ret <? 0 then Some (c, frame, ret)
    else
      let r := match buf0 (buffer_frame (st c)) with
               | Some _ => Some (set_buffer_frame c unset_frame, buffer_frame (st c), 0)
               | None => decode_receive_frame_internal c frame
               end in
      match r with
      | None => None
      | Some (c, frame, ret) =>
          if ret <? 0 then Some (c, frame, ret)
          else
            let '(frame, ret) :=
              if is_video then
                let '(i, ret, _) :=
                  Cropping.apply_cropping av_pix_fmt_desc_get
                    {| Cropping.ctx_apply_cropping := cfg_apply_cropping (cfg c);
                       Cropping.ctx_flags := cfg_flags (cfg c) |} (img frame) in
                (set_img frame i, ret)
              else (frame, 0) in
            if ret <? 0 then Some (c, unset_frame, ret)
            else Some (incr_frame_number c, frame, 0)
      end.

(** [avcodec_flush_buffers] *)
Definition avcodec_flush_buffers (c : dctx) : dctx :=
  let s := st c in
  let b := if thread_frame (cfg c) then thread_flush avcodec (bst s)
           else match flush avcodec with Some fl => fl (bst s) | None => bst s end in
  let c := {| cfg := cfg c;
              st := {| params := params s; draining := false; draining_done := false;
                       buffer_pkt := blank_packet; buffer_pkt_valid := false;
                       buffer_frame := unset_frame; compat_decode_frame := unset_frame;
                       in_pkt := blank_packet; chain := []; bst := b |};
              bk := bk c |} in
  if refcounted_frames (cfg c) then c else set_to_free c unset_frame.

(** A client of the API: a sequence of [avcodec_send_packet] and
    [avcodec_receive_frame] calls; the results of the receive calls are
    collected (frame, return code), in order. *)
Inductive api_op := ApiSend (p : option packet) | ApiReceive.

Fixpoint run_api (ops : list api_op) (c : dctx) : option (dctx * list (dframe * Z)) :=
  match ops with
  | [] => Some (c, [])
  | ApiSend p :: ops' =>
      match avcodec_send_packet c p with
      | None => None
      | Some (c, _) => run_api ops' c
      end
  | ApiReceive :: ops' =>
      match avcodec_receive_frame c unset_frame with
      | None => None
      | Some (c, f, ret) =>
          match run_api ops' c with
          | None => None
          | Some (c, outs) => Some (c, (f, ret) :: outs)
          end
      end
  end.

End Driver.

End Driver.


(** ** Pixel-format negotiation ([avcodec_default_get_format], [ff_get_format]) *)
Module GetFormat.
Import Cropping.

Definition AV_PIX_FMT_NONE : Z := -1.
Definition AVERROR_ENOENT : Z := -2.

(** [AVHWAccel]: the fields the negotiation reads.  [hw_init] is the
    result of its [init] callback ([None]: no callback);
    [hw_has_uninit] whether it has an [uninit] callback. *)
Record hwaccel := {
  hw_id : Z;
  hw_pix_fmt : Z;
  hw_priv_data_size : Z;
  hw_init : option Z;
  hw_has_uninit : bool
}.

(** The codec-context fields read and written.  [hw_frames_ctx] is
    [avctx->hw_frames_ctx], as the [format] of its [AVHWFramesContext]
    ([None] for NULL); [hwaccel_priv_data] whether
    [avctx->internal->hwaccel_priv_data] is allocated; [uninit_calls]
    counts the calls of [avctx->hwaccel->uninit]. *)
Record gf_ctx := {
  codec_id : Z;
  cur_hwaccel : option hwaccel;
  hwaccel_priv_data : bool;
  hw_frames_ctx : option Z;
  sw_pix_fmt : Z;
  uninit_calls : nat
}.

Definition set_hwaccel (c : gf_ctx) (h : option hwaccel) (priv : bool) : gf_ctx :=
  {| codec_id := codec_id c; cur_hwaccel := h; hwaccel_priv_data := priv;
     hw_frames_ctx := hw_frames_ctx c; sw_pix_fmt := sw_pix_fmt c;
     uninit_calls := uninit_calls c |}.

Definition set_hw_frames_ctx (c : gf_ctx) (v : option Z) : gf_ctx :=
  {| codec_id := codec_id c; cur_hwaccel := cur_hwaccel c;
     hwaccel_priv_data := hwaccel_priv_data c; hw_frames_ctx := v;
     sw_pix_fmt := sw_pix_fmt c; uninit_calls := uninit_calls c |}.

Definition set_sw_pix_fmt (c : gf_ctx) (v : Z) : gf_ctx :=
  {| codec_id := codec_id c; cur_hwaccel := cur_hwaccel c;
     hwaccel_priv_data := hwaccel_priv_data c; hw_frames_ctx := hw_frames_ctx c;
     sw_pix_fmt := v; uninit_calls := uninit_calls c |}.

(** A format list as the C code walks it: the entries before the first
    [AV_PIX_FMT_NONE]. *)
Fixpoint fmt_prefix (fmt : list Z) : list Z :=
  match fmt with
  | [] => []
  | f :: rest => if f =? AV_PIX_FMT_NONE then [] else f :: fmt_prefix rest
  end.

Section GetFormat.

(** [av_pix_fmt_desc_get] (libavutil/pixdesc.c). *)
Variable av_pix_fmt_desc_get : Z -> option pix_desc.

(** [is_hwaccel_pix_fmt]; [None]: a NULL descriptor is dereferenced. *)
Definition is_hwaccel_pix_fmt (pix_fmt : Z) : option bool :=
  match av_pix_fmt_desc_get pix_fmt with
  | None => None
  | Some desc => Some (negb (Z.land (desc_flags desc) AV_PIX_FMT_FLAG_HWACCEL =? 0))
  end.

(** [avcodec_default_get_format]: [fmt] is the array before its
    terminator ([[]] stands for the terminating [AV_PIX_FMT_NONE]). *)
Fixpoint avcodec_default_get_format (fmt : list Z) : option Z :=
  match fmt with
  | [] => Some AV_PIX_FMT_NONE
  | f :: rest =>
      if f =? AV_PIX_FMT_NONE then Some AV_PIX_FMT_NONE
      else match is_hwaccel_pix_fmt f with
           | None => None
           | Some true => avcodec_default_get_format rest
           | Some false => Some f
           end
  end.

(** The registered hwaccels, in the order [av_hwaccel_next] walks them. *)
Variable hwaccels : list hwaccel.
(** [av_mallocz] of the given size succeeds. *)
Variable av_mallocz_ok : Z -> bool.
(** [av_malloc_array] of the [choices] copy succeeds. *)
Variable av_malloc_array_ok : bool.
(** The [avctx->get_format] callback: the format it picks and the
    format of the [hw_frames_ctx] it installs ([None]: it leaves the
    field NULL).  [None] stands for a callback that crashes. *)
Variable get_format : list Z -> option (Z * option Z).

(** [find_hwaccel] *)
Definition find_hwaccel (codec_id pix_fmt : Z) : option hwaccel :=
  find (fun h => (hw_id h =? codec_id) && (hw_pix_fmt h =? pix_fmt)) hwaccels.

(** [setup_hwaccel] *)
Definition setup_hwaccel (c : gf_ctx) (fmt : Z) : gf_ctx * Z :=
  match find_hwaccel (codec_id c) fmt with
  | None => (c, AVERROR_ENOENT)
  | Some hwa =>
      let '(c, oom) :=
        if negb (hw_priv_data_size hwa =? 0) then
          if av_mallocz_ok (hw_priv_data_size hwa)
          then (set_hwaccel c (cur_hwaccel c) true, false)
          else (set_hwaccel c (cur_hwaccel c) false, true)
        else (c, false) in
      if oom then (c, AVERROR_ENOMEM)
      else match hw_init hwa with
           | Some ret =>
               if ret <? 0 then (set_hwaccel c (cur_hwaccel c) false, ret)
               else (set_hwaccel c (Some hwa) (hwaccel_priv_data c), 0)
           | None => (set_hwaccel c (Some hwa) (hwaccel_priv_data c), 0)
           end
  end.

(** "Remove failed hwaccel from choices": the first occurrence of [ret]
    is dropped.  [None]: the search reaches the terminator, a failed
    [av_assert0] (or, for [ret = AV_PIX_FMT_NONE], a read past it). *)
Fixpoint remove_choice (ret : Z) (choices : list Z) : option (list Z) :=
  if ret =? AV_PIX_FMT_NONE then None else
  match choices with
  | [] => None
  | f :: rest =>
      if f =? ret then Some rest
      else option_map (cons f) (remove_choice ret rest)
  end.

(** The [for (;;)] loop of [ff_get_format], with a bound on its
    iterations; each iteration that does not leave the loop removes one
    entry of [choices]. *)
Fixpoint get_format_loop (fuel : nat) (c : gf_ctx) (choices : list Z)
  : option (gf_ctx * Z) :=
  match fuel with
  | O => None
  | S fuel' =>
      let n := match cur_hwaccel c with
               | Some h => if hw_has_uninit h then S (uninit_calls c) else uninit_calls c
               | None => uninit_calls c
               end in
      let c := {| codec_id := codec_id c; cur_hwaccel := None; hwaccel_priv_data := false;
                  hw_frames_ctx := None; sw_pix_fmt := sw_pix_fmt c; uninit_calls := n |} in
      match get_format choices with
      | None => None
      | Some (ret, hwf) =>
          let c := set_hw_frames_ctx c hwf in
          match av_pix_fmt_desc_get ret with
          | None => Some (c, AV_PIX_FMT_NONE)
          | Some desc =>
              if Z.land (desc_flags desc) AV_PIX_FMT_FLAG_HWACCEL =? 0 then Some (c, ret)
              else if (match hw_frames_ctx c with
                       | Some f => negb (f =? ret)
                       | None => false
                       end)
              then Some (c, AV_PIX_FMT_NONE)
              else
                let '(c, r) := setup_hwaccel c ret in
                if r =? 0 then Some (c, ret)
                else match remove_choice ret choices with
                     | None => None
                     | Some choices => get_format_loop fuel' c choices
                     end
          end
      end
  end.

(** [ff_get_format]: the updated context and the chosen format; [None]
    for a failed assertion or a crashing callback.  The [av_assert2] on
    [sw_pix_fmt] is compiled out at the default assert level. *)
Definition ff_get_format (c : gf_ctx) (fmt : list Z) : option (gf_ctx * Z) :=
  let choices := fmt_prefix fmt in
  match choices with
  | [] => None
  | _ :: _ =>
      let c := set_sw_pix_fmt c (last choices AV_PIX_FMT_NONE) in
      if negb av_malloc_array_ok then Some (c, AV_PIX_FMT_NONE)
      else get_format_loop (S (List.length choices)) c choices
  end.

End GetFormat.

(** The callback a new context starts with, [avcodec_default_get_format]
    as [avctx->get_format]; it installs no [hw_frames_ctx]. *)
Definition default_get_format_cb (desc_get : Z -> option pix_desc) (l : list Z)
  : option (Z * option Z) :=
  option_map (fun r => (r, None)) (avcodec_default_get_format desc_get l).

End GetFormat.


(** ** Frame buffer allocation ([video_get_buffer], [audio_get_buffer],
    [avcodec_default_get_buffer2], [ff_decode_frame_props],
    [ff_get_buffer]) *)
Module GetBuffer.

Definition AV_NUM_DATA_POINTERS : nat := 8.

(** [frame->extended_data]: pointing to [frame->data], NULL, or a
    separately allocated array. *)
Inductive ext_data := ExtIsData | ExtNull | ExtArray (l : list (option Z)).

(** [AVChannelLayout]: [order_native] is [order == AV_CHANNEL_ORDER_NATIVE]. *)
Record ch_layout := { nb_channels : Z; order_native : bool; mask : Z }.

(** The colour description copied from the context. *)
Record color_props := {
  color_primaries : Z; color_trc : Z; colorspace : Z; color_range : Z;
  chroma_location : Z
}.

(** The [AVFrame] fields the allocation code reads and writes.  A buffer
    reference is [Some b] ([None] for NULL); the data pointer of a pool
    buffer [b] is [b] itself. *)
Record gframe := {
  data : list (option Z);               (* data[0..7] *)
  linesize : list Z;                    (* linesize[0..7] *)
  buf : list (option Z);                (* buf[0..7] *)
  extended_data : ext_data;
  extended_buf : option (list (option Z));
  nb_extended_buf : Z;
  width : Z;
  height : Z;
  format : Z;
  sample_aspect_ratio : Z * Z;
  sample_rate : Z;
  nb_samples : Z;
  frame_ch_layout : ch_layout;
  channel_layout : Z;
  color : color_props;
  reordered_opaque : Z;
  frame_pkt_pts : Z;
  pts : Z;
  side_data : list (Z * list Z)        (* (AVFrameSideDataType, payload) *)
}.

(** A frame after [av_frame_unref] (the defaults of [get_frame_defaults]
    in libavutil/frame.c). *)
Definition unref_frame : gframe :=
  {| data := repeat None AV_NUM_DATA_POINTERS; linesize := repeat 0 AV_NUM_DATA_POINTERS;
     buf := repeat None AV_NUM_DATA_POINTERS; extended_data := ExtIsData;
     extended_buf := None; nb_extended_buf := 0; width := 0; height := 0; format := -1;
     sample_aspect_ratio := (0, 1); sample_rate := 0; nb_samples := 0;
     frame_ch_layout := {| nb_channels := 0; order_native := false; mask := 0 |};
     channel_layout := 0;
     color := {| color_primaries := 2; color_trc := 2; colorspace := 2; color_range := 0;
                 chroma_location := 0 |};
     reordered_opaque := 0; frame_pkt_pts := AV_NOPTS_VALUE; pts := AV_NOPTS_VALUE;
     side_data := [] |}.

(** Updates of the plane fields. *)
Definition with_planes (f : gframe) (d : list (option Z)) (ls : list Z) (b : list (option Z))
    (ed : ext_data) (eb : option (list (option Z))) (neb : Z) : gframe :=
  {| data := d; linesize := ls; buf := b; extended_data := ed; extended_buf := eb;
     nb_extended_buf := neb; width := width f; height := height f; format := format f;
     sample_aspect_ratio := sample_aspect_ratio f; sample_rate := sample_rate f;
     nb_samples := nb_samples f; frame_ch_layout := frame_ch_layout f;
     channel_layout := channel_layout f; color := color f;
     reordered_opaque := reordered_opaque f; frame_pkt_pts := frame_pkt_pts f; pts := pts f;
     side_data := side_data f |}.

(** Updates of the picture and sample parameters. *)
Definition with_params (f : gframe) (w h fmt : Z) (sar : Z * Z) (sr : Z) (chl : ch_layout)
    (cl : Z) : gframe :=
  {| data := data f; linesize := linesize f; buf := buf f;
     extended_data := extended_data f; extended_buf := extended_buf f;
     nb_extended_buf := nb_extended_buf f; width := w; height := h; format := fmt;
     sample_aspect_ratio := sar; sample_rate := sr; nb_samples := nb_samples f;
     frame_ch_layout := chl; channel_layout := cl; color := color f;
     reordered_opaque := reordered_opaque f; frame_pkt_pts := frame_pkt_pts f; pts := pts f;
     side_data := side_data f |}.

(** Updates of the properties set by [ff_decode_frame_props]. *)
Definition with_props (f : gframe) (cp : color_props) (ro ppts p : Z)
    (sd : list (Z * list Z)) : gframe :=
  {| data := data f; linesize := linesize f; buf := buf f;
     extended_data := extended_data f; extended_buf := extended_buf f;
     nb_extended_buf := nb_extended_buf f; width := width f; height := height f;
     format := format f; sample_aspect_ratio := sample_aspect_ratio f;
     sample_rate := sample_rate f; nb_samples := nb_samples f;
     frame_ch_layout := frame_ch_layout f; channel_layout := channel_layout f;
     color := cp; reordered_opaque := ro; frame_pkt_pts := ppts; pts := p; side_data := sd |}.

Definition set_wh (f : gframe) (w h : Z) : gframe :=
  with_params f w h (format f) (sample_aspect_ratio f) (sample_rate f)
              (frame_ch_layout f) (channel_layout f).

(** The codec-context fields read and written.  [ctx_hwaccel] is
    [avctx->hwaccel]: [None] for NULL, [Some b] with [b] whether it has an
    [alloc_frame] callback.  [exports_cropping] is the codec's
    [FF_CODEC_CAP_EXPORTS_CROPPING]. *)
Record gb_ctx := {
  codec_type : Pool.media_type;
  ctx_width : Z;
  ctx_height : Z;
  coded_width : Z;
  coded_height : Z;
  pix_fmt : Z;
  sw_pix_fmt : Z;
  ctx_sar : Z * Z;
  ctx_sample_rate : Z;
  sample_fmt : Z;
  ctx_ch_layout : ch_layout;
  ctx_hwaccel : option bool;
  has_hw_frames_ctx : bool;
  exports_cropping : bool;
  ctx_color : color_props;
  ctx_reordered_opaque : Z;
  last_pkt_props : packet
}.

Definition set_sw_pix_fmt (c : gb_ctx) (v : Z) : gb_ctx :=
  {| codec_type := codec_type c; ctx_width := ctx_width c; ctx_height := ctx_height c;
     coded_width := coded_width c; coded_height := coded_height c; pix_fmt := pix_fmt c;
     sw_pix_fmt := v; ctx_sar := ctx_sar c; ctx_sample_rate := ctx_sample_rate c;
     sample_fmt := sample_fmt c; ctx_ch_layout := ctx_ch_layout c;
     ctx_hwaccel := ctx_hwaccel c; has_hw_frames_ctx := has_hw_frames_ctx c;
     exports_cropping := exports_cropping c; ctx_color := ctx_color c;
     ctx_reordered_opaque := ctx_reordered_opaque c; last_pkt_props := last_pkt_props c |}.

Section GetBuffer.

(** The allocator state, threaded through the allocation calls. *)
Variable AState : Type.
(** [av_buffer_pool_get] on a pool handle: a buffer, or [None] when the
    allocation fails. *)
Variable av_buffer_pool_get : AState -> Z -> AState * option Z.
(** [av_mallocz] of the given size: whether it succeeds. *)
Variable av_mallocz : AState -> Z -> AState * bool.

(** [frame->buf[i] = frame->data[i] = b] *)
Definition set_plane (f : gframe) (i : nat) (b : Z) : gframe :=
  with_planes f (BSF.set_nth i (data f) (Some b)) (linesize f) (BSF.set_nth i (buf f) (Some b))
              (extended_data f) (extended_buf f) (nb_extended_buf f).

Definition set_linesize (f : gframe) (i : nat) (v : Z) : gframe :=
  with_planes f (data f) (BSF.set_nth i (linesize f) v) (buf f)
              (extended_data f) (extended_buf f) (nb_extended_buf f).

(** The first loop of [video_get_buffer]: planes [i..3] while
    [pool->pools[i]] is set.  Returns the index reached, or [None] for an
    allocation failure (the jump to [fail]). *)
Fixpoint video_alloc_planes (n i : nat) (pool : Pool.FramePool) (s : AState) (pic : gframe)
  : AState * option (gframe * nat) :=
  match n with
  | O => (s, Some (pic, i))
  | S n' =>
      match nth i (Pool.pools pool) None with
      | None => (s, Some (pic, i))
      | Some h =>
          let pic := set_linesize pic i (nth i (Pool.linesize pool) 0) in
          let '(s, b) := av_buffer_pool_get s h in
          match b with
          | None => (s, None)
          | Some b => video_alloc_planes n' (S i) pool s (set_plane pic i b)
          end
      end
  end.

(** The second loop: [data[i] = NULL; linesize[i] = 0] for the remaining
    entries [i..AV_NUM_DATA_POINTERS-1]. *)
Definition clear_planes_from (i : nat) (pic : gframe) : gframe :=
  with_planes pic
    (map (fun j => if Nat.ltb j i then nth j (data pic) None else None)
         (seq 0 AV_NUM_DATA_POINTERS))
    (map (fun j => if Nat.ltb j i then nth j (linesize pic) 0 else 0)
         (seq 0 AV_NUM_DATA_POINTERS))
    (buf pic) (extended_data pic) (extended_buf pic) (nb_extended_buf pic).

(** [video_get_buffer].  The palette written by
    [avpriv_set_systematic_pal2] is buffer contents, not modelled. *)
Definition video_get_buffer (pool : Pool.FramePool) (s : AState) (pic : gframe)
  : AState * gframe * Z :=
  match nth 0 (data pic) None with
  | Some _ => (s, pic, -1)
  | None =>
      let pic := with_planes pic (repeat None AV_NUM_DATA_POINTERS) (linesize pic) (buf pic)
                             ExtIsData (extended_buf pic) (nb_extended_buf pic) in
      match video_alloc_planes 4 0 pool s pic with
      | (s, None) => (s, unref_frame, AVERROR_ENOMEM)
      | (s, Some (pic, i)) => (s, clear_planes_from i pic, 0)
      end
  end.

(** [frame->extended_data[i] = p] ([None]: a write through NULL or out of
    the array). *)
Definition set_ext (ed : ext_data) (d : list (option Z)) (i : nat) (p : Z)
  : option (ext_data * list (option Z)) :=
  match ed with
  | ExtIsData => if Nat.ltb i AV_NUM_DATA_POINTERS then Some (ed, BSF.set_nth i d (Some p)) else None
  | ExtNull => None
  | ExtArray l => if Nat.ltb i (List.length l) then Some (ExtArray (BSF.set_nth i l (Some p)), d)
                  else None
  end.

(** The first buffer loop of [audio_get_buffer]; [None] is an invalid
    memory access, [Some (s, None)] an allocation failure. *)
Fixpoint audio_alloc_bufs (n i : nat) (pool0 : Z) (s : AState) (f : gframe)
  : option (AState * option gframe) :=
  match n with
  | O => Some (s, Some f)
  | S n' =>
      let '(s, b) := av_buffer_pool_get s pool0 in
      match b with
      | None => Some (s, None)
      | Some b =>
          let f := with_planes f (data f) (linesize f) (BSF.set_nth i (buf f) (Some b))
                               (extended_data f) (extended_buf f) (nb_extended_buf f) in
          match set_ext (extended_data f) (BSF.set_nth i (data f) (Some b)) i b with
          | None => None
          | Some (ed, d) =>
              audio_alloc_bufs n' (S i) pool0 s
                (with_planes f d (linesize f) (buf f) ed (extended_buf f) (nb_extended_buf f))
          end
      end
  end.

(** The loop over [extended_buf]. *)
Fixpoint audio_alloc_ext (n i : nat) (pool0 : Z) (s : AState) (f : gframe)
  : option (AState * option gframe) :=
  match n with
  | O => Some (s, Some f)
  | S n' =>
      let '(s, b) := av_buffer_pool_get s pool0 in
      match b with
      | None => Some (s, None)
      | Some b =>
          match extended_buf f with
          | Some eb =>
              if Nat.ltb i (List.length eb) then
                match set_ext (extended_data f) (data f) (i + AV_NUM_DATA_POINTERS) b with
                | None => None
                | Some (ed, d) =>
                    audio_alloc_ext n' (S i) pool0 s
                      (with_planes f d (linesize f) (buf f) ed
                                   (Some (BSF.set_nth i eb (Some b))) (nb_extended_buf f))
                end
              else None
          | None => None
          end
      end
  end.

(** [audio_get_buffer]: [None] is an invalid memory access (a NULL pool,
    or a stale [nb_extended_buf]). *)
Definition audio_get_buffer (pool : Pool.FramePool) (s : AState) (frame : gframe)
  : option (AState * gframe * Z) :=
  let planes := Pool.planes pool in
  let frame := set_linesize frame 0 (nth 0 (Pool.linesize pool) 0) in
  let r :=
    if Z.of_nat AV_NUM_DATA_POINTERS <? planes then
      let '(s, ok1) := av_mallocz s (planes * 8) in
      let neb := planes - Z.of_nat AV_NUM_DATA_POINTERS in
      let '(s, ok2) := av_mallocz s (neb * 8) in
      if ok1 && ok2 then
        inl (s, with_planes frame (data frame) (linesize frame) (buf frame)
                            (ExtArray (repeat None (Z.to_nat planes)))
                            (Some (repeat None (Z.to_nat neb))) neb)
      else inr (s, with_planes frame (data frame) (linesize frame) (buf frame)
                               ExtNull None neb)
    else inl (s, with_planes frame (data frame) (linesize frame) (buf frame) ExtIsData
                             (extended_buf frame) (nb_extended_buf frame)) in
  match r with
  | inr (s, frame) => Some (s, frame, AVERROR_ENOMEM)
  | inl (s, frame) =>
      match nth 0 (Pool.pools pool) None with
      | None => if (0 <? planes) || (0 <? nb_extended_buf frame) then None
                else Some (s, frame, 0)
      | Some pool0 =>
          match audio_alloc_bufs (Z.to_nat (Z.min planes (Z.of_nat AV_NUM_DATA_POINTERS)))
                                 0 pool0 s frame with
          | None => None
          | Some (s, None) => Some (s, unref_frame, AVERROR_ENOMEM)
          | Some (s, Some frame) =>
              match audio_alloc_ext (Z.to_nat (nb_extended_buf frame)) 0 pool0 s frame with
              | None => None
              | Some (s, None) => Some (s, unref_frame, AVERROR_ENOMEM)
              | Some (s, Some frame) => Some (s, frame, 0)
              end
          end
      end
  end.

(** The libavutil and libavcodec services [update_frame_pool] calls, as
    in [Pool.update_frame_pool]. *)
Variable avcodec_align_dimensions2 : Pool.pool_ctx -> Z -> Z -> (Z * Z) * list Z.
Variable av_image_fill_linesizes : Z -> Z -> list Z.
Variable av_image_fill_pointers : Z -> Z -> list Z -> list Z * Z.
Variable av_sample_fmt_is_planar : Z -> bool.
Variable av_samples_get_buffer_size : Z -> Z -> Z -> Z -> Z * Z.
Variable av_buffer_pool_init : Z -> option Z.
(** [av_hwframe_get_buffer] on [avctx->hw_frames_ctx]. *)
Variable av_hwframe_get_buffer : AState -> gframe -> AState * gframe * Z.

Definition pool_ctx_of (c : gb_ctx) : Pool.pool_ctx :=
  {| Pool.codec_type := codec_type c; Pool.pix_fmt := pix_fmt c;
     Pool.ctx_nb_channels := nb_channels (ctx_ch_layout c) |}.

Definition pool_frame_of (f : gframe) : Pool.pool_frame :=
  {| Pool.fr_format := format f; Pool.fr_width := width f; Pool.fr_height := height f;
     Pool.fr_nb_channels := nb_channels (frame_ch_layout f);
     Pool.fr_nb_samples := nb_samples f |}.

(** [avcodec_default_get_buffer2]: the pool, the allocator state, the
    frame and the return code; [None] for an assertion failure or an
    invalid memory access. *)
Definition avcodec_default_get_buffer2 (c : gb_ctx) (pool : Pool.FramePool) (s : AState)
    (frame : gframe) : option (Pool.FramePool * AState * gframe * Z) :=
  if has_hw_frames_ctx c then
    let '(s, frame, r) := av_hwframe_get_buffer s frame in Some (pool, s, frame, r)
  else
    match Pool.update_frame_pool avcodec_align_dimensions2 av_image_fill_linesizes
            av_image_fill_pointers av_sample_fmt_is_planar av_samples_get_buffer_size
            av_buffer_pool_init (pool_ctx_of c) pool (pool_frame_of frame) with
    | None => None
    | Some (pool, ret) =>
        if ret <? 0 then Some (pool, s, frame, ret)
        else match codec_type c with
             | Pool.AVMEDIA_TYPE_VIDEO =>
                 let '(s, frame, r) := video_get_buffer pool s frame in Some (pool, s, frame, r)
             | Pool.AVMEDIA_TYPE_AUDIO =>
                 match audio_get_buffer pool s frame with
                 | None => None
                 | Some (s, frame, r) => Some (pool, s, frame, r)
                 end
             | Pool.AVMEDIA_TYPE_OTHER => Some (pool, s, frame, -1)
             end
    end.

(** The packet and frame side-data types of the [sd[]] table of
    [ff_decode_frame_props] (enumerators of libavcodec/avcodec.h and
    libavutil/frame.h). *)
Variables AV_PKT_DATA_REPLAYGAIN AV_PKT_DATA_DISPLAYMATRIX AV_PKT_DATA_SPHERICAL
          AV_PKT_DATA_STEREO3D AV_PKT_DATA_AUDIO_SERVICE_TYPE : Z.
Variables AV_FRAME_DATA_REPLAYGAIN AV_FRAME_DATA_DISPLAYMATRIX AV_FRAME_DATA_SPHERICAL
          AV_FRAME_DATA_STEREO3D AV_FRAME_DATA_AUDIO_SERVICE_TYPE : Z.

Definition sd_table : list (Z * Z) :=
  [(AV_PKT_DATA_REPLAYGAIN, AV_FRAME_DATA_REPLAYGAIN);
   (AV_PKT_DATA_DISPLAYMATRIX, AV_FRAME_DATA_DISPLAYMATRIX);
   (AV_PKT_DATA_SPHERICAL, AV_FRAME_DATA_SPHERICAL);
   (AV_PKT_DATA_STEREO3D, AV_FRAME_DATA_STEREO3D);
   (AV_PKT_DATA_AUDIO_SERVICE_TYPE, AV_FRAME_DATA_AUDIO_SERVICE_TYPE)].

(** [av_frame_new_side_data] of the given type and size: whether its
    allocations succeed; the new entry is appended. *)
Variable av_frame_new_side_data : AState -> Z -> Z -> AState * bool.

(** The side-data loop of [ff_decode_frame_props]. *)
Fixpoint copy_side_data (tbl : list (Z * Z)) (pkt : packet) (s : AState) (frame : gframe)
  : AState * gframe * Z :=
  match tbl with
  | [] => (s, frame, 0)
  | (pt, ft) :: tbl' =>
      match Driver.get_side_data pkt pt with
      | None => copy_side_data tbl' pkt s frame
      | Some payload =>
          let '(s, ok) := av_frame_new_side_data s ft (Z.of_nat (List.length payload)) in
          if negb ok then (s, frame, AVERROR_ENOMEM)
          else copy_side_data tbl' pkt s
                 (with_props frame (color frame) (reordered_opaque frame) (frame_pkt_pts frame)
                             (pts frame) (side_data frame ++ [(ft, payload)]))
      end
  end.

(** [ff_decode_frame_props] ([FF_API_PKT_PTS] enabled). *)
Definition ff_decode_frame_props (c : gb_ctx) (s : AState) (frame : gframe)
  : AState * gframe * Z :=
  let pkt := last_pkt_props c in
  let frame := with_props frame (ctx_color c) (ctx_reordered_opaque c) (pkt_pts pkt)
                          (pkt_pts pkt) (side_data frame) in
  copy_side_data sd_table pkt s frame.

(** The [avctx->get_buffer2] callback and [avctx->hwaccel->alloc_frame].
    Both are given the codec context and may change it, as the default
    [get_buffer2] does when it rebuilds [avctx->internal->pool] (see
    [avcodec_default_get_buffer2], which takes the pool apart). *)
Variable get_buffer2 : gb_ctx -> AState -> gframe -> gb_ctx * AState * gframe * Z.
Variable hwaccel_alloc_frame : gb_ctx -> AState -> gframe -> gb_ctx * AState * gframe * Z.
(** libavutil services: [av_image_check_sar], [av_image_check_size] (on
    the context's dimensions), [av_channel_layout_copy] (the new
    destination and the result), [av_channel_layout_check] and
    [av_get_default_channel_layout]. *)
Variable av_image_check_sar : Z -> Z -> Z * Z -> Z.
Variable av_image_check_size : Z -> Z -> Z.
Variable av_channel_layout_copy : ch_layout -> ch_layout -> ch_layout * Z.
Variable av_channel_layout_check : ch_layout -> Z.
Variable av_get_default_channel_layout : Z -> Z.
(** [FF_SANE_NB_CHANNELS] (libavcodec/internal.h). *)
Variable FF_SANE_NB_CHANNELS : Z.

(** [ff_get_buffer]: the context, the allocator state, the frame and the
    return code. *)
Definition ff_get_buffer (c : gb_ctx) (s : AState) (frame : gframe)
  : gb_ctx * AState * gframe * Z :=
  let prep :=
    match codec_type c with
    | Pool.AVMEDIA_TYPE_VIDEO =>
        let '(frame, override) :=
          if (width frame <=? 0) || (height frame <=? 0)
          then (set_wh frame (Z.max (ctx_width c) (coded_width c))
                             (Z.max (ctx_height c) (coded_height c)), false)
          else (frame, true) in
        let frame := if format frame <? 0
                     then with_params frame (width frame) (height frame) (pix_fmt c)
                            (sample_aspect_ratio frame) (sample_rate frame)
                            (frame_ch_layout frame) (channel_layout frame)
                     else frame in
        let frame := if fst (sample_aspect_ratio frame) =? 0
                     then with_params frame (width frame) (height frame) (format frame)
                            (ctx_sar c) (sample_rate frame) (frame_ch_layout frame)
                            (channel_layout frame)
                     else frame in
        let frame := if av_image_check_sar (width frame) (height frame)
                          (sample_aspect_ratio frame) <? 0
                     then with_params frame (width frame) (height frame) (format frame)
                            (0, 1) (sample_rate frame) (frame_ch_layout frame)
                            (channel_layout frame)
                     else frame in
        let ret := av_image_check_size (ctx_width c) (ctx_height c) in
        if ret <? 0 then inr (frame, ret) else inl (frame, override)
    | Pool.AVMEDIA_TYPE_AUDIO =>
        let frame := if sample_rate frame =? 0
                     then with_params frame (width frame) (height frame) (format frame)
                            (sample_aspect_ratio frame) (ctx_sample_rate c)
                            (frame_ch_layout frame) (channel_layout frame)
                     else frame in
        let frame := if format frame <? 0
                     then with_params frame (width frame) (height frame) (sample_fmt c)
                            (sample_aspect_ratio frame) (sample_rate frame)
                            (frame_ch_layout frame) (channel_layout frame)
                     else frame in
        let '(frame, ret) :=
          if nb_channels (frame_ch_layout frame) =? 0 then
            let '(chl, ret) := av_channel_layout_copy (frame_ch_layout frame) (ctx_ch_layout c) in
            (with_params frame (width frame) (height frame) (format frame)
               (sample_aspect_ratio frame) (sample_rate frame) chl (channel_layout frame), ret)
          else (frame, 0) in
        if ret <? 0 then inr (frame, ret) else
        let ret := av_channel_layout_check (frame_ch_layout frame) in
        if ret <? 0 then inr (frame, ret) else
        let n := nb_channels (frame_ch_layout frame) in
        if FF_SANE_NB_CHANNELS <? n then inr (frame, AVERROR_EINVAL) else
        let cl := if order_native (frame_ch_layout frame) then mask (frame_ch_layout frame)
                  else let d := av_get_default_channel_layout n in
                       if d =? 0 then (Z.shiftl 1 n - 1) mod 2 ^ 64 else d in
        inl (with_params frame (width frame) (height frame) (format frame)
               (sample_aspect_ratio frame) (sample_rate frame) (frame_ch_layout frame) cl,
             true)
    | Pool.AVMEDIA_TYPE_OTHER => inr (frame, AVERROR_EINVAL)
    end in
  match prep with
  | inr (frame, ret) => (c, s, frame, ret)
  | inl (frame, override) =>
      let '(s, frame, ret) := ff_decode_frame_props c s frame in
      if ret <? 0 then (c, s, frame, ret)
      else
        let '(c, s, frame, ret) :=
          match ctx_hwaccel c with
          | Some true => hwaccel_alloc_frame c s frame
          | Some false => get_buffer2 c s frame
          | None => get_buffer2 (set_sw_pix_fmt c (pix_fmt c)) s frame
          end in
        let frame :=
          match codec_type c with
          | Pool.AVMEDIA_TYPE_VIDEO =>
              if negb override && negb (exports_cropping c)
              then set_wh frame (ctx_width c) (ctx_height c) else frame
          | _ => frame
          end in
        (c, s, frame, ret)
  end.

End GetBuffer.

End GetBuffer.

(* ================================================================== *)
(** * Proofs *)

(** ** The filter chain *)
Module BSFFacts.
Import BSF.

Definition seg (f : bsf) : list packet := bsf_out f ++ bsf_in f.

(** A filter is finished: it has seen the end marker and holds nothing. *)
Definition done (f : bsf) : Prop := bsf_eof f = true /\ seg f = [].

(** A filter sees the end marker only after its predecessor has finished. *)
Fixpoint eof_ok (l : list bsf) : Prop :=
  match l with
  | f :: ((g :: _) as l') => (bsf_eof g = true -> done f) /\ eof_ok l'
  | _ => True
  end.

Lemma pending_app (l1 l2 : list bsf) : pending (l1 ++ l2) = pending l2 ++ pending l1.
Proof.
  unfold pending. rewrite rev_app_distr, map_app, concat_app. reflexivity.
Qed.

Lemma pending_cons (f : bsf) (l : list bsf) : pending (f :: l) = pending l ++ seg f.
Proof.
  unfold pending. simpl. rewrite map_app, concat_app. simpl. rewrite app_nil_r.
  reflexivity.
Qed.

Lemma pending_mid (l1 : list bsf) (f : bsf) (l2 : list bsf) :
  pending (l1 ++ f :: l2) = pending l2 ++ seg f ++ pending l1.
Proof. rewrite pending_app, pending_cons, app_assoc. reflexivity. Qed.

Lemma set_nth_mid {A} (l1 l2 : list A) (y x : A) :
  set_nth (List.length l1) (l1 ++ y :: l2) x = l1 ++ x :: l2.
Proof. induction l1; simpl; congruence. Qed.

Lemma length_set_nth {A} (n : nat) (l : list A) (x : A) :
  List.length (set_nth n l x) = List.length l.
Proof.
  revert n; induction l; intros [|n]; simpl; auto.
Qed.

Lemma eof_ok_app (l1 : list bsf) (f : bsf) (l2 : list bsf) :
  eof_ok (l1 ++ f :: l2) <-> eof_ok (l1 ++ [f]) /\ eof_ok (f :: l2).
Proof.
  induction l1 as [|a l1 IH]; simpl.
  - tauto.
  - destruct l1 as [|b l1]; simpl in *.
    + tauto.
    + rewrite IH. tauto.
Qed.

Lemma eof_ok_snoc2 (l : list bsf) (f g : bsf) :
  eof_ok (l ++ [f; g]) <-> eof_ok (l ++ [f]) /\ (bsf_eof g = true -> done f).
Proof.
  rewrite (eof_ok_app l f [g]). simpl. tauto.
Qed.

Lemma eof_ok_snoc_same (l : list bsf) (f f' : bsf) :
  bsf_eof f' = bsf_eof f -> eof_ok (l ++ [f]) -> eof_ok (l ++ [f']).
Proof.
  destruct l as [|a l] using rev_ind; simpl; auto.
  rewrite <- !app_assoc. simpl. rewrite !eof_ok_snoc2.
  intros E [H1 H2]. rewrite E. auto.
Qed.

Lemma eof_ok_done (l : list bsf) (f : bsf) :
  eof_ok (l ++ [f]) -> bsf_eof f = true -> Forall done l.
Proof.
  revert f. induction l as [|g l IH] using rev_ind; intros f H E; auto.
  rewrite <- app_assoc in H. simpl in H. apply eof_ok_snoc2 in H.
  destruct H as [H1 H2]. apply Forall_app. split.
  - apply (IH g); auto. apply H2; auto.
  - constructor; auto.
Qed.

Lemma pending_done (l : list bsf) : Forall done l -> pending l = [].
Proof.
  induction 1 as [|f l [_ S] _ IH]; auto.
  rewrite pending_cons, IH, S. reflexivity.
Qed.

(** What one [av_bsf_receive_packet] does to the packets a filter holds. *)
Lemma receive_spec (f f' : bsf) (r : packet + Z) :
  av_bsf_receive_packet f = (f', r) ->
  bsf_eof f' = bsf_eof f /\
  match r with
  | inl p => seg f = p :: seg f'
  | inr e => seg f' = seg f /\ (e = AVERROR_EAGAIN \/ (e = AVERROR_EOF /\ done f))
  end.
Proof.
  unfold av_bsf_receive_packet, done, seg.
  destruct (bsf_out f) as [|p rest] eqn:O.
  - destruct (bsf_in f) as [|p rest] eqn:I.
    + intros H; injection H as <- <-. split; [reflexivity|]. split; [rewrite O, I; reflexivity|].
      destruct (bsf_eof f) eqn:E; [right; split; [reflexivity | split; [reflexivity | reflexivity]] | left; reflexivity].
    + destruct (Nat.leb _ _ || bsf_eof f).
      * intros H; injection H as <- <-. simpl. rewrite app_nil_r. auto.
      * intros H; injection H as <- <-. rewrite O, I. auto.
  - intros H; injection H as <- <-. simpl. auto.
Qed.

Lemma receive_done (f : bsf) : done f -> av_bsf_receive_packet f = (f, inr AVERROR_EOF).
Proof.
  unfold done, seg, av_bsf_receive_packet. intros [E S].
  apply app_eq_nil in S. destruct S as [O I]. rewrite O, I, E. reflexivity.
Qed.

Lemma send_spec (f f' : bsf) (p : option packet) (ret : Z) :
  av_bsf_send_packet f p = (f', ret) ->
  match p with
  | Some q =>
      if pkt_nonblank q then
        (bsf_eof f = true /\ f' = f /\ ret = AVERROR_EINVAL) \/
        (bsf_eof f = false /\ bsf_eof f' = false /\ seg f' = seg f ++ [q] /\ ret = 0)
      else bsf_eof f' = true /\ seg f' = seg f /\ ret = 0
  | None => bsf_eof f' = true /\ seg f' = seg f /\ ret = 0
  end.
Proof.
  unfold av_bsf_send_packet, seg. destruct p as [q|].
  - destruct (pkt_nonblank q); simpl.
    + destruct (bsf_eof f) eqn:E; intros H; injection H as <- <-; simpl; auto.
      right. rewrite app_assoc. auto.
    + intros H; injection H as <- <-; simpl; auto.
  - intros H; injection H as <- <-; simpl; auto.
Qed.

Lemma eof_ok_cons_grow (g g' : bsf) (l : list bsf) :
  eof_ok (g :: l) -> seg g' = seg g -> (bsf_eof g = true -> bsf_eof g' = true) ->
  eof_ok (g' :: l).
Proof.
  destruct l as [|h l]; simpl; auto.
  intros [H1 H2] S E. split; auto. intros Eh. destruct (H1 Eh) as [D1 D2].
  split; auto. rewrite S; auto.
Qed.

Lemma eof_ok_cons_open (g g' : bsf) (l : list bsf) :
  eof_ok (g :: l) -> bsf_eof g = false -> eof_ok (g' :: l).
Proof.
  destruct l as [|h l]; simpl; auto.
  intros [H1 H2] E. split; auto. intros Eh. destruct (H1 Eh) as [D1 _].
  congruence.
Qed.

Lemma eof_ok_next_open (l1 : list bsf) (f g : bsf) (l2 : list bsf) :
  eof_ok (l1 ++ f :: g :: l2) -> ~ done f -> bsf_eof g = false.
Proof.
  rewrite eof_ok_app. simpl. intros [_ [H _]] N.
  destruct (bsf_eof g); auto. exfalso. apply N, H. reflexivity.
Qed.

Definition nonblank_all (l : list packet) : Prop :=
  Forall (fun p => pkt_nonblank p = true) l.

Lemma Z_to_nat_lt (idx : Z) (n : nat) :
  0 <= idx < Z.of_nat n -> (Z.to_nat idx < n)%nat.
Proof. lia. Qed.

Lemma eof_ok_replace (l1 : list bsf) (f f1 : bsf) (l2 : list bsf) :
  eof_ok (l1 ++ f :: l2) -> bsf_eof f1 = bsf_eof f -> (done f -> done f1) ->
  eof_ok (l1 ++ f1 :: l2).
Proof.
  rewrite (eof_ok_app l1 f l2), (eof_ok_app l1 f1 l2). intros [H1 H2] E D. split.
  - apply (eof_ok_snoc_same _ f); auto.
  - destruct l2 as [|h l2]; simpl in *; auto. destruct H2 as [H2 H3]. auto.
Qed.

Lemma pending_mid2 (l1 : list bsf) (f g : bsf) (l2 : list bsf) :
  pending (l1 ++ f :: g :: l2) = pending l2 ++ seg g ++ seg f ++ pending l1.
Proof. rewrite pending_mid, pending_cons, <- !app_assoc. reflexivity. Qed.

Lemma nth_next {A} (l1 : list A) (f g : A) (l2 : list A) (d : A) :
  nth (S (List.length l1)) (l1 ++ f :: g :: l2) d = g.
Proof. induction l1; simpl; auto. Qed.

Lemma set_nth_next {A} (l1 : list A) (f g x : A) (l2 : list A) :
  set_nth (S (List.length l1)) (l1 ++ f :: g :: l2) x = l1 ++ f :: x :: l2.
Proof. induction l1 as [|a l1 IH]; [reflexivity|]. simpl. simpl in IH. rewrite IH. reflexivity. Qed.

#[local] Opaque av_bsf_send_packet av_bsf_receive_packet set_nth.

(** The loop of [bsfs_poll] only moves packets between filters: what it
    hands out is the oldest packet held by the chain, and [EOF] comes out
    only once every filter has finished. *)
Lemma poll_loop_spec (fuel : nat) : forall idx chain chain' r,
  -1 <= idx < Z.of_nat (List.length chain) ->
  eof_ok chain -> nonblank_all (pending chain) ->
  bsfs_poll_loop fuel idx chain = Some (chain', r) ->
  eof_ok chain' /\ List.length chain' = List.length chain /\
  nonblank_all (pending chain') /\
  match r with
  | inl p => pending chain = p :: pending chain'
  | inr e => pending chain' = pending chain /\
             (e = AVERROR_EAGAIN \/ (e = AVERROR_EOF /\ Forall done chain'))
  end.
Proof.
  induction fuel as [|fuel IH]; intros idx chain chain' r Hidx Hok Hnb H;
    simpl in H; [discriminate|].
  destruct (idx <? 0) eqn:Hneg.
  { injection H as <- <-. repeat split; auto. }
  apply Z.ltb_ge in Hneg.
  assert (Hi : (Z.to_nat idx < List.length chain)%nat) by lia.
  destruct (nth_split chain (mk_bsf 1) Hi) as (l1 & l2 & Hc & Hl1).
  remember (nth (Z.to_nat idx) chain (mk_bsf 1)) as f eqn:Hf.
  destruct (av_bsf_receive_packet f) as [f1 rr] eqn:Hr.
  pose proof (receive_spec _ _ _ Hr) as [Heof Hseg].
  assert (Hset : set_nth (Z.to_nat idx) chain f1 = l1 ++ f1 :: l2).
  { rewrite Hc, <- Hl1. apply set_nth_mid. }
  rewrite Hset in H.
  assert (Hpend : pending chain = pending l2 ++ seg f ++ pending l1).
  { rewrite Hc. apply pending_mid. }
  assert (Hlen : List.length (l1 ++ f1 :: l2) = List.length chain).
  { rewrite Hc, !length_app. reflexivity. }
  rewrite Hlen in H.
  assert (Hok1 : eof_ok (l1 ++ f1 :: l2)).
  { rewrite Hc in Hok. apply (eof_ok_replace _ f); auto.
    destruct rr as [p|e].
    - intros [_ D]. rewrite Hseg in D. discriminate.
    - destruct Hseg as [Hs _]. intros [D1 D2]. split; congruence. }
  destruct (idx =? Z.of_nat (List.length chain) - 1) eqn:Hlast.
  - (* the last filter *)
    apply Z.eqb_eq in Hlast.
    assert (l2 = []) as ->.
    { destruct l2; auto. rewrite Hc, length_app in Hlast. simpl in Hlast. lia. }
    destruct rr as [p|e].
    + injection H as <- <-.
      rewrite Hpend, Hseg, pending_mid in *. repeat split; auto.
      simpl in Hnb. inversion Hnb; auto.
    + destruct Hseg as [Hs He].
      assert (Hpe : pending (l1 ++ [f1]) = pending chain).
      { rewrite Hpend, pending_mid, Hs. reflexivity. }
      destruct (e =? AVERROR_EAGAIN) eqn:Ea.
      * apply Z.eqb_eq in Ea. subst e.
        destruct (IH (idx - 1) (l1 ++ [f1]) chain' r) as (A & B & C & D);
          [ rewrite Hlen; lia | exact Hok1 | rewrite Hpe; exact Hnb | exact H | ].
        repeat split; auto.
        -- rewrite B, Hlen. reflexivity.
        -- destruct r as [q|e']; [rewrite <- Hpe; exact D|].
           destruct D as [D1 D2]. split; auto. rewrite D1. auto.
      * destruct He as [He | [He Hd]]; [apply Z.eqb_neq in Ea; contradiction|].
        subst e. simpl in H. injection H as <- <-.
        repeat split; auto. 1: rewrite Hpe; auto.
        right. split; auto.
        assert (Hd1 : done f1) by (destruct Hd; split; congruence).
        apply Forall_app. split; [|constructor; auto].
        apply (eof_ok_done l1 f1); auto. apply Hd1.
  - (* an earlier filter: feed the next one *)
    apply Z.eqb_neq in Hlast.
    destruct l2 as [|g l2].
    { exfalso. rewrite Hc, length_app in Hlast. simpl in Hlast. lia. }
    assert (Hl : Z.to_nat idx = List.length l1) by auto.
    rewrite Hl, nth_next in H.
    assert (Hnext : -1 <= idx + 1 < Z.of_nat (List.length chain)).
    { rewrite Hc, length_app in Hlast |- *. simpl in Hlast |- *. lia. }
    pose proof Hok1 as Hok2. rewrite eof_ok_app in Hok2. destruct Hok2 as [Hokl Hokr].
    simpl in Hokr. destruct Hokr as [Hfg Hokg].
    destruct rr as [p|e].
    + assert (Hgo : bsf_eof g = false).
      { rewrite Hc in Hok. apply (eof_ok_next_open l1 f g l2 Hok).
        intros [_ D]. rewrite Hseg in D. discriminate. }
      assert (Hpnb : pkt_nonblank p = true).
      { rewrite Hpend, Hseg in Hnb. unfold nonblank_all in Hnb.
        rewrite !Forall_app in Hnb. destruct Hnb as [_ [Hnb _]]. inversion Hnb; auto. }
      destruct (av_bsf_send_packet g (Some p)) as [g1 ret] eqn:Hs.
      pose proof (send_spec _ _ _ _ Hs) as Hsg. simpl in Hsg.
      rewrite Hpnb in Hsg.
      destruct Hsg as [[E _] | [_ [Hg1 [Hsg1 ->]]]]; [congruence|].
      rewrite set_nth_next in H. simpl in H.
      assert (Hp2 : pending (l1 ++ f1 :: g1 :: l2) = pending chain).
      { rewrite Hpend, Hseg, pending_mid2, Hsg1, pending_cons, <- !app_assoc.
        reflexivity. }
      assert (Hok3 : eof_ok (l1 ++ f1 :: g1 :: l2)).
      { rewrite eof_ok_app. split; auto. simpl. split.
        - intros E; congruence.
        - apply (eof_ok_cons_open g); auto. }
      destruct (IH (idx + 1) (l1 ++ f1 :: g1 :: l2) chain' r) as (A & B & C & D);
        [ rewrite length_app in *; simpl in *; lia | exact Hok3
        | rewrite Hp2; exact Hnb | exact H | ].
      repeat split; auto.
      * rewrite B, !length_app. simpl. rewrite Hc, length_app. reflexivity.
      * destruct r as [q|e]; [rewrite <- Hp2; exact D|].
        destruct D as [D1 D2]. split; auto. rewrite D1. auto.
    + destruct Hseg as [Hs He].
      destruct (e =? AVERROR_EAGAIN) eqn:Ea.
      * apply Z.eqb_eq in Ea. subst e.
        assert (Hpe : pending (l1 ++ f1 :: g :: l2) = pending chain).
        { rewrite Hpend, pending_mid, Hs. reflexivity. }
        destruct (IH (idx - 1) (l1 ++ f1 :: g :: l2) chain' r) as (A & B & C & D);
          [ rewrite length_app in *; simpl in *; lia | exact Hok1
          | rewrite Hpe; exact Hnb | exact H | ].
        repeat split; auto.
        -- rewrite B, Hlen. reflexivity.
        -- destruct r as [q|e']; [rewrite <- Hpe; exact D|].
           destruct D as [D1 D2]. split; auto. rewrite D1. auto.
      * destruct He as [He | [He Hd]]; [apply Z.eqb_neq in Ea; contradiction|].
        subst e. simpl in H.
        destruct (av_bsf_send_packet g None) as [g1 ret] eqn:Hsn.
        pose proof (send_spec _ _ _ _ Hsn) as [Hg1 [Hsg1 ->]].
        rewrite set_nth_next in H. simpl in H.
        assert (Hd1 : done f1) by (destruct Hd; split; congruence).
        assert (Hp2 : pending (l1 ++ f1 :: g1 :: l2) = pending chain).
        { rewrite Hpend, pending_mid2, Hsg1, Hs, pending_cons, <- !app_assoc.
          reflexivity. }
        assert (Hok3 : eof_ok (l1 ++ f1 :: g1 :: l2)).
        { rewrite eof_ok_app. split; auto. simpl. split.
          - intros _; exact Hd1.
          - apply (eof_ok_cons_grow g); auto. }
        destruct (IH (idx + 1) (l1 ++ f1 :: g1 :: l2) chain' r) as (A & B & C & D);
          [ rewrite length_app in *; simpl in *; lia | exact Hok3
          | rewrite Hp2; exact Hnb | exact H | ].
        repeat split; auto.
        -- rewrite B, !length_app. simpl. rewrite Hc, length_app. reflexivity.
        -- destruct r as [q|e']; [rewrite <- Hp2; exact D|].
           destruct D as [D1 D2]. split; auto. rewrite D1. auto.
Qed.

#[local] Transparent av_bsf_send_packet av_bsf_receive_packet set_nth.
Lemma set_nth_same {A} (n : nat) (l : list A) (d : A) :
  (n < List.length l)%nat -> set_nth n l (nth n l d) = l.
Proof.
  revert n; induction l as [|a l IH]; intros [|n] Hn; simpl in *; try lia; auto.
  rewrite IH; auto. lia.
Qed.

(** On a finished chain a pull returns [EOF] and changes nothing. *)
Lemma poll_all_done (fuel : nat) (chain : list bsf) :
  Forall done chain -> chain <> [] ->
  bsfs_poll_loop (S fuel) (Z.of_nat (List.length chain) - 1) chain
  = Some (chain, inr AVERROR_EOF).
Proof.
  intros Hd Hne.
  assert (Hn : (0 < List.length chain)%nat) by (destruct chain; simpl; [congruence | lia]).
  cbn [bsfs_poll_loop].
  replace (Z.of_nat (List.length chain) - 1 <? 0) with false by (symmetry; apply Z.ltb_ge; lia).
  set (i := Z.to_nat (Z.of_nat (List.length chain) - 1)).
  assert (Hi : (i < List.length chain)%nat) by (unfold i; lia).
  rewrite (receive_done (nth i chain (mk_bsf 1))).
  2: { rewrite Forall_forall in Hd. apply Hd, nth_In; auto. }
  rewrite set_nth_same by auto.
  change (AVERROR_EOF =? AVERROR_EAGAIN) with false. cbn [negb].
  rewrite !Z.eqb_refl. reflexivity.
Qed.

Definition trace_inv (t : trace) : Prop :=
  eof_ok (tr_chain t) /\ nonblank_all (pending (tr_chain t)) /\
  tr_chain t <> [] /\
  tr_emitted t ++ pending (tr_chain t) = tr_sent t /\
  (tr_eof t = true -> Forall done (tr_chain t)).

Lemma trace_inv_send (t : trace) (p : packet) :
  trace_inv t ->
  let '(f, ret) := av_bsf_send_packet (nth 0 (tr_chain t) (mk_bsf 1)) (Some p) in
  trace_inv {| tr_chain := set_nth 0 (tr_chain t) f;
               tr_sent := if (ret =? 0) && pkt_nonblank p then tr_sent t ++ [p] else tr_sent t;
               tr_emitted := tr_emitted t; tr_eof := tr_eof t |}.
Proof.
  destruct t as [chain sent emitted eof]. unfold trace_inv.
  cbn [tr_chain tr_sent tr_emitted tr_eof].
  intros (Hok & Hnb & Hne & Hs & He).
  destruct chain as [|f rest]; [congruence|]. cbn [nth].
  destruct (av_bsf_send_packet f (Some p)) as [f' ret] eqn:Hsend.
  pose proof (send_spec _ _ _ _ Hsend) as Hsp. simpl in Hsp. cbn [set_nth].
  destruct (pkt_nonblank p) eqn:Hp.
  - destruct Hsp as [[E [-> ->]] | [E [E' [Sg ->]]]].
    + simpl. repeat split; auto.
    + simpl. rewrite pending_cons in *. rewrite Sg.
      repeat split.
      * apply (eof_ok_cons_open f); auto.
      * unfold nonblank_all in *. rewrite app_assoc, Forall_app. auto.
      * congruence.
      * rewrite <- Hs, !app_assoc. reflexivity.
      * intros Ht. specialize (He Ht). inversion He as [|? ? [D _]]. congruence.
  - destruct Hsp as [E [Sg ->]]. rewrite Bool.andb_false_r.
    rewrite pending_cons in *. rewrite Sg.
    repeat split; auto.
    + apply (eof_ok_cons_grow f); auto.
    + congruence.
    + intros Ht. specialize (He Ht). inversion He as [|? ? [D1 D2]]; subst.
      constructor; auto. split; congruence.
Qed.

(** ** Termination of the walk *)

Lemma receive_eagain (f f' : bsf) :
  av_bsf_receive_packet f = (f', inr AVERROR_EAGAIN) -> bsf_eof f = false /\ f' = f.
Proof.
  unfold av_bsf_receive_packet.
  destruct (bsf_out f); [|discriminate].
  destruct (bsf_in f) eqn:I.
  - destruct (bsf_eof f) eqn:E; intros H.
    + exfalso. unfold AVERROR_EOF, AVERROR_EAGAIN, FFERRTAG in H.
      injection H as _ H. lia.
    + injection H as ->. auto.
  - destruct (Nat.leb _ _ || bsf_eof f) eqn:L; intros H; inversion H; subst.
    apply orb_false_iff in L. destruct L. auto.
Qed.

(** Packets held weigh more the earlier their filter; each open filter
    adds one. *)
Fixpoint pot (l : list bsf) : nat :=
  match l with
  | [] => 0
  | f :: l' => (S (List.length l') * List.length (seg f) + (if bsf_eof f then 0 else 1)
                + pot l')%nat
  end.

Fixpoint potw (k : nat) (l : list bsf) : nat :=
  match l with
  | [] => 0
  | f :: l' => (S (List.length l' + k) * List.length (seg f) + (if bsf_eof f then 0 else 1)
                + potw k l')%nat
  end.

Lemma pot_app (l1 l2 : list bsf) : pot (l1 ++ l2) = (potw (List.length l2) l1 + pot l2)%nat.
Proof.
  induction l1 as [|f l1 IH]; simpl; auto.
  rewrite IH, length_app. lia.
Qed.

Definition above_open (idx : Z) (chain : list bsf) : Prop :=
  Forall (fun f => bsf_eof f = false) (skipn (S (Z.to_nat idx)) chain).

Lemma skipn_mid {A} (l1 : list A) (f : A) (l2 : list A) :
  skipn (S (List.length l1)) (l1 ++ f :: l2) = l2.
Proof. induction l1; simpl; auto. Qed.

Lemma skipn_next {A} (l1 : list A) (f g : A) (l2 : list A) :
  skipn (S (S (List.length l1))) (l1 ++ f :: g :: l2) = l2.
Proof. induction l1; simpl; auto. Qed.

Lemma skipn_at {A} (l1 : list A) (f : A) (l2 : list A) :
  skipn (List.length l1) (l1 ++ f :: l2) = f :: l2.
Proof. induction l1; simpl; auto. Qed.

#[local] Opaque av_bsf_send_packet av_bsf_receive_packet set_nth.

(** The walk ends within [n + 1] iterations per unit of [pot]. *)
Lemma poll_loop_total (fuel : nat) : forall idx chain,
  -1 <= idx < Z.of_nat (List.length chain) ->
  above_open idx chain ->
  Z.of_nat (S (List.length chain)) * Z.of_nat (pot chain) + idx + 1 < Z.of_nat fuel ->
  bsfs_poll_loop fuel idx chain <> None.
Proof.
  induction fuel as [|fuel IH]; intros idx chain Hidx Hab Hm; [lia|].
  cbn [bsfs_poll_loop].
  destruct (idx <? 0) eqn:Hneg; [discriminate|].
  apply Z.ltb_ge in Hneg.
  assert (Hi : (Z.to_nat idx < List.length chain)%nat) by lia.
  destruct (nth_split chain (mk_bsf 1) Hi) as (l1 & l2 & Hc & Hl1).
  remember (nth (Z.to_nat idx) chain (mk_bsf 1)) as f eqn:Hf.
  destruct (av_bsf_receive_packet f) as [f1 rr] eqn:Hr.
  pose proof (receive_spec _ _ _ Hr) as [Heof Hseg].
  cbv beta iota zeta.
  assert (Hset : set_nth (Z.to_nat idx) chain f1 = l1 ++ f1 :: l2).
  { rewrite Hc, <- Hl1. apply set_nth_mid. }
  rewrite Hset.
  assert (Hlen : List.length (l1 ++ f1 :: l2) = List.length chain).
  { rewrite Hc, !length_app. reflexivity. }
  rewrite Hlen.
  unfold above_open in Hab. rewrite Hc, <- Hl1, skipn_mid in Hab.
  assert (Hpot : forall g, List.length (seg g) = List.length (seg f) ->
                 bsf_eof g = bsf_eof f -> pot (l1 ++ g :: l2) = pot chain).
  { intros g Hg Hge. rewrite Hc, !pot_app. simpl. rewrite Hg, Hge. reflexivity. }
  destruct rr as [p|e].
  - destruct (idx =? Z.of_nat (List.length chain) - 1) eqn:Hlast; [discriminate|].
    apply Z.eqb_neq in Hlast.
    destruct l2 as [|g l2].
    { exfalso. rewrite Hc, length_app in Hlast. simpl in Hlast. lia. }
    rewrite <- Hl1, nth_next.
    destruct (av_bsf_send_packet g (Some p)) as [g1 ret] eqn:Hs.
    cbv beta iota zeta.
    destruct (ret <? 0) eqn:Hret; [discriminate|].
    pose proof (send_spec _ _ _ _ Hs) as Hsg. simpl in Hsg.
    assert (Hg1 : bsf_eof g1 = bsf_eof g \/ bsf_eof g1 = true).
    { destruct (pkt_nonblank p).
      - destruct Hsg as [[_ [-> _]] | [Ga [Gb _]]]; [auto | left; congruence].
      - destruct Hsg as [E _]; auto. }
    assert (Hsg1 : (List.length (seg g1) <= S (List.length (seg g)))%nat).
    { destruct (pkt_nonblank p).
      - destruct Hsg as [[_ [-> _]] | [_ [_ [E _]]]]; auto.
        rewrite E, length_app. simpl. lia.
      - destruct Hsg as [_ [E _]]. rewrite E. auto. }
    inversion Hab as [|? ? Hgo Hab2]; subst.
    rewrite set_nth_next.
    apply IH.
    + rewrite Hc, length_app in Hidx. rewrite length_app. simpl in *. lia.
    + unfold above_open. replace (S (Z.to_nat (idx + 1))) with (S (S (List.length l1))) by lia.
      rewrite skipn_next. auto.
    + assert (Hp : (pot (l1 ++ f1 :: g1 :: l2) < pot chain)%nat).
      { rewrite Hc, !pot_app. simpl. rewrite Heof, Hseg, Hgo. simpl.
        pose proof (Nat.mul_le_mono_l _ _ (List.length l2) Hsg1).
        destruct Hg1 as [Hg1 | Hg1]; rewrite Hg1; [rewrite Hgo|]; lia. }
      assert (HL : List.length (l1 ++ f1 :: g1 :: l2) = List.length chain).
      { rewrite Hc, !length_app. reflexivity. }
      rewrite HL. assert (Z.of_nat (pot (l1 ++ f1 :: g1 :: l2)) + 1 <= Z.of_nat (pot chain)) by lia.
      rewrite Nat2Z.inj_succ in *. nia.
  - destruct Hseg as [Hs He].
    destruct (e =? AVERROR_EAGAIN) eqn:Ea.
    + apply Z.eqb_eq in Ea. subst e.
      apply receive_eagain in Hr. destruct Hr as [Hfo ->].
      destruct (Z.eq_dec idx 0) as [->|Hnz].
      * destruct fuel; [lia|]. cbn [bsfs_poll_loop]. discriminate.
      * apply IH.
        -- rewrite Hlen. lia.
        -- unfold above_open. replace (S (Z.to_nat (idx - 1))) with (List.length l1) by lia.
           rewrite skipn_at. constructor; auto.
        -- rewrite Hlen, (Hpot f); auto. lia.
    + destruct (negb (e =? AVERROR_EOF)); [discriminate|].
      destruct (idx =? Z.of_nat (List.length chain) - 1) eqn:Hlast; [discriminate|].
      apply Z.eqb_neq in Hlast.
      destruct l2 as [|g l2].
      { exfalso. rewrite Hc, length_app in Hlast. simpl in Hlast. lia. }
      rewrite <- Hl1, nth_next.
      destruct (av_bsf_send_packet g None) as [g1 ret] eqn:Hsn.
      cbv beta iota zeta.
      pose proof (send_spec _ _ _ _ Hsn) as [Hg1 [Hsg1 ->]].
      cbn [Z.ltb Z.compare].
      rewrite set_nth_next.
      apply IH.
      * rewrite Hc, length_app in Hidx. rewrite length_app. simpl in *. lia.
      * unfold above_open. replace (S (Z.to_nat (idx + 1))) with (S (S (List.length l1))) by lia.
        rewrite skipn_next. inversion Hab; auto.
      * inversion Hab as [|? ? Hgo]; subst.
        assert (Hp : pot chain = S (pot (l1 ++ f1 :: g1 :: l2))).
        { rewrite Hc, !pot_app. simpl. rewrite Heof, Hs, Hsg1, Hg1, Hgo.
          simpl. lia. }
        assert (HL : List.length (l1 ++ f1 :: g1 :: l2) = List.length chain).
        { rewrite Hc, !length_app. reflexivity. }
        rewrite HL. rewrite Hp in Hm. rewrite Nat2Z.inj_succ in *. nia.
Qed.

Lemma pot_bound (l : list bsf) :
  (pot l <= List.length l * (List.length (pending l) + 1))%nat.
Proof.
  induction l as [|f l IH]; simpl; auto.
  rewrite pending_cons, length_app. destruct (bsf_eof f); nia.
Qed.

Lemma bsfs_poll_some (chain : list bsf) : bsfs_poll chain <> None.
Proof.
  unfold bsfs_poll, poll_fuel. apply poll_loop_total.
  - lia.
  - unfold above_open. rewrite skipn_all2; [constructor|]. lia.
  - pose proof (pot_bound chain). nia.
Qed.

Lemma trace_inv_poll (t : trace) :
  trace_inv t ->
  exists c r, bsfs_poll (tr_chain t) = Some (c, r) /\
  trace_inv (match r with
             | inl p => {| tr_chain := c; tr_sent := tr_sent t;
                           tr_emitted := tr_emitted t ++ [p]; tr_eof := tr_eof t |}
             | inr e => {| tr_chain := c; tr_sent := tr_sent t;
                           tr_emitted := tr_emitted t;
                           tr_eof := tr_eof t || (e =? AVERROR_EOF) |}
             end).
Proof.
  destruct t as [chain sent emitted eof]. unfold trace_inv.
  cbn [tr_chain tr_sent tr_emitted tr_eof].
  intros (Hok & Hnb & Hne & Hs & He).
  destruct eof.
  - exists chain, (inr AVERROR_EOF). split.
    + unfold bsfs_poll, poll_fuel. apply poll_all_done; auto.
    + repeat split; auto.
  - destruct (bsfs_poll chain) as [[c r]|] eqn:Hp; [|exfalso; apply (bsfs_poll_some chain); auto].
    exists c, r. split; [reflexivity|].
    unfold bsfs_poll in Hp.
    apply poll_loop_spec in Hp; auto; [|lia].
    destruct Hp as (Hok' & Hlen & Hnb' & Hr).
    assert (Hne' : c <> []) by (intros ->; destruct chain; simpl in Hlen; congruence).
    destruct r as [p|e].
    + cbn [tr_emitted tr_chain tr_sent tr_eof]. repeat split; auto; try discriminate.
      cbn [tr_emitted tr_chain tr_sent]. rewrite <- Hs, Hr, <- app_assoc. reflexivity.
    + destruct Hr as [Hr [-> | [-> Hd]]]; cbn [tr_emitted tr_chain tr_sent tr_eof orb]; repeat split; auto; rewrite ?Hr; auto.
      discriminate.
Qed.

Lemma run_chain_inv (ops : list chain_op) : forall t,
  trace_inv t -> exists t', run_chain ops t = Some t' /\ trace_inv t'.
Proof.
  induction ops as [|op ops IH]; intros t Ht; [exists t; auto|].
  destruct op as [p|]; cbn [run_chain].
  - pose proof (trace_inv_send t p Ht) as Hs.
    destruct (av_bsf_send_packet _ _) as [f ret]. apply IH, Hs.
  - destruct (trace_inv_poll t Ht) as (c & r & -> & Hi).
    destruct r; apply IH, Hi.
Qed.

Lemma trace_inv_init (batches : list nat) :
  batches <> [] -> trace_inv (init_trace batches).
Proof.
  intros Hb. unfold trace_inv, init_trace. cbn [tr_chain tr_sent tr_emitted tr_eof].
  assert (Hp : pending (map mk_bsf batches) = []).
  { unfold pending. rewrite <- map_rev. induction (rev batches); simpl; auto. }
  rewrite Hp. repeat split.
  - clear Hp Hb. induction batches as [|b bs IHb]; [simpl; auto|].
    destruct bs; simpl in *; auto. split; [intros E; discriminate E | exact IHb].
  - constructor.
  - destruct batches; simpl; congruence.
  - discriminate.
Qed.

#[local] Transparent av_bsf_send_packet av_bsf_receive_packet set_nth.

(** C9: the depth-first walk of [bsfs_poll] preserves packet order.  From
    a fresh chain of filters with any batch sizes, every sequence of
    submissions and pulls runs to completion (no pull exhausts its
    iteration bound); the packets pulled so far followed by the packets
    still held in the chain are exactly the packets accepted, in order; and
    once a pull has reported end-of-stream, the packets pulled are exactly
    the packets accepted. *)
Theorem bsfs_poll_order (batches : list nat) (ops : list chain_op) :
  batches <> [] ->
  exists t', run_chain ops (init_trace batches) = Some t' /\
    tr_emitted t' ++ pending (tr_chain t') = tr_sent t' /\
    (tr_eof t' = true -> tr_emitted t' = tr_sent t').
Proof.
  intros Hb.
  destruct (run_chain_inv ops _ (trace_inv_init batches Hb)) as (t' & Hrun & Hi).
  exists t'. split; [exact Hrun|].
  destruct Hi as (_ & _ & _ & Hs & He). split; [exact Hs|].
  intros Ht. rewrite <- Hs, pending_done, app_nil_r by auto. reflexivity.
Qed.

(** The two-filter example: the first filter passes packets through, the
    second holds two packets before it releases them. *)
Definition ex_pkt (n : Z) : packet :=
  {| pkt_data := Some [n]; pkt_side := []; pkt_pts := n; pkt_dts := n |}.

Definition ex_ops : list chain_op :=
  [ChainSend (ex_pkt 1); ChainPoll; ChainSend (ex_pkt 2); ChainPoll;
   ChainSend (ex_pkt 3); ChainPoll; ChainSend blank_packet;
   ChainPoll; ChainPoll; ChainPoll].

Lemma ex_run :
  option_map (fun t => (tr_sent t, tr_emitted t, tr_eof t))
    (run_chain ex_ops (init_trace [1; 2]%nat))
  = Some ([ex_pkt 1; ex_pkt 2; ex_pkt 3], [ex_pkt 1; ex_pkt 2; ex_pkt 3], true).
Proof. vm_compute. reflexivity. Qed.

Lemma bsfs_poll_order_witness :
  ([1; 2]%nat <> []) /\
  exists t', run_chain ex_ops (init_trace [1; 2]%nat) = Some t' /\
    tr_emitted t' ++ pending (tr_chain t') = tr_sent t' /\
    (tr_eof t' = true -> tr_emitted t' = tr_sent t').
Proof.
  split; [discriminate|].
  apply (bsfs_poll_order [1; 2]%nat ex_ops). discriminate.
Defined.

End BSFFacts.

(** ** Cropping *)
Module CroppingFacts.
Import Cropping.

(** [AV_PIX_FMT_GRAY8]: one plane, one byte per pixel. *)
Definition gray8 : pix_desc :=
  {| log2_chroma_w := 0; log2_chroma_h := 0; desc_flags := 0;
     comp := [{| plane := 0; step := 1 |}] |}.

Definition AV_PIX_FMT_GRAY8 : Z := 8.

Definition desc_get_gray8 (fmt : Z) : option pix_desc :=
  if fmt =? AV_PIX_FMT_GRAY8 then Some gray8 else None.

(** A [w]x[h] gray frame at address 4096 with stride 64. *)
Definition gray_frame (w h l r t b : Z) : frame :=
  {| data := [4096]; linesize := [64]; width := w; height := h;
     format := AV_PIX_FMT_GRAY8;
     crop_left := l; crop_right := r; crop_top := t; crop_bottom := b |}.

Definition SIZE_MAX : Z := 2 ^ 64 - 1.

(** C5: invalid margins are not always caught.  [crop_left + crop_right]
    overflows [size_t] for [crop_left = 1], [crop_right = SIZE_MAX]; both
    the test [crop_left >= INT_MAX - crop_right] and the test
    [crop_left + crop_right >= width] are computed modulo [2^64] and pass,
    so no warning is logged and the margins are not zeroed: with
    [apply_cropping] off the frame is returned with these margins, with it
    on the plane pointer is advanced by one byte while the width stays 16.
    The spec's example, [10]/[10] on a width-16 frame, is zeroed with a
    warning. *)
Theorem apply_cropping_overflow_missed :
  apply_cropping desc_get_gray8 {| ctx_apply_cropping := false; ctx_flags := 0 |}
    (gray_frame 16 16 1 SIZE_MAX 0 0)
  = (gray_frame 16 16 1 SIZE_MAX 0 0, 0, []) /\
  apply_cropping desc_get_gray8 {| ctx_apply_cropping := true; ctx_flags := 0 |}
    (gray_frame 16 16 1 SIZE_MAX 0 0)
  = ({| data := [4097]; linesize := [64]; width := 16; height := 16;
        format := AV_PIX_FMT_GRAY8;
        crop_left := 0; crop_right := 0; crop_top := 0; crop_bottom := 0 |}, 0, []) /\
  apply_cropping desc_get_gray8 {| ctx_apply_cropping := true; ctx_flags := 0 |}
    (gray_frame 16 16 10 10 0 0)
  = (gray_frame 16 16 0 0 0 0, 0, [AV_LOG_WARNING]).
Proof. vm_compute. repeat split. Qed.

(** C6: the alignment mask [~((1 << min_log2_align) - 1)] only clears bits
    of [crop_left] below the smallest trailing-zero count of the offsets,
    which for a one-byte-per-pixel plane are already zero.  For a gray
    frame with [crop_left = 3] the mask leaves [crop_left] at 3, the plane
    pointer moves by 3 bytes (not a multiple of 32), and the width shrinks
    by 3; the largest value [<= 3] keeping the offset 32-aligned is 0. *)
Theorem apply_cropping_align_noop :
  apply_cropping desc_get_gray8 {| ctx_apply_cropping := true; ctx_flags := 0 |}
    (gray_frame 64 16 3 0 0 0)
  = ({| data := [4099]; linesize := [64]; width := 61; height := 16;
        format := AV_PIX_FMT_GRAY8;
        crop_left := 0; crop_right := 0; crop_top := 0; crop_bottom := 0 |}, 0, []) /\
  (4099 - 4096) mod 32 <> 0 /\
  fst (calc_cropping_offsets (gray_frame 64 16 0 0 0 0) gray8) = [0].
Proof. vm_compute. repeat split; discriminate. Qed.

End CroppingFacts.

(** ** Parameter-change side data *)
Module ParamChangeFacts.
Import ParamChange.

(** Little-endian encoding of [v] on [n] bytes. *)
Fixpoint le_bytes (n : nat) (v : Z) : list Z :=
  match n with
  | O => []
  | S n' => v mod 256 :: le_bytes n' (v / 256)
  end.

Lemma length_le_bytes (n : nat) (v : Z) : List.length (le_bytes n v) = n.
Proof. revert v; induction n; intros v; simpl; auto. Qed.

Lemma get_le_bytes (n : nat) : forall (v : Z) (r : list Z),
  get_le n (le_bytes n v ++ r) = v mod 256 ^ Z.of_nat n.
Proof.
  induction n as [|n IH]; intros v r.
  - simpl. rewrite Z.mod_1_r. reflexivity.
  - cbn [le_bytes app get_le]. rewrite IH.
    rewrite Nat2Z.inj_succ, Z.pow_succ_r by lia.
    rewrite Z.rem_mul_r; [reflexivity | lia | apply Z.pow_pos_nonneg; lia].
Qed.

Lemma skipn_le_bytes (n : nat) (v : Z) (r : list Z) :
  skipn n (le_bytes n v ++ r) = r.
Proof.
  rewrite skipn_app, length_le_bytes, Nat.sub_diag, skipn_all2 by (rewrite length_le_bytes; lia).
  reflexivity.
Qed.

Lemma get_le32 (v : Z) (r : list Z) :
  0 <= v < 2 ^ 32 -> get_le 4 (le_bytes 4 v ++ r) = v.
Proof. intros Hv. rewrite get_le_bytes. apply Z.mod_small. simpl. lia. Qed.

(** A payload announcing new dimensions: flags, width, height, then
    [trail]. *)
Definition dims_payload (w h : Z) (trail : list Z) : list Z :=
  le_bytes 4 AV_SIDE_DATA_PARAM_CHANGE_DIMENSIONS ++ le_bytes 4 w ++ le_bytes 4 h ++ trail.

(** The same payload cut after the width. *)
Definition dims_payload_cut (w : Z) : list Z :=
  le_bytes 4 AV_SIDE_DATA_PARAM_CHANGE_DIMENSIONS ++ le_bytes 4 w.

Definition accept_dimensions (w h : Z) : (Z * Z) * Z := ((w, h), 0).

Definition ctx0 : pctx :=
  {| channels := 2; channel_layout := 3; sample_rate := 44100; width := 320; height := 240 |}.

Lemma to_int_small (z : Z) : - 2 ^ 31 <= z < 2 ^ 31 -> to_int z = z.
Proof.
  intros Hz. unfold to_int.
  destruct (Z.le_gt_cases 0 z).
  - rewrite Z.mod_small by lia. rewrite Z.geb_leb. replace (2 ^ 31 <=? z) with false by (symmetry; apply Z.leb_gt; lia).
    reflexivity.
  - replace (z mod 2 ^ 32) with (z + 2 ^ 32).
    + rewrite Z.geb_leb. replace (2 ^ 31 <=? z + 2 ^ 32) with true by (symmetry; apply Z.leb_le; lia). lia.
    + apply Z.mod_unique_pos with (-1); lia.
Qed.

(** The flag tests of the body for flags = DIMENSIONS. *)
Ltac flags_dims :=
  change (Z.land AV_SIDE_DATA_PARAM_CHANGE_DIMENSIONS AV_SIDE_DATA_PARAM_CHANGE_CHANNEL_COUNT =? 0)
    with true;
  change (Z.land AV_SIDE_DATA_PARAM_CHANGE_DIMENSIONS AV_SIDE_DATA_PARAM_CHANGE_CHANNEL_LAYOUT =? 0)
    with true;
  change (Z.land AV_SIDE_DATA_PARAM_CHANGE_DIMENSIONS AV_SIDE_DATA_PARAM_CHANGE_SAMPLE_RATE =? 0)
    with true;
  change (Z.land AV_SIDE_DATA_PARAM_CHANGE_DIMENSIONS AV_SIDE_DATA_PARAM_CHANGE_DIMENSIONS =? 0)
    with false;
  change (AVERROR_INVALIDDATA <? 0) with true;
  cbv beta iota zeta; cbn [negb app].

(** C7 (counterexample): the payload cut to 8 bytes is not rejected when
    [AV_EF_EXPLODE] is off: two errors are logged and [0] is returned, the
    context unchanged. *)
Lemma param_change_cut_accepted :
  apply_param_change accept_dimensions true 0 (Some (dims_payload_cut 640)) ctx0
  = (ctx0, 0, [AV_LOG_ERROR; AV_LOG_ERROR]).
Proof. vm_compute. reflexivity. Qed.

(** C7 (amended): for a decoder with [AV_CODEC_CAP_PARAM_CHANGE] whose
    [ff_set_dimensions] accepts [w]x[h], a payload of flags = DIMENSIONS,
    then width and height (4 bytes little-endian each), then any trailing
    bytes sets the context's width and height to [w] and [h] and returns 0.
    The payload cut to 8 bytes leaves the context unchanged, logs two
    errors and returns [AVERROR_INVALIDDATA] only if [AV_EF_EXPLODE] is set
    in [err_recognition], [0] otherwise.  Without the capability the side
    data is refused, with [AVERROR(EINVAL)] under [AV_EF_EXPLODE]. *)
Theorem param_change_dimensions (ff_set_dimensions : Z -> Z -> (Z * Z) * Z)
    (er : Z) (c : pctx) (w h : Z) (trail : list Z) :
  0 <= w <= INT_MAX -> 0 <= h <= INT_MAX -> ff_set_dimensions w h = ((w, h), 0) ->
  apply_param_change ff_set_dimensions true er (Some (dims_payload w h trail)) c
    = (set_wh c w h, 0, []) /\
  apply_param_change ff_set_dimensions true er (Some (dims_payload_cut w)) c
    = (c, if Z.land er AV_EF_EXPLODE =? 0 then 0 else AVERROR_INVALIDDATA,
       [AV_LOG_ERROR; AV_LOG_ERROR]) /\
  apply_param_change ff_set_dimensions false er (Some (dims_payload w h trail)) c
    = (c, if Z.land er AV_EF_EXPLODE =? 0 then 0 else AVERROR_EINVAL,
       [AV_LOG_ERROR; AV_LOG_ERROR]).
Proof.
  intros Hw Hh Hset. unfold INT_MAX in *.
  split; [|split].
  - unfold apply_param_change, param_change_body, dims_payload.
    rewrite !length_app, !length_le_bytes, get_le32 by (unfold AV_SIDE_DATA_PARAM_CHANGE_DIMENSIONS; lia).
    rewrite skipn_le_bytes.
    set (n := Z.of_nat _). assert (Hn : 12 <= n) by (unfold n; lia).
    replace (n <? 4) with false by (symmetry; apply Z.ltb_ge; lia).
    flags_dims.
    replace (n - 4 <? 8) with false by (symmetry; apply Z.ltb_ge; lia).
    rewrite get_le32, skipn_le_bytes, get_le32 by lia.
    rewrite !to_int_small by lia. cbn [width height set_wh].
    rewrite Hset. reflexivity.
  - unfold apply_param_change, param_change_body, dims_payload_cut.
    rewrite !length_app, !length_le_bytes, get_le32 by (unfold AV_SIDE_DATA_PARAM_CHANGE_DIMENSIONS; lia).
    rewrite skipn_le_bytes.
    flags_dims.
    destruct (Z.land er AV_EF_EXPLODE =? 0); reflexivity.
  - unfold apply_param_change.
    change (AVERROR_EINVAL <? 0) with true. cbn [negb].
    destruct (Z.land er AV_EF_EXPLODE =? 0); reflexivity.
Qed.

Lemma param_change_dimensions_witness :
  (0 <= 640 <= INT_MAX /\ 0 <= 480 <= INT_MAX /\ accept_dimensions 640 480 = ((640, 480), 0)) /\
  (apply_param_change accept_dimensions true 0 (Some (dims_payload 640 480 [7])) ctx0
    = (set_wh ctx0 640 480, 0, []) /\
  apply_param_change accept_dimensions true 0 (Some (dims_payload_cut 640)) ctx0
    = (ctx0, if Z.land 0 AV_EF_EXPLODE =? 0 then 0 else AVERROR_INVALIDDATA,
       [AV_LOG_ERROR; AV_LOG_ERROR]) /\
  apply_param_change accept_dimensions false 0 (Some (dims_payload 640 480 [7])) ctx0
    = (ctx0, if Z.land 0 AV_EF_EXPLODE =? 0 then 0 else AVERROR_EINVAL,
       [AV_LOG_ERROR; AV_LOG_ERROR])).
Proof.
  split; [unfold INT_MAX; split; [lia | split; [lia | reflexivity]]|].
  apply (param_change_dimensions accept_dimensions 0 ctx0 640 480 [7]);
    unfold INT_MAX; [lia | lia | reflexivity].
Defined.

End ParamChangeFacts.

(** ** The frame buffer pool *)
Module PoolFacts.
Import Pool.

(** C8: a failed rebuild does not always empty the descriptor.  For a
    video request whose shape differs from the cached one, if
    [av_image_fill_pointers] fails the function returns [-1] directly
    instead of jumping to [fail]: the descriptor keeps its old format,
    width and height, and the old pools are neither released nor
    replaced. *)
Theorem update_frame_pool_fill_fail
    (align_dims : pool_ctx -> Z -> Z -> (Z * Z) * list Z)
    (fill_linesizes : Z -> Z -> list Z) (fill_pointers : Z -> Z -> list Z -> list Z * Z)
    (is_planar : Z -> bool) (get_buffer_size : Z -> Z -> Z -> Z -> Z * Z)
    (pool_init : Z -> option Z)
    (avctx : pool_ctx) (p : FramePool) (fr : pool_frame)
    (w h : Z) (sa ls data : list Z) (tmpsize : Z) :
  codec_type avctx = AVMEDIA_TYPE_VIDEO ->
  (format p =? fr_format fr) && (width p =? fr_width fr) && (height p =? fr_height fr) = false ->
  align_dims avctx (fr_width fr) (fr_height fr) = ((w, h), sa) ->
  linesize_loop fill_linesizes LINESIZE_LOOP_BOUND (pix_fmt avctx) w sa = Some ls ->
  fill_pointers (pix_fmt avctx) h ls = (data, tmpsize) ->
  tmpsize < 0 ->
  exists p', update_frame_pool align_dims fill_linesizes fill_pointers is_planar
               get_buffer_size pool_init avctx p fr = Some (p', -1) /\
    format p' = format p /\ width p' = width p /\ height p' = height p /\
    pools p' = pools p.
Proof.
  intros Hty Hmis Hal Hls Hfp Hneg.
  unfold update_frame_pool. rewrite Hty, Hmis, Hal. cbv beta iota zeta.
  rewrite Hls, Hfp. replace (tmpsize <? 0) with true by (symmetry; apply Z.ltb_lt; exact Hneg).
  exists (with_stride_align p sa). repeat split.
Qed.

(** A gray 16x16 pool with one live pool, and a 32x16 request. *)
Definition ex_pool : FramePool :=
  {| format := 0; width := 16; height := 16; stride_align := [1; 1; 1; 1];
     linesize := [16; 0; 0; 0]; planes := 0; channels := 0; samples := 0;
     pools := [Some 272; None; None; None] |}.

Definition ex_ctx : pool_ctx := {| codec_type := AVMEDIA_TYPE_VIDEO; pix_fmt := 0; ctx_nb_channels := 0 |}.

Definition ex_frame : pool_frame :=
  {| fr_format := 0; fr_width := 32; fr_height := 16; fr_nb_channels := 0; fr_nb_samples := 0 |}.

Definition ex_align (_ : pool_ctx) (w h : Z) : (Z * Z) * list Z := ((w, h), [1; 1; 1; 1]).
Definition ex_linesizes (_ w : Z) : list Z := [w; 0; 0; 0].
Definition ex_pointers_fail (_ _ : Z) (_ : list Z) : list Z * Z := ([0; 0; 0; 0], AVERROR_EINVAL).

Lemma update_frame_pool_fill_fail_witness :
  exists p', update_frame_pool ex_align ex_linesizes ex_pointers_fail (fun _ => false)
               (fun l _ _ _ => (l, 0)) Some ex_ctx ex_pool ex_frame = Some (p', -1) /\
    format p' = format ex_pool /\ width p' = width ex_pool /\ height p' = height ex_pool /\
    pools p' = pools ex_pool.
Proof.
  apply (update_frame_pool_fill_fail ex_align ex_linesizes ex_pointers_fail (fun _ => false)
           (fun l _ _ _ => (l, 0)) Some ex_ctx ex_pool ex_frame 32 16 [1; 1; 1; 1]
           [32; 0; 0; 0] [0; 0; 0; 0] AVERROR_EINVAL);
    [reflexivity | reflexivity | reflexivity | reflexivity | reflexivity | vm_compute; reflexivity].
Defined.

End PoolFacts.

(** ** The decoding driver *)
Module DriverFacts.
Import BSF Driver.

(** Case analysis on a scrutinee, on the first operand of a boolean
    connective. *)
Ltac destr_scrut x :=
  lazymatch x with
  | ?a && _ => destr_scrut a
  | ?a || _ => destr_scrut a
  | negb ?a => destr_scrut a
  | _ => let E := fresh "E" in destruct x eqn:E
  end.

(** Case analysis on every [match] of a hypothesis. *)
Ltac destr_in H :=
  repeat (cbn [andb orb negb] in H;
    match type of H with
    | context [match ?x with _ => _ end] =>
        lazymatch x with
        | context [match _ with _ => _ end] => fail
        | _ => destr_scrut x
        end
    end).

(** Boolean comparisons of integers as propositions. *)
Ltac zbools :=
  repeat match goal with
  | E : (_ && _) = true |- _ => apply andb_true_iff in E; destruct E
  | E : (_ <? _) = true |- _ => apply Z.ltb_lt in E
  | E : (_ <? _) = false |- _ => apply Z.ltb_ge in E
  | E : (_ <=? _) = true |- _ => apply Z.leb_le in E
  | E : (_ <=? _) = false |- _ => apply Z.leb_gt in E
  | E : (_ =? _) = true |- _ => apply Z.eqb_eq in E
  | E : (_ =? _) = false |- _ => apply Z.eqb_neq in E
  end.

Section Facts.

Variable BState : Type.
Variable avcodec : codec BState.
Variable ff_set_dimensions : Z -> Z -> (Z * Z) * Z.
Variable av_pix_fmt_desc_get : Z -> option Cropping.pix_desc.


Lemma dsi_nonneg (c c' : dctx BState) (frame f' : dframe) (r : Z) :
  decode_simple_internal avcodec ff_set_dimensions c frame = Some (c', f', r) ->
  0 <= r -> buf0 f' = None -> f' = unset_frame.
Proof.
  unfold decode_simple_internal. intros H. cbv zeta in H. destr_in H;
    try discriminate; injection H as <- <- <-; intros Hr Hb;
    repeat match goal with
    | E : (_ && _) = true |- _ => apply andb_true_iff in E; destruct E
    | E : (_ <? _) = true |- _ => apply Z.ltb_lt in E
    end;
    unfold AVERROR_EOF, FFERRTAG in *; try lia; auto; try congruence;
    cbn [buf0 set_frame_pkt_dts set_frame_params set_img] in *; congruence.
Qed.

Lemma pkt_size_nonneg (p : packet) : 0 <= pkt_size p.
Proof. unfold pkt_size. destruct (pkt_data p); lia. Qed.




(** A successful run of the loop returns a frame with a buffer. *)
Lemma dsrf_buf (fuel : nat) : forall (c c' : dctx BState) (frame f' : dframe) (r : Z),
  decode_simple_receive_frame avcodec ff_set_dimensions fuel c frame = Some (c', f', r) ->
  0 <= r -> buf0 f' <> None.
Proof.
  induction fuel as [|fuel IH]; intros c c' frame f' r H Hr;
    cbn [decode_simple_receive_frame] in H; [discriminate|].
  destruct (buf0 frame) eqn:Eb; [injection H as _ <- _; congruence|].
  destruct (decode_simple_internal avcodec ff_set_dimensions c frame)
    as [[[c1 f1] r1]|] eqn:E; [|discriminate].
  destruct (r1 <? 0) eqn:Er.
  - injection H as _ _ <-. apply Z.ltb_lt in Er. lia.
  - eauto.
Qed.

Lemma get_packet_cfg (c c' : dctx BState) r p :
  ff_decode_get_packet avcodec ff_set_dimensions c = (c', r, p) -> cfg c' = cfg c.
Proof.
  unfold ff_decode_get_packet. intros H. cbv zeta in H. destr_in H;
    injection H as <- _ _; reflexivity.
Qed.

(** The context [c1] with which [decode_simple_internal], called on [c],
    reaches the [decode] call: either it keeps the packet it holds (or is
    draining), or it fetches one with [ff_decode_get_packet], which
    returns a packet or [AVERROR_EOF]; then [draining_done] is clear and
    the packet has data, or the codec accepts an empty one
    ([AV_CODEC_CAP_DELAY] or frame threading). *)
Definition dsi_reaches_decode (c c1 : dctx BState) : Prop :=
  (((pkt_data (in_pkt (st c)) <> None \/ draining (st c) = true) /\ c1 = c) \/
   (pkt_data (in_pkt (st c)) = None /\ draining (st c) = false /\
    exists c2 ret p,
      ff_decode_get_packet avcodec ff_set_dimensions (set_in_pkt c blank_packet) = (c2, ret, p) /\
      (0 <= ret \/ ret = AVERROR_EOF) /\ c1 = set_in_pkt c2 p)) /\
  draining_done (st c1) = false /\
  (pkt_data (in_pkt (st c1)) <> None \/ cap_delay avcodec = true \/ thread_frame (cfg c1) = true).

Lemma dsi_decode_nobuf (c c1 : dctx BState) (frame fr : dframe) s r0 :
  dsi_reaches_decode c c1 ->
  (if thread_frame (cfg c) then thread_decode avcodec else decode avcodec)
    (bst (st c1)) frame (in_pkt (st c1)) = (s, fr, true, r0) ->
  buf0 fr = None ->
  decode_simple_internal avcodec ff_set_dimensions c frame = None.
Proof.
  intros [Hcase [Hdd Hgo]] Hdec Hb.
  assert (Hcfg : cfg c1 = cfg c).
  { destruct Hcase as [[_ ->]|(_ & _ & c2 & ret & p & Hg & _ & ->)]; [reflexivity|].
    apply get_packet_cfg in Hg. exact Hg. }
  rewrite Hcfg in Hgo. unfold decode_simple_internal. cbv zeta.
  destruct Hcase as [[Hnd Hc1]|(Hpd & Hdr & c2 & ret & p & Hg & Hret & Hc1)].
  - assert (Hpre : (match pkt_data (in_pkt (st c)) with None => true | Some _ => false end)
                   && negb (draining (st c)) = false).
    { destruct Hnd as [Hp|Hdr].
      - destruct (pkt_data (in_pkt (st c))); [reflexivity|congruence].
      - rewrite Hdr. apply andb_false_r. }
    rewrite Hpre. cbv beta iota. rewrite <- Hc1.
    revert Hgo Hdec. rewrite <- Hcfg. rewrite Hdd.
    destruct (thread_frame (cfg c1)), (cap_delay avcodec), (pkt_data (in_pkt (st c1)));
      cbn [andb orb negb]; intros Hgo Hdec;
      try (exfalso; destruct Hgo as [H|[H|H]]; congruence);
      rewrite Hdec; destruct (sets_pkt_dts avcodec), (cap_dr1 avcodec); cbn; rewrite Hb;
      reflexivity.
  - rewrite Hpd, Hdr. cbn [andb negb]. rewrite Hg.
    assert (Hret' : (ret <? 0) && negb (ret =? AVERROR_EOF) = false).
    { destruct Hret as [Hr | ->].
      - replace (ret <? 0) with false by (symmetry; apply Z.ltb_ge; exact Hr). reflexivity.
      - rewrite Z.eqb_refl. apply andb_false_r. }
    rewrite Hret'. cbv beta iota. rewrite <- Hc1.
    revert Hgo Hdec. rewrite <- Hcfg. rewrite Hdd.
    destruct (thread_frame (cfg c1)), (cap_delay avcodec), (pkt_data (in_pkt (st c1)));
      cbn [andb orb negb]; intros Hgo Hdec;
      try (exfalso; destruct Hgo as [H|[H|H]]; congruence);
      rewrite Hdec; destruct (sets_pkt_dts avcodec), (cap_dr1 avcodec); cbn; rewrite Hb;
      reflexivity.
Qed.


(** On the simple decode API: a successful [decode_simple_receive_frame]
    returns a frame with a buffer; a successful [decode_simple_internal]
    either produced a frame with a buffer or left the frame unset;
    whenever [decode_simple_internal] reaches the [decode] callback,
    whether with the rest of a packet, with a packet it fetched through
    [ff_decode_get_packet], or with an empty packet while draining, a
    frame reported without a buffer fails the assertion ([None]); and
    every success of [avcodec_receive_frame] returns a frame with a
    buffer. *)
Theorem simple_decode_frame_has_buffer (fuel : nat) (c c' : dctx BState) (frame f' : dframe) (r : Z) :
  (decode_simple_receive_frame avcodec ff_set_dimensions fuel c frame = Some (c', f', r) ->
   0 <= r -> buf0 f' <> None) /\
  (decode_simple_internal avcodec ff_set_dimensions c frame = Some (c', f', r) ->
   0 <= r -> buf0 f' = None -> f' = unset_frame) /\
  (forall c1 s fr r0, dsi_reaches_decode c c1 ->
   (if thread_frame (cfg c) then thread_decode avcodec else decode avcodec)
     (bst (st c1)) frame (in_pkt (st c1)) = (s, fr, true, r0) ->
   buf0 fr = None ->
   decode_simple_internal avcodec ff_set_dimensions c frame = None) /\
  (receive_frame avcodec = None ->
   avcodec_receive_frame avcodec ff_set_dimensions av_pix_fmt_desc_get c frame = Some (c', f', r) ->
   0 <= r -> buf0 f' <> None).
Proof.
  split; [apply dsrf_buf|]. split; [apply dsi_nonneg|]. split.
  - intros c1 s fr r0. apply dsi_decode_nobuf.
  - intros Hrf H Hr. unfold avcodec_receive_frame, decode_receive_frame_internal in H.
    rewrite Hrf in H. cbv zeta in H. cbn [buf0 unset_frame] in H.
    destr_in H; try discriminate; injection H as <- <- <-; subst; zbools;
      unfold AVERROR_EINVAL in *; try lia;
      cbn [buf0 set_img]; try congruence; eapply dsrf_buf; eauto; lia.
Qed.

(** Drained: open, [draining] and [draining_done] set, no buffered
    frame, and a filter chain in place. *)
Definition drained (c : dctx BState) : Prop :=
  is_open (cfg c) = true /\ is_decoder (cfg c) = true /\ draining (st c) = true /\
  draining_done (st c) = true /\ buf0 (buffer_frame (st c)) = None /\ chain (st c) <> [].

Lemma drained_set_draining_done (c : dctx BState) :
  drained c -> drained (set_draining_done c true).
Proof. unfold drained, set_draining_done, upd_st. cbn. tauto. Qed.

Lemma receive_drained (c : dctx BState) (frame : dframe) :
  receive_frame avcodec = None -> drained c ->
  avcodec_receive_frame avcodec ff_set_dimensions av_pix_fmt_desc_get c frame =
    Some (set_draining_done c true, unset_frame, AVERROR_EOF).
Proof.
  intros Hrf (Ho & Hd & Hdr & Hdd & Hb & Hc). unfold avcodec_receive_frame.
  rewrite Ho, Hd. cbn [andb negb]. unfold bsfs_init.
  destruct (chain (st c)) as [|f l] eqn:El; [congruence|]. cbn [Z.ltb Z.compare].
  rewrite Hb. unfold decode_receive_frame_internal. rewrite Hrf. cbn [buf0 unset_frame].
  unfold DECODE_LOOP_BOUND. cbn [decode_simple_receive_frame buf0 unset_frame].
  unfold decode_simple_internal. rewrite Hdr.
  destruct (pkt_data (in_pkt (st c))); cbn [andb negb]; cbv beta iota zeta;
    rewrite Hdd; reflexivity.
Qed.

Lemma send_drained (c : dctx BState) (p : option packet) :
  drained c -> avcodec_send_packet avcodec ff_set_dimensions c p = Some (c, AVERROR_EOF).
Proof.
  intros (Ho & Hd & Hdr & _). unfold avcodec_send_packet. rewrite Ho, Hd, Hdr. reflexivity.
Qed.

Definition is_receive (o : api_op) : bool :=
  match o with ApiReceive => true | ApiSend _ => false end.

Lemma run_api_drained (ops : list api_op) : forall c : dctx BState,
  receive_frame avcodec = None -> drained c ->
  exists c', run_api avcodec ff_set_dimensions av_pix_fmt_desc_get ops c =
               Some (c', map (fun _ => (unset_frame, AVERROR_EOF)) (filter is_receive ops)) /\
             drained c'.
Proof.
  induction ops as [|o ops IH]; intros c Hrf Hc; cbn [run_api filter map].
  - eauto.
  - destruct o as [p|]; cbn [is_receive].
    + rewrite send_drained by exact Hc. auto.
    + rewrite receive_drained by assumption.
      destruct (IH (set_draining_done c true) Hrf (drained_set_draining_done c Hc))
        as (c' & -> & Hc'). cbn [map]. eauto.
Qed.

(** When the filter chain reports end of stream,
    [ff_decode_get_packet] sets [draining]; while [draining] is set it
    returns [AVERROR_EOF] without polling the chain or changing the
    context.  Once a decoder is drained ([draining] and [draining_done]
    set, no buffered frame), every submission returns [AVERROR_EOF] and
    leaves the context as it is; for a decoder on the simple decode API,
    every later sequence of submissions and retrievals returns
    [AVERROR_EOF] with an unset frame from every retrieval, and the
    context stays drained. *)
Theorem draining_terminal :
  (forall (c : dctx BState) l, draining (st c) = false ->
   bsfs_poll_total (chain (st c)) = (l, inr AVERROR_EOF) ->
   ff_decode_get_packet avcodec ff_set_dimensions c =
     (set_draining (set_chain c l) true, AVERROR_EOF, blank_packet)) /\
  (forall c : dctx BState, draining (st c) = true ->
   ff_decode_get_packet avcodec ff_set_dimensions c = (c, AVERROR_EOF, blank_packet)) /\
  (receive_frame avcodec = None -> forall (ops : list api_op) (c : dctx BState), drained c ->
   exists c', run_api avcodec ff_set_dimensions av_pix_fmt_desc_get ops c =
                Some (c', map (fun _ => (unset_frame, AVERROR_EOF)) (filter is_receive ops)) /\
              drained c') /\
  (forall (c : dctx BState) (p : option packet), drained c ->
   avcodec_send_packet avcodec ff_set_dimensions c p = Some (c, AVERROR_EOF)).
Proof.
  split; [|split; [|split]].
  - intros c l Hd Hp. unfold ff_decode_get_packet. rewrite Hd, Hp. reflexivity.
  - intros c Hd. unfold ff_decode_get_packet. rewrite Hd. reflexivity.
  - intros Hrf ops c Hc. apply run_api_drained; assumption.
  - intros c p Hc. apply send_drained. exact Hc.
Qed.

(** The packet [avcodec_send_packet] hands to the first filter. *)
Definition queued (avpkt : option packet) : packet :=
  match avpkt with
  | Some p => if pkt_nonblank p then p else blank_packet
  | None => blank_packet
  end.

Lemma bsfs_init_frame (c c0 : dctx BState) (r : Z) :
  bsfs_init avcodec c = (c0, r) -> buffer_frame (st c0) = buffer_frame (st c).
Proof.
  unfold bsfs_init. intros H. destr_in H; injection H as <- <-; reflexivity.
Qed.

(** Claim C3.  [avcodec_send_packet] returns [AVERROR(EINVAL)] on a
    context that is not an open decoder and [AVERROR_EOF] when it is
    draining, both without changing it; it returns the error of
    [bsfs_init]; and once the packet is queued into the first filter it
    returns 0 when a frame is already buffered, else 0 when the
    opportunistic decode returned [AVERROR(EAGAIN)], [AVERROR_EOF] or a
    non-negative value, and that decode's error otherwise. *)
Theorem send_packet_result (c : dctx BState) (avpkt : option packet) :
  (is_open (cfg c) && is_decoder (cfg c) = false ->
   avcodec_send_packet avcodec ff_set_dimensions c avpkt = Some (c, AVERROR_EINVAL)) /\
  (is_open (cfg c) && is_decoder (cfg c) = true -> draining (st c) = true ->
   avcodec_send_packet avcodec ff_set_dimensions c avpkt = Some (c, AVERROR_EOF)) /\
  (forall c0 e, is_open (cfg c) && is_decoder (cfg c) = true -> draining (st c) = false ->
   bsfs_init avcodec c = (c0, e) -> e < 0 ->
   avcodec_send_packet avcodec ff_set_dimensions c avpkt = Some (c0, e)) /\
  (forall c0 f0 rest f0' q c' r,
   is_open (cfg c) && is_decoder (cfg c) = true -> draining (st c) = false ->
   bsfs_init avcodec c = (c0, 0) -> chain (st c0) = f0 :: rest ->
   av_bsf_send_packet f0 (Some (queued avpkt)) = (f0', q) -> 0 <= q ->
   avcodec_send_packet avcodec ff_set_dimensions c avpkt = Some (c', r) ->
   (buf0 (buffer_frame (st c)) <> None -> r = 0) /\
   (forall c2 f r', buf0 (buffer_frame (st c)) = None ->
    decode_receive_frame_internal avcodec ff_set_dimensions
      (set_buffer_pkt (set_chain c0 (f0' :: rest)) blank_packet) (buffer_frame (st c)) =
      Some (c2, f, r') ->
    ((r' = AVERROR_EAGAIN \/ r' = AVERROR_EOF \/ 0 <= r') -> r = 0) /\
    (r' < 0 -> r' <> AVERROR_EAGAIN -> r' <> AVERROR_EOF -> r = r'))).
Proof.
  unfold avcodec_send_packet. split; [|split; [|split]].
  - intros H. rewrite H. reflexivity.
  - intros H Hd. rewrite H, Hd. reflexivity.
  - intros c0 e H Hd Hi He. rewrite H, Hd, Hi. cbn [negb].
    apply Z.ltb_lt in He. rewrite He. reflexivity.
  - intros c0 f0 rest f0' q c' r Ho Hd Hi Hch Hs Hq H.
    rewrite Ho, Hd, Hi in H. cbn [negb Z.ltb Z.compare] in H.
    pose proof (bsfs_init_frame _ _ _ Hi) as Hf.
    assert (Hq' : (q <? 0) = false) by (apply Z.ltb_ge; lia).
    destruct avpkt as [p|]; [destruct (pkt_nonblank p) eqn:Enb|];
      cbn [queued] in Hs; rewrite ?Enb in Hs;
      cbv beta iota zeta delta [set_buffer_pkt set_chain upd_st] in H |- *;
      cbn [st cfg bk chain buffer_pkt buffer_frame params draining draining_done
           buffer_pkt_valid compat_decode_frame in_pkt bst] in H |- *;
      rewrite ?Enb, Hch, Hs, Hq', Hf in H;
      (split; [intros Hb; destruct (buf0 (buffer_frame (st c))); [|congruence];
                 injection H as _ <-; reflexivity|]);
      intros c2 f r' Hb Hdr; rewrite Hf in Hdr; rewrite Hb, Hdr in H;
      cbv beta iota zeta in H; destr_in H; injection H as _ <-;
      unfold AVERROR_EAGAIN, AVERROR_EOF, FFERRTAG in *; zbools; split; intros; lia.
Qed.

(** * The book-keeping fields are never read

    [agree]: same settings and same decoding state; the [book] may
    differ. *)
Definition agree (c1 c2 : dctx BState) : Prop := cfg c1 = cfg c2 /\ st c1 = st c2.

Ltac agree_subst H :=
  lazymatch type of H with
  | agree ?c1 ?c2 =>
      let Hk := fresh "Hk" in let Hs := fresh "Hs" in
      destruct c1, c2; destruct H as [Hk Hs]; cbn [cfg st] in Hk, Hs; subst
  end.

Ltac agree_leaf := unfold agree; cbn [cfg st]; repeat split; reflexivity.

Ltac setters :=
  cbn [set_params set_draining set_draining_done set_buffer_pkt set_buffer_frame set_in_pkt
       set_chain set_bst add_consumed set_last_pkt_props incr_frame_number set_to_free
       upd_st upd_bk cfg st bk params draining draining_done buffer_pkt buffer_pkt_valid
       buffer_frame compat_decode_frame in_pkt chain bst
       set_frame_params set_img set_frame_pkt_dts buf0 img frame_pkt_dts].

(** Case analysis on the [match]es of the goal, the calls of
    [decode_receive_frame_internal] apart. *)
Ltac destr_goal :=
  repeat (setters; cbn [andb orb negb]; setters;
    match goal with
    | |- context [match ?x with _ => _ end] =>
        lazymatch x with
        | context [match _ with _ => _ end] => fail
        | decode_receive_frame_internal _ _ _ _ => fail
        | _ => destr_scrut x
        end
    end).

Lemma agree_get_packet (c1 c2 : dctx BState) : agree c1 c2 ->
  let '(c1', r1, p1) := ff_decode_get_packet avcodec ff_set_dimensions c1 in
  let '(c2', r2, p2) := ff_decode_get_packet avcodec ff_set_dimensions c2 in
  agree c1' c2' /\ r1 = r2 /\ p1 = p2.
Proof.
  intros H. agree_subst H. unfold ff_decode_get_packet. setters. destr_goal; agree_leaf.
Qed.

Definition agree_res (o1 o2 : option (dctx BState * dframe * Z)) : Prop :=
  match o1, o2 with
  | Some (c1, f1, r1), Some (c2, f2, r2) => agree c1 c2 /\ f1 = f2 /\ r1 = r2
  | None, None => True
  | _, _ => False
  end.

Lemma agree_set_in_pkt (c1 c2 : dctx BState) (v : packet) :
  agree c1 c2 -> agree (set_in_pkt c1 v) (set_in_pkt c2 v).
Proof. intros H. agree_subst H. setters. agree_leaf. Qed.

Lemma agree_dsi (c1 c2 : dctx BState) (frame : dframe) : agree c1 c2 ->
  agree_res (decode_simple_internal avcodec ff_set_dimensions c1 frame)
            (decode_simple_internal avcodec ff_set_dimensions c2 frame).
Proof.
  intros H. unfold decode_simple_internal.
  pose proof (agree_get_packet _ _ (agree_set_in_pkt _ _ blank_packet H)) as G.
  destruct (ff_decode_get_packet avcodec ff_set_dimensions (set_in_pkt c1 blank_packet))
    as [[c1' r1] p1].
  destruct (ff_decode_get_packet avcodec ff_set_dimensions (set_in_pkt c2 blank_packet))
    as [[c2' r2] p2].
  destruct G as (G & <- & <-). agree_subst H. agree_subst G.
  destr_goal; cbn [agree_res]; try exact I; agree_leaf.
Qed.

Lemma agree_dsrf (fuel : nat) : forall (c1 c2 : dctx BState) (frame : dframe), agree c1 c2 ->
  agree_res (decode_simple_receive_frame avcodec ff_set_dimensions fuel c1 frame)
            (decode_simple_receive_frame avcodec ff_set_dimensions fuel c2 frame).
Proof.
  induction fuel as [|fuel IH]; intros c1 c2 frame H; cbn [decode_simple_receive_frame];
    [exact I|].
  destruct (buf0 frame); [cbn [agree_res]; auto|].
  pose proof (agree_dsi c1 c2 frame H) as G.
  destruct (decode_simple_internal avcodec ff_set_dimensions c1 frame) as [[[c1' f1] r1]|],
    (decode_simple_internal avcodec ff_set_dimensions c2 frame) as [[[c2' f2] r2]|];
    cbn [agree_res] in G |- *; try contradiction; [|exact I].
  destruct G as (G & <- & <-). destruct (r1 <? 0); cbn [agree_res]; auto.
Qed.

Lemma agree_run_rprog (pr : rprog BState) : forall c1 c2 : dctx BState, agree c1 c2 ->
  let '(c1', f1, r1) := run_rprog avcodec ff_set_dimensions pr c1 in
  let '(c2', f2, r2) := run_rprog avcodec ff_set_dimensions pr c2 in
  agree c1' c2' /\ f1 = f2 /\ r1 = r2.
Proof.
  induction pr as [s f ret|k IH]; intros c1 c2 H; cbn [run_rprog].
  - agree_subst H. setters. agree_leaf.
  - pose proof (agree_get_packet _ _ H) as G.
    destruct (ff_decode_get_packet avcodec ff_set_dimensions c1) as [[c1' r1] p1],
      (ff_decode_get_packet avcodec ff_set_dimensions c2) as [[c2' r2] p2].
    destruct G as (G & <- & <-). apply IH. exact G.
Qed.

Lemma agree_drfi (c1 c2 : dctx BState) (frame : dframe) : agree c1 c2 ->
  agree_res (decode_receive_frame_internal avcodec ff_set_dimensions c1 frame)
            (decode_receive_frame_internal avcodec ff_set_dimensions c2 frame).
Proof.
  intros H. unfold decode_receive_frame_internal.
  destruct (buf0 frame); [exact I|].
  assert (Hb : bst (st c2) = bst (st c1)) by (destruct H as [_ ->]; reflexivity).
  rewrite Hb.
  assert (G : agree_res
    (match receive_frame avcodec with
     | Some rf => Some (run_rprog avcodec ff_set_dimensions (rf (bst (st c1)) frame) c1)
     | None => decode_simple_receive_frame avcodec ff_set_dimensions DECODE_LOOP_BOUND c1 frame
     end)
    (match receive_frame avcodec with
     | Some rf => Some (run_rprog avcodec ff_set_dimensions (rf (bst (st c1)) frame) c2)
     | None => decode_simple_receive_frame avcodec ff_set_dimensions DECODE_LOOP_BOUND c2 frame
     end)).
  { destruct (receive_frame avcodec) as [rf|]; [|apply agree_dsrf; exact H].
    pose proof (agree_run_rprog (rf (bst (st c1)) frame) c1 c2 H) as R.
    destruct (run_rprog avcodec ff_set_dimensions (rf (bst (st c1)) frame) c1) as [[c1' f1] r1],
      (run_rprog avcodec ff_set_dimensions (rf (bst (st c1)) frame) c2) as [[c2' f2] r2].
    exact R. }
  destruct (match receive_frame avcodec with Some _ => _ | None => _ end) as [[[c1' f1] r1]|],
    (match receive_frame avcodec with Some _ => _ | None => _ end) as [[[c2' f2] r2]|];
    cbn [agree_res] in G |- *; try contradiction; [|exact I].
  destruct G as (G & <- & <-). split; [|auto].
  destruct (r1 =? AVERROR_EOF); [|exact G]. agree_subst G. setters. agree_leaf.
Qed.

(** Both calls of [decode_receive_frame_internal] of the goal, on agreeing
    contexts, replaced by their agreeing results. *)
Ltac sync_drfi :=
  match goal with
  | |- context [decode_receive_frame_internal ?a ?b ?x1 ?f] =>
    match goal with
    | |- context [decode_receive_frame_internal a b ?x2 f] =>
      tryif constr_eq x1 x2 then fail else
      let G := fresh "G" in
      assert (G : agree_res (decode_receive_frame_internal a b x1 f)
                            (decode_receive_frame_internal a b x2 f))
        by (apply agree_drfi; agree_leaf);
      destruct (decode_receive_frame_internal a b x1 f) as [[[? ?] ?]|],
        (decode_receive_frame_internal a b x2 f) as [[[? ?] ?]|];
      cbn [agree_res] in G; try contradiction;
      [let G' := fresh "G" in destruct G as (G' & <- & <-); agree_subst G' | ]
    end
  end.

Definition agree_res2 (o1 o2 : option (dctx BState * Z)) : Prop :=
  match o1, o2 with
  | Some (c1, r1), Some (c2, r2) => agree c1 c2 /\ r1 = r2
  | None, None => True
  | _, _ => False
  end.

Lemma agree_send (c1 c2 : dctx BState) (p : option packet) : agree c1 c2 ->
  agree_res2 (avcodec_send_packet avcodec ff_set_dimensions c1 p)
             (avcodec_send_packet avcodec ff_set_dimensions c2 p).
Proof.
  intros H. agree_subst H. unfold avcodec_send_packet, bsfs_init.
  destr_goal; try sync_drfi; destr_goal; cbn [agree_res2]; try exact I; agree_leaf.
Qed.

Lemma agree_receive (c1 c2 : dctx BState) (frame : dframe) : agree c1 c2 ->
  agree_res (avcodec_receive_frame avcodec ff_set_dimensions av_pix_fmt_desc_get c1 frame)
            (avcodec_receive_frame avcodec ff_set_dimensions av_pix_fmt_desc_get c2 frame).
Proof.
  intros H. agree_subst H. unfold avcodec_receive_frame, bsfs_init.
  destr_goal; try sync_drfi; destr_goal; cbn [agree_res]; try exact I; agree_leaf.
Qed.

Definition agree_out (o1 o2 : option (dctx BState * list (dframe * Z))) : Prop :=
  match o1, o2 with
  | Some (c1, l1), Some (c2, l2) => agree c1 c2 /\ l1 = l2
  | None, None => True
  | _, _ => False
  end.

Lemma agree_run_api (ops : list api_op) : forall c1 c2 : dctx BState, agree c1 c2 ->
  agree_out (run_api avcodec ff_set_dimensions av_pix_fmt_desc_get ops c1)
            (run_api avcodec ff_set_dimensions av_pix_fmt_desc_get ops c2).
Proof.
  induction ops as [|o ops IH]; intros c1 c2 H; cbn [run_api].
  - cbn [agree_out]. auto.
  - destruct o as [p|].
    + pose proof (agree_send c1 c2 p H) as G.
      destruct (avcodec_send_packet avcodec ff_set_dimensions c1 p) as [[c1' r1]|],
        (avcodec_send_packet avcodec ff_set_dimensions c2 p) as [[c2' r2]|];
        cbn [agree_res2] in G; try contradiction; [|exact I].
      destruct G as [G _]. apply IH. exact G.
    + pose proof (agree_receive c1 c2 unset_frame H) as G.
      destruct (avcodec_receive_frame avcodec ff_set_dimensions av_pix_fmt_desc_get c1 unset_frame)
        as [[[c1' f1] r1]|],
        (avcodec_receive_frame avcodec ff_set_dimensions av_pix_fmt_desc_get c2 unset_frame)
        as [[[c2' f2] r2]|];
        cbn [agree_res] in G; try contradiction; [|exact I].
      destruct G as (G & <- & <-). pose proof (IH c1' c2' G) as G'.
      destruct (run_api avcodec ff_set_dimensions av_pix_fmt_desc_get ops c1') as [[d1 l1]|],
        (run_api avcodec ff_set_dimensions av_pix_fmt_desc_get ops c2') as [[d2 l2]|];
        cbn [agree_out] in G' |- *; try contradiction; auto.
      destruct G' as [G' <-]. auto.
Qed.

(** A newly opened context: settings [k], parameters [p], codec state
    [b] and book-keeping [b0], with no decoding state yet. *)
Definition fresh_ctx (k : config) (p : ParamChange.pctx) (b : BState) (b0 : book) : dctx BState :=
  {| cfg := k;
     st := {| params := p; draining := false; draining_done := false;
              buffer_pkt := blank_packet; buffer_pkt_valid := false;
              buffer_frame := unset_frame; compat_decode_frame := unset_frame;
              in_pkt := blank_packet; chain := []; bst := b |};
     bk := b0 |}.

(** Claim C4.  After [avcodec_flush_buffers], [draining] and
    [draining_done] are cleared, the buffered packet, buffered frame,
    staging frame and leftover packet are unset and the filter chain is
    empty; every later sequence of [avcodec_send_packet] and
    [avcodec_receive_frame] calls (in particular a NULL packet followed by
    retrievals) then returns what it returns on a newly opened context
    with the same settings, parameters and codec state, whatever its
    book-keeping counters. *)
Theorem flush_resets (c : dctx BState) (b0 : book) :
  let c' := avcodec_flush_buffers avcodec c in
  draining (st c') = false /\ draining_done (st c') = false /\
  buffer_pkt (st c') = blank_packet /\ buffer_pkt_valid (st c') = false /\
  buffer_frame (st c') = unset_frame /\ compat_decode_frame (st c') = unset_frame /\
  in_pkt (st c') = blank_packet /\ chain (st c') = [] /\
  forall ops : list api_op,
    option_map snd (run_api avcodec ff_set_dimensions av_pix_fmt_desc_get ops c') =
    option_map snd (run_api avcodec ff_set_dimensions av_pix_fmt_desc_get ops
                      (fresh_ctx (cfg c) (params (st c)) (bst (st c')) b0)).
Proof.
  cbv zeta.
  assert (E : exists bb b', avcodec_flush_buffers avcodec c = fresh_ctx (cfg c) (params (st c)) bb b').
  { unfold avcodec_flush_buffers, fresh_ctx. cbv zeta. setters.
    destruct (refcounted_frames (cfg c)); do 2 eexists; reflexivity. }
  destruct E as (bb & b' & ->).
  repeat split; try reflexivity. intros ops.
  assert (A : agree (fresh_ctx (cfg c) (params (st c)) bb b')
                    (fresh_ctx (cfg c) (params (st c)) (bst (st (fresh_ctx (cfg c) (params (st c)) bb b'))) b0))
    by (split; reflexivity).
  pose proof (agree_run_api ops _ _ A) as G.
  destruct (run_api _ _ _ ops (fresh_ctx (cfg c) (params (st c)) bb b')) as [[d1 l1]|],
    (run_api _ _ _ ops (fresh_ctx (cfg c) (params (st c)) _ b0)) as [[d2 l2]|];
    cbn [agree_out] in G; try contradiction; cbn [option_map snd]; try reflexivity.
  destruct G as [_ ->]. reflexivity.
Qed.

End Facts.

(** ** Concrete decoders

    A packet-per-frame decoder on a [nat] state: the state counts the
    packets it decoded; a packet with data gives a frame whose buffer is
    the count. *)
Definition dx_img : Cropping.frame := CroppingFacts.gray_frame 16 16 0 0 0 0.

Definition dx_buf_frame (n : Z) : dframe :=
  {| buf0 := Some n; img := dx_img; frame_pkt_dts := 0 |}.

Definition dx_decode (s : nat) (fr : dframe) (p : packet) : nat * dframe * bool * Z :=
  match pkt_data p with
  | Some _ => (S s, dx_buf_frame (Z.of_nat s), true, pkt_size p)
  | None => (s, fr, false, 0)
  end.

(** A decoder that rejects every packet. *)
Definition dx_decode_fail (s : nat) (fr : dframe) (p : packet) : nat * dframe * bool * Z :=
  (s, fr, false, AVERROR_INVALIDDATA).


Definition dx_codec (rf : option (nat -> dframe -> rprog nat))
    (dec : nat -> dframe -> packet -> nat * dframe * bool * Z) (ty : Pool.media_type) : codec nat :=
  {| receive_frame := rf; decode := dec; thread_decode := dec;
     flush := None; thread_flush := fun s => s;
     cap_delay := false; cap_dr1 := true; cap_param_change := false; sets_pkt_dts := true;
     codec_type := ty; codec_bsfs := None; bsfs_init_err := None |}.

Definition dx_cfg : config :=
  {| is_open := true; is_decoder := true; thread_frame := false; cfg_apply_cropping := true;
     cfg_flags := 0; err_recognition := 0; pix_fmt := CroppingFacts.AV_PIX_FMT_GRAY8;
     sample_fmt := 1; refcounted_frames := true |}.

Definition dx_book : book :=
  {| frame_number := 0; compat_decode_consumed := 0; last_pkt_props := blank_packet;
     to_free := unset_frame |}.

(** A newly opened decoder. *)
Definition dx_fresh : dctx nat := fresh_ctx nat dx_cfg ParamChangeFacts.ctx0 0%nat dx_book.

(** A decoder holding the rest of a partly decoded packet. *)
Definition dx_leftover : dctx nat := set_in_pkt dx_fresh (BSFFacts.ex_pkt 7).

(** A packet with side data and no data. *)
Definition dx_side_only : packet :=
  {| pkt_data := None; pkt_side := [(5, [1])]; pkt_pts := 0; pkt_dts := 0 |}.

(** [receive_frame] callbacks that return at once. *)
Definition dx_cb (f : dframe) (ret : Z) (s : nat) (_ : dframe) : rprog nat := RDone s f ret.

Definition dx_fsd := ParamChangeFacts.accept_dimensions.
Definition dx_desc := CroppingFacts.desc_get_gray8.



(** A decoder that reports a frame without a buffer. *)
Definition dx_decode_nobuf (s : nat) (fr : dframe) (p : packet) : nat * dframe * bool * Z :=
  (s, unset_frame, true, 0).

(** Claim C1 (code bug): a [receive_frame] callback that returns 0
    without a frame makes [avcodec_receive_frame] succeed with an unset
    frame, while a [decode] callback that does the same on the simple
    decode API is stopped by the assertion. *)
Lemma receive_success_without_buffer :
  match avcodec_receive_frame (dx_codec (Some (dx_cb unset_frame 0)) dx_decode Pool.AVMEDIA_TYPE_AUDIO)
          dx_fsd dx_desc dx_fresh unset_frame with
  | Some (_, f, r) => r = 0 /\ buf0 f = None
  | None => False
  end /\
  avcodec_receive_frame (dx_codec None dx_decode_nobuf Pool.AVMEDIA_TYPE_AUDIO)
    dx_fsd dx_desc dx_leftover unset_frame = None.
Proof. vm_compute. split; [split|]; reflexivity. Qed.

(** A newly opened decoder whose filter chain holds a packet. *)
Definition dx_queued : dctx nat :=
  set_chain dx_fresh [fst (av_bsf_send_packet (mk_bsf 1) (Some (BSFFacts.ex_pkt 1)))].

(** The assertion catches a frame without a buffer decoded from a packet
    [decode_simple_internal] fetched from the filter chain. *)
Lemma simple_decode_frame_has_buffer_witness :
  exists c1, dsi_reaches_decode nat (dx_codec None dx_decode_nobuf Pool.AVMEDIA_TYPE_AUDIO) dx_fsd
               dx_queued c1 /\
  decode_simple_internal (dx_codec None dx_decode_nobuf Pool.AVMEDIA_TYPE_AUDIO) dx_fsd
    dx_queued unset_frame = None.
Proof.
  pose (g := ff_decode_get_packet (dx_codec None dx_decode_nobuf Pool.AVMEDIA_TYPE_AUDIO) dx_fsd
               (set_in_pkt dx_queued blank_packet)).
  pose (c1 := set_in_pkt (fst (fst g)) (snd g)).
  assert (Hr : dsi_reaches_decode nat (dx_codec None dx_decode_nobuf Pool.AVMEDIA_TYPE_AUDIO) dx_fsd
                 dx_queued c1).
  { split; [right|split].
    - split; [reflexivity|]. split; [reflexivity|].
      exists (fst (fst g)), (snd (fst g)), (snd g). split; [vm_compute; reflexivity|].
      split; [left; apply Z.leb_le; vm_compute; reflexivity|reflexivity].
    - vm_compute. reflexivity.
    - left. vm_compute. discriminate. }
  exists c1. split; [exact Hr|].
  exact (proj1 (proj2 (proj2 (simple_decode_frame_has_buffer nat
           (dx_codec None dx_decode_nobuf Pool.AVMEDIA_TYPE_AUDIO) dx_fsd dx_desc
           0%nat dx_queued dx_queued unset_frame unset_frame 0)))
           c1 0%nat unset_frame 0 Hr ltac:(vm_compute; reflexivity) eq_refl).
Defined.

(** Claim C2 (code bug): a packet with side data and no data sets
    [draining_done] on a decoder without [AV_CODEC_CAP_DELAY] while
    [draining] stays clear.  The next retrieval returns
    [AVERROR(EAGAIN)]; a packet with data is then accepted (0) but never
    decoded, and the retrieval after it returns [AVERROR_EOF]. *)
Lemma draining_done_not_terminal :
  match avcodec_send_packet (dx_codec None dx_decode Pool.AVMEDIA_TYPE_AUDIO) dx_fsd dx_fresh
          (Some dx_side_only) with
  | Some (c1, r0) =>
      r0 = 0 /\ draining_done (st c1) = true /\ draining (st c1) = false /\
      match avcodec_receive_frame (dx_codec None dx_decode Pool.AVMEDIA_TYPE_AUDIO) dx_fsd dx_desc
              c1 unset_frame with
      | Some (c2, _, r) =>
          r = AVERROR_EAGAIN /\ draining_done (st c2) = true /\
          match avcodec_send_packet (dx_codec None dx_decode Pool.AVMEDIA_TYPE_AUDIO) dx_fsd c2
                  (Some (BSFFacts.ex_pkt 1)) with
          | Some (c3, r3) =>
              r3 = 0 /\
              match avcodec_receive_frame (dx_codec None dx_decode Pool.AVMEDIA_TYPE_AUDIO) dx_fsd
                      dx_desc c3 unset_frame with
              | Some (c4, f, r4) => r4 = AVERROR_EOF /\ f = unset_frame /\ bst (st c4) = 0%nat
              | None => False
              end
          | None => False
          end
      | None => False
      end
  | None => False
  end.
Proof. vm_compute. repeat split. Qed.

(** A packet, its frame, then the NULL packet. *)
Definition dx_drain_ops : list api_op :=
  [ApiSend (Some (BSFFacts.ex_pkt 1)); ApiReceive; ApiSend None].

(** A newly opened decoder is drained after a packet, its frame and the
    NULL packet; later calls return [AVERROR_EOF]. *)
Lemma draining_terminal_witness :
  match run_api (dx_codec None dx_decode Pool.AVMEDIA_TYPE_AUDIO) dx_fsd dx_desc dx_drain_ops
          dx_fresh with
  | Some (c, outs) =>
      outs = [(dx_buf_frame 0, 0)] /\
      (exists c', run_api (dx_codec None dx_decode Pool.AVMEDIA_TYPE_AUDIO) dx_fsd dx_desc
                   [ApiReceive; ApiSend (Some (BSFFacts.ex_pkt 2)); ApiReceive] c =
                 Some (c', [(unset_frame, AVERROR_EOF); (unset_frame, AVERROR_EOF)]) /\
                 drained nat c') /\
      avcodec_send_packet (dx_codec None dx_decode Pool.AVMEDIA_TYPE_AUDIO) dx_fsd c
        (Some (BSFFacts.ex_pkt 2)) = Some (c, AVERROR_EOF)
  | None => False
  end.
Proof.
  destruct (run_api (dx_codec None dx_decode Pool.AVMEDIA_TYPE_AUDIO) dx_fsd dx_desc dx_drain_ops
              dx_fresh) as [[c outs]|] eqn:E; [|vm_compute in E; discriminate E].
  split; [vm_compute in E; injection E as _ <-; reflexivity|].
  assert (Hd : drained nat c).
  { vm_compute in E. injection E as <- _. unfold drained. vm_compute.
    repeat split; discriminate. }
  pose proof (draining_terminal nat (dx_codec None dx_decode Pool.AVMEDIA_TYPE_AUDIO)
                dx_fsd dx_desc) as (_ & _ & H3 & H4).
  split; [exact (H3 eq_refl [ApiReceive; ApiSend (Some (BSFFacts.ex_pkt 2)); ApiReceive] c Hd)|].
  exact (H4 c (Some (BSFFacts.ex_pkt 2)) Hd).
Defined.

(** Claim C3, witness: the packet is queued and the decode attempt's
    [AVERROR_INVALIDDATA] is returned. *)
Lemma send_packet_result_witness :
  match avcodec_send_packet (dx_codec None dx_decode_fail Pool.AVMEDIA_TYPE_VIDEO) dx_fsd dx_fresh
          (Some (BSFFacts.ex_pkt 1)) with
  | Some (_, r) => r = AVERROR_INVALIDDATA
  | None => False
  end.
Proof.
  destruct (avcodec_send_packet (dx_codec None dx_decode_fail Pool.AVMEDIA_TYPE_VIDEO) dx_fsd dx_fresh
              (Some (BSFFacts.ex_pkt 1))) as [[c' r]|] eqn:E; [|vm_compute in E; discriminate E].
  destruct (av_bsf_send_packet (mk_bsf 1) (Some (queued (Some (BSFFacts.ex_pkt 1)))))
    as [f0' q] eqn:Es.
  assert (Hq : 0 <= q) by (vm_compute in Es; injection Es as _ <-; lia).
  destruct (decode_receive_frame_internal (dx_codec None dx_decode_fail Pool.AVMEDIA_TYPE_VIDEO) dx_fsd
              (set_buffer_pkt (set_chain (set_chain dx_fresh [mk_bsf 1]) [f0']) blank_packet)
              (buffer_frame (st dx_fresh))) as [[[c2 f] r']|] eqn:Ed;
    [|vm_compute in Es; injection Es as <- _; vm_compute in Ed; discriminate Ed].
  assert (Hr' : r' = AVERROR_INVALIDDATA).
  { vm_compute in Es. injection Es as <- _. vm_compute in Ed. injection Ed as _ _ <-. reflexivity. }
  subst r'.
  pose proof (proj2 (proj2 (proj2 (send_packet_result nat
    (dx_codec None dx_decode_fail Pool.AVMEDIA_TYPE_VIDEO) dx_fsd dx_fresh
    (Some (BSFFacts.ex_pkt 1)))))) as HP.
  pose proof (proj2 (HP (set_chain dx_fresh [mk_bsf 1]) (mk_bsf 1) [] f0' q c' r
    eq_refl eq_refl eq_refl eq_refl Es Hq E) c2 f AVERROR_INVALIDDATA eq_refl Ed) as HP1.
  apply (proj2 HP1); unfold AVERROR_INVALIDDATA, AVERROR_EAGAIN, AVERROR_EOF, FFERRTAG; lia.
Defined.

End DriverFacts.


(** ** Arrays updated by index *)
Module SetNthFacts.

Lemma nth_set_nth_eq {A} (i : nat) (l : list A) (x d : A) :
  (i < List.length l)%nat -> nth i (BSF.set_nth i l x) d = x.
Proof.
  revert l. induction i as [|i IH]; intros [|y l] H; cbn in *; try lia; auto.
  apply IH. lia.
Qed.

Lemma nth_set_nth_ne {A} (i j : nat) (l : list A) (x d : A) :
  j <> i -> nth j (BSF.set_nth i l x) d = nth j l d.
Proof.
  revert i l. induction j as [|j IH]; intros [|i] [|y l] H; cbn; auto; try lia.
Qed.

Lemma length_set_nth' {A} (i : nat) (l : list A) (x : A) :
  List.length (BSF.set_nth i l x) = List.length l.
Proof.
  revert l. induction i as [|i IH]; intros [|y l]; cbn; auto.
Qed.

Lemma nth_map_seq {A} (f : nat -> A) (n j : nat) (d : A) :
  (j < n)%nat -> nth j (map f (seq 0 n)) d = f j.
Proof.
  intros H. rewrite nth_indep with (d' := f 0%nat) by (rewrite length_map, length_seq; lia).
  rewrite map_nth, seq_nth by lia. reflexivity.
Qed.


Lemma nth_set_nth {A} (i j : nat) (l : list A) (x d : A) :
  nth j (BSF.set_nth i l x) d = if Nat.eqb j i && Nat.ltb j (List.length l) then x else nth j l d.
Proof.
  revert i l. induction j as [|j IH]; intros [|i] [|y l]; simpl;
    try reflexivity; try (rewrite andb_false_r; reflexivity); apply IH.
Qed.

End SetNthFacts.

(** ** The frame buffer pool: caching, alignment and error reset *)
Module PoolExtraFacts.
Import Pool SetNthFacts.

Section Facts.
Variable avcodec_align_dimensions2 : pool_ctx -> Z -> Z -> (Z * Z) * list Z.
Variable av_image_fill_linesizes : Z -> Z -> list Z.
Variable av_image_fill_pointers : Z -> Z -> list Z -> list Z * Z.
Variable av_sample_fmt_is_planar : Z -> bool.
Variable av_samples_get_buffer_size : Z -> Z -> Z -> Z -> Z * Z.
Variable av_buffer_pool_init : Z -> option Z.

Local Abbreviation ufp := (update_frame_pool avcodec_align_dimensions2 av_image_fill_linesizes
  av_image_fill_pointers av_sample_fmt_is_planar av_samples_get_buffer_size av_buffer_pool_init).
Local Abbreviation rebuild := (rebuild_pools av_buffer_pool_init).

(** The key a pool is cached under, for the codec type of [avctx]. *)
Definition pool_key_matches (avctx : pool_ctx) (p : FramePool) (fr : pool_frame) : Prop :=
  match codec_type avctx with
  | AVMEDIA_TYPE_VIDEO => format p = fr_format fr /\ width p = fr_width fr /\ height p = fr_height fr
  | AVMEDIA_TYPE_AUDIO =>
      format p = fr_format fr /\
      planes p = (if av_sample_fmt_is_planar (fr_format fr) then ctx_nb_channels avctx else 1) /\
      channels p = fr_nb_channels fr /\ samples p = fr_nb_samples fr
  | AVMEDIA_TYPE_OTHER => False
  end.

Lemma update_frame_pool_key avctx p fr p' :
  ufp avctx p fr = Some (p', 0) -> pool_key_matches avctx p' fr.
Proof.
  unfold update_frame_pool, pool_key_matches.
  destruct (codec_type avctx); [| |discriminate].
  - destruct ((format p =? fr_format fr) && (width p =? fr_width fr) && (height p =? fr_height fr))
      eqn:Ehit.
    + intros [=<-]. rewrite !andb_true_iff, !Z.eqb_eq in Ehit. tauto.
    + destruct (avcodec_align_dimensions2 avctx (fr_width fr) (fr_height fr)) as [[w h] sa].
      destruct (linesize_loop _ _ _ _ _) as [ls|]; [|discriminate].
      destruct (av_image_fill_pointers (pix_fmt avctx) h ls) as [data tmpsize].
      destruct (tmpsize <? 0); [discriminate|].
      destruct (rebuild _ _ _ _) as [q|q]; [|discriminate].
      intros [=<-]. cbn. tauto.
  - destruct ((format p =? fr_format fr) &&
              (planes p =? (if av_sample_fmt_is_planar (fr_format fr) then ctx_nb_channels avctx else 1)) &&
              (channels p =? fr_nb_channels fr) && (fr_nb_samples fr =? samples p)) eqn:Ehit.
    + intros [=<-]. rewrite !andb_true_iff, !Z.eqb_eq in Ehit. intuition congruence.
    + destruct (av_samples_get_buffer_size _ _ _ _) as [ls0 ret].
      destruct (Z.ltb_spec ret 0); [intros [= _ ->]; lia|].
      destruct (av_buffer_pool_init ls0) as [hdl|]; [|intros [=]].
      intros [=<-]. cbn. tauto.
Qed.

Lemma update_frame_pool_nonpos avctx p fr p' r :
  ufp avctx p fr = Some (p', r) -> r <= 0.
Proof.
  unfold update_frame_pool. destruct (codec_type avctx); [| |discriminate].
  - destruct (_ && _); [intros [= _ <-]; lia|].
    destruct (avcodec_align_dimensions2 avctx (fr_width fr) (fr_height fr)) as [[w h] sa].
    destruct (linesize_loop _ _ _ _ _) as [ls|]; [|discriminate].
    destruct (av_image_fill_pointers (pix_fmt avctx) h ls) as [data tmpsize].
    destruct (tmpsize <? 0); [intros [= _ <-]; lia|].
    destruct (rebuild _ _ _ _); intros [= _ <-]; unfold AVERROR_ENOMEM; lia.
  - destruct (_ && _); [intros [= _ <-]; lia|].
    destruct (av_samples_get_buffer_size _ _ _ _) as [ls0 ret].
    destruct (Z.ltb_spec ret 0); [intros [= _ <-]; lia|].
    destruct (av_buffer_pool_init ls0); intros [= _ <-]; unfold AVERROR_ENOMEM; lia.
Qed.

Lemma update_frame_pool_hit avctx p fr :
  pool_key_matches avctx p fr -> ufp avctx p fr = Some (p, 0).
Proof.
  unfold update_frame_pool, pool_key_matches.
  destruct (codec_type avctx); [| |tauto].
  - intros (-> & -> & ->). rewrite !Z.eqb_refl. reflexivity.
  - intros (-> & -> & -> & ->). rewrite !Z.eqb_refl. reflexivity.
Qed.

Lemma linesize_loop_aligned (fuel : nat) : forall pixfmt w sa ls,
  linesize_loop av_image_fill_linesizes fuel pixfmt w sa = Some ls ->
  forall i, (i < 4)%nat -> Z.rem (nth i ls 0) (nth i sa 0) = 0.
Proof.
  induction fuel as [|fuel IH]; intros pixfmt w sa ls H; [discriminate|].
  cbn [linesize_loop] in H.
  match type of H with context [if ?u =? 0 then _ else _] => destruct (Z.eqb_spec u 0) as [Hu|Hu] end.
  - injection H as <-. cbn in Hu.
    rewrite !Z.lor_eq_0_iff in Hu. destruct Hu as [[[H0 H1] H2] H3].
    intros i Hi. destruct i as [|[|[|[|i]]]]; auto; lia.
  - eapply IH. exact H.
Qed.

Lemma rebuild_pools_linesize (idx : list nat) : forall p ls size q,
  rebuild idx p ls size = inl q ->
  linesize q = fold_left (fun l i => BSF.set_nth i l (nth i ls 0)) idx (linesize p) /\
  stride_align q = stride_align p.
Proof.
  induction idx as [|i idx IH]; intros p ls size q H; cbn [rebuild_pools] in H.
  - injection H as <-. auto.
  - destruct (nth i size 0 =? 0).
    + apply IH in H. exact H.
    + destruct (av_buffer_pool_init (nth i size 0 + 16)) as [h|]; [|discriminate].
      apply IH in H. exact H.
Qed.

(** Every [linesize[i]] of the first four planes is a multiple of
    [stride_align[i]]. *)
Definition linesizes_aligned (p : FramePool) : Prop :=
  forall i, (i < 4)%nat -> Z.rem (nth i (linesize p) 0) (nth i (stride_align p) 0) = 0.

(** The descriptor as the [fail:] label leaves it. *)
Definition pool_is_reset (p : FramePool) : Prop :=
  format p = -1 /\ width p = 0 /\ height p = 0 /\ planes p = 0 /\ channels p = 0 /\
  samples p = 0 /\ forall i, (i < 4)%nat -> nth i (pools p) None = None.

Lemma pool_fail_reset (p : FramePool) : pool_is_reset (pool_fail p).
Proof.
  unfold pool_is_reset, pool_fail, pool_uninit, with_pools.
  cbn [fold_left pools format width height planes channels samples].
  repeat (split; [reflexivity|]).
  intros i Hi. rewrite !nth_set_nth. rewrite !length_set_nth'.
  destruct (Nat.ltb_spec i (List.length (pools p))) as [Hl|Hl].
  - destruct i as [|[|[|[|i]]]]; cbn; try lia; rewrite ?andb_false_r; reflexivity.
  - rewrite !andb_false_r. apply nth_overflow. exact Hl.
Qed.

(** After [update_frame_pool] returns 0, the pool is cached under the
    frame's parameters (format and size for video; format, plane count,
    channel count and sample count for audio), and a second call with the
    same frame returns 0 without touching the pool. *)
Theorem update_frame_pool_cached avctx p fr p' :
  ufp avctx p fr = Some (p', 0) ->
  pool_key_matches avctx p' fr /\ ufp avctx p' fr = Some (p', 0).
Proof.
  intros H. pose proof (update_frame_pool_key avctx p fr p' H) as Hk.
  split; [exact Hk|]. apply update_frame_pool_hit. exact Hk.
Qed.

(** For video, [update_frame_pool] keeps every linesize of the first four
    planes a multiple of its stride alignment: a pool in that state (a
    zeroed one is) is still in it after the call returns 0. *)
Theorem update_frame_pool_video_aligned avctx p fr p' :
  codec_type avctx = AVMEDIA_TYPE_VIDEO ->
  linesizes_aligned p ->
  ufp avctx p fr = Some (p', 0) ->
  linesizes_aligned p'.
Proof.
  intros Hty Hal. unfold update_frame_pool. rewrite Hty.
  destruct ((format p =? fr_format fr) && (width p =? fr_width fr) && (height p =? fr_height fr)).
  - intros [=<-]. exact Hal.
  - destruct (avcodec_align_dimensions2 avctx (fr_width fr) (fr_height fr)) as [[w h] sa].
    destruct (linesize_loop _ _ _ _ _) as [ls|] eqn:Els; [|discriminate].
    destruct (av_image_fill_pointers (pix_fmt avctx) h ls) as [data tmpsize].
    destruct (tmpsize <? 0); [discriminate|].
    destruct (rebuild _ _ _ _) as [q|q] eqn:Eq; [|discriminate].
    intros [=<-].
    destruct (rebuild_pools_linesize _ _ _ _ q Eq) as [Hls Hsa].
    pose proof (linesize_loop_aligned _ _ _ _ _ Els) as Hrem.
    unfold linesizes_aligned. cbn [linesize stride_align with_video_shape].
    rewrite Hls, Hsa. cbn [fold_left with_stride_align linesize stride_align].
    intros i Hi. rewrite !nth_set_nth, !length_set_nth'.
    destruct (Nat.ltb_spec i (List.length (linesize p))) as [Hl|Hl].
    + destruct i as [|[|[|[|i]]]]; cbn [Nat.eqb andb]; try lia; apply Hrem; lia.
    + rewrite !andb_false_r, nth_overflow by exact Hl. reflexivity.
Qed.

(** On the errors that jump to [fail] (every audio error, and a failed
    pool allocation for video), the pool is left released and emptied:
    format -1, no size, no planes and no pool for planes 0 to 3. *)
Theorem update_frame_pool_error_reset avctx p fr p' r :
  ufp avctx p fr = Some (p', r) -> r <> 0 ->
  codec_type avctx = AVMEDIA_TYPE_AUDIO \/ r = AVERROR_ENOMEM ->
  pool_is_reset p'.
Proof.
  unfold update_frame_pool. intros H Hr Hcase.
  destruct (codec_type avctx) eqn:Hty; [| |discriminate].
  - destruct Hcase as [Hcase|Hcase]; [discriminate|].
    destruct ((format p =? fr_format fr) && (width p =? fr_width fr) && (height p =? fr_height fr)).
    + injection H as _ <-. contradiction.
    + destruct (avcodec_align_dimensions2 avctx (fr_width fr) (fr_height fr)) as [[w h] sa].
      destruct (linesize_loop _ _ _ _ _) as [ls|]; [|discriminate].
      destruct (av_image_fill_pointers (pix_fmt avctx) h ls) as [data tmpsize].
      destruct (tmpsize <? 0).
      * injection H as _ <-. unfold AVERROR_ENOMEM in Hcase. discriminate.
      * destruct (rebuild _ _ _ _) as [q|q].
        -- injection H as _ <-. contradiction.
        -- injection H as <- _. apply pool_fail_reset.
  - destruct ((format p =? fr_format fr) &&
              (planes p =? (if av_sample_fmt_is_planar (fr_format fr) then ctx_nb_channels avctx else 1)) &&
              (channels p =? fr_nb_channels fr) && (fr_nb_samples fr =? samples p)).
    + injection H as _ <-. contradiction.
    + destruct (av_samples_get_buffer_size _ _ _ _) as [ls0 ret].
      destruct (ret <? 0).
      * injection H as <- _. apply pool_fail_reset.
      * destruct (av_buffer_pool_init ls0) as [hdl|].
        -- injection H as _ <-. contradiction.
        -- injection H as <- _. apply pool_fail_reset.
Qed.

End Facts.
End PoolExtraFacts.


Module GetFormatFacts.
Import Cropping GetFormat.

Section Facts.

Variable av_pix_fmt_desc_get : Z -> option pix_desc.
Variable hwaccels : list hwaccel.
Variable av_mallocz_ok : Z -> bool.

Definition is_hw (f : Z) : Prop := is_hwaccel_pix_fmt av_pix_fmt_desc_get f = Some true.

Lemma default_get_format_prefix (fmt : list Z) :
  avcodec_default_get_format av_pix_fmt_desc_get (fmt_prefix fmt) =
  avcodec_default_get_format av_pix_fmt_desc_get fmt.
Proof.
  induction fmt as [|f rest IH]; [reflexivity|].
  cbn [fmt_prefix]. destruct (f =? AV_PIX_FMT_NONE) eqn:E.
  - cbn. rewrite E. reflexivity.
  - cbn. rewrite E. rewrite IH. reflexivity.
Qed.

Lemma default_get_format_spec (fmt : list Z) (r : Z) :
  avcodec_default_get_format av_pix_fmt_desc_get fmt = Some r ->
  (r = AV_PIX_FMT_NONE /\ Forall is_hw (fmt_prefix fmt)) \/
  (exists pre post, fmt_prefix fmt = pre ++ r :: post /\ Forall is_hw pre /\
     is_hwaccel_pix_fmt av_pix_fmt_desc_get r = Some false).
Proof.
  revert r. induction fmt as [|f rest IH]; intros r H.
  - cbn in H. injection H as <-. left. split; [reflexivity|constructor].
  - cbn [fmt_prefix avcodec_default_get_format] in *.
    destruct (f =? AV_PIX_FMT_NONE) eqn:E.
    + injection H as <-. left. split; [reflexivity|constructor].
    + destruct (is_hwaccel_pix_fmt av_pix_fmt_desc_get f) as [[|]|] eqn:Ehw.
      * destruct (IH r H) as [[Hr Hall]|[pre [post [Hp [Hpre Hr]]]]].
        -- left. split; [exact Hr|]. constructor; assumption.
        -- right. exists (f :: pre), post. rewrite Hp. split; [reflexivity|].
           split; [constructor; assumption|exact Hr].
      * injection H as <-. right. exists [], (fmt_prefix rest).
        split; [reflexivity|]. split; [constructor|exact Ehw].
      * discriminate.
Qed.

Lemma default_get_format_total (fmt : list Z) :
  Forall (fun f => av_pix_fmt_desc_get f <> None) (fmt_prefix fmt) ->
  avcodec_default_get_format av_pix_fmt_desc_get fmt <> None.
Proof.
  induction fmt as [|f rest IH]; [cbn; discriminate|].
  cbn [fmt_prefix avcodec_default_get_format].
  destruct (f =? AV_PIX_FMT_NONE); [discriminate|].
  intros Hall. inversion Hall as [|? ? Hf Hrest]; subst.
  unfold is_hwaccel_pix_fmt.
  destruct (av_pix_fmt_desc_get f) as [d|]; [|congruence].
  destruct (negb _); [apply IH; exact Hrest|discriminate].
Qed.

(** [avcodec_default_get_format] returns the first format of the list that
    is not a hwaccel format, preceded only by hwaccel formats, or
    [AV_PIX_FMT_NONE] when every listed format is a hwaccel format; it
    never dereferences a NULL descriptor when every listed format has
    one. *)
Theorem default_get_format_first_software (fmt : list Z) :
  (forall r, avcodec_default_get_format av_pix_fmt_desc_get fmt = Some r ->
     (r = AV_PIX_FMT_NONE /\ Forall is_hw (fmt_prefix fmt)) \/
     (exists pre post, fmt_prefix fmt = pre ++ r :: post /\ Forall is_hw pre /\
        is_hwaccel_pix_fmt av_pix_fmt_desc_get r = Some false)) /\
  (Forall (fun f => av_pix_fmt_desc_get f <> None) (fmt_prefix fmt) ->
     avcodec_default_get_format av_pix_fmt_desc_get fmt <> None).
Proof.
  split; [apply default_get_format_spec|apply default_get_format_total].
Qed.


Variable av_malloc_array_ok : bool.
Variable get_format : list Z -> option (Z * option Z).

Lemma setup_hwaccel_spec (c c' : gf_ctx) (fmt r : Z) :
  setup_hwaccel hwaccels av_mallocz_ok c fmt = (c', r) ->
  codec_id c' = codec_id c /\ sw_pix_fmt c' = sw_pix_fmt c /\
  hw_frames_ctx c' = hw_frames_ctx c /\ uninit_calls c' = uninit_calls c /\
  (r = 0 -> exists h, cur_hwaccel c' = Some h /\ In h hwaccels /\
                      hw_id h = codec_id c /\ hw_pix_fmt h = fmt).
Proof.
  unfold setup_hwaccel, find_hwaccel.
  destruct (find _ hwaccels) as [h|] eqn:Ef.
  - apply find_some in Ef. destruct Ef as [Hin Hp].
    apply andb_true_iff in Hp. destruct Hp as [Hid Hpf].
    apply Z.eqb_eq in Hid. apply Z.eqb_eq in Hpf.
    destruct (negb (hw_priv_data_size h =? 0)); [destruct (av_mallocz_ok _)|];
      cbn; try (intros H; injection H as <- <-; cbn;
                repeat split; try reflexivity; unfold AVERROR_ENOMEM; lia);
      destruct (hw_init h) as [ret|];
      try (destruct (ret <? 0) eqn:Er; [apply Z.ltb_lt in Er|]);
      intros H; injection H as <- <-; cbn; repeat split; try reflexivity;
      try lia; intros _; exists h; repeat split; assumption.
  - intros H. injection H as <- <-. repeat split; unfold AVERROR_ENOENT; lia.
Qed.

Lemma get_format_loop_spec (fuel : nat) : forall (c c' : gf_ctx) (choices : list Z) (r : Z),
  get_format_loop av_pix_fmt_desc_get hwaccels av_mallocz_ok get_format fuel c choices =
    Some (c', r) ->
  codec_id c' = codec_id c /\ sw_pix_fmt c' = sw_pix_fmt c /\
  (r = AV_PIX_FMT_NONE \/
   (is_hwaccel_pix_fmt av_pix_fmt_desc_get r = Some false /\ cur_hwaccel c' = None) \/
   (is_hw r /\ exists h, cur_hwaccel c' = Some h /\ In h hwaccels /\
      hw_id h = codec_id c /\ hw_pix_fmt h = r /\
      (forall f, hw_frames_ctx c' = Some f -> f = r))).
Proof.
  induction fuel as [|fuel IH]; intros c c' choices r H; [discriminate|].
  cbn [get_format_loop] in H.
  destruct (get_format choices) as [[ret hwf]|]; [|discriminate].
  destruct (av_pix_fmt_desc_get ret) as [desc|] eqn:Ed.
  - destruct (Z.land (desc_flags desc) AV_PIX_FMT_FLAG_HWACCEL =? 0) eqn:Ehw.
    + injection H as <- <-. cbn. split; [reflexivity|]. split; [reflexivity|].
      right. left. unfold is_hwaccel_pix_fmt. rewrite Ed, Ehw. split; reflexivity.
    + cbn [hw_frames_ctx set_hw_frames_ctx] in H.
      destruct hwf as [f|] eqn:Ehwf;
        [destruct (negb (f =? ret)) eqn:Ef;
         [injection H as <- <-; cbn; split; [reflexivity|]; split; [reflexivity|]; left; reflexivity|]|];
        (destruct (setup_hwaccel hwaccels av_mallocz_ok _ ret) as [c1 r1] eqn:Es;
         apply setup_hwaccel_spec in Es; cbn in Es;
         destruct Es as (Hid & Hsw & Hhf & _ & Hok);
         destruct (r1 =? 0) eqn:Er1;
         [apply Z.eqb_eq in Er1; injection H as <- <-;
          split; [assumption|]; split; [assumption|]; right; right;
          split; [unfold is_hw, is_hwaccel_pix_fmt; rewrite Ed, Ehw; reflexivity|];
          destruct (Hok Er1) as (h & Hh & Hin & Hhid & Hhp);
          exists h; repeat split; try assumption; intros f' Hf'; rewrite Hhf in Hf'
         |destruct (remove_choice ret choices) as [choices'|]; [|discriminate];
          apply IH in H; destruct H as (Hid' & Hsw' & Hr);
          rewrite Hid in Hid', Hr; rewrite Hsw in Hsw';
          split; [exact Hid'|]; split; [exact Hsw'|]; exact Hr]).
      * apply negb_false_iff, Z.eqb_eq in Ef. injection Hf' as <-. exact Ef.
      * discriminate.
  - injection H as <- <-. cbn. split; [reflexivity|]. split; [reflexivity|]. left. reflexivity.
Qed.

(** [ff_get_format] records the last listed format as [sw_pix_fmt], and
    its result is consistent with the hwaccel it leaves in the context:
    either [AV_PIX_FMT_NONE], or a software format with no hwaccel set, or
    a hwaccel format together with a registered hwaccel for the codec and
    exactly that format (and any [hw_frames_ctx] installed by the callback
    has that format). *)
Theorem ff_get_format_consistent (c c' : gf_ctx) (fmt : list Z) (r : Z) :
  ff_get_format av_pix_fmt_desc_get hwaccels av_mallocz_ok av_malloc_array_ok get_format c fmt =
    Some (c', r) ->
  sw_pix_fmt c' = last (fmt_prefix fmt) AV_PIX_FMT_NONE /\
  (r = AV_PIX_FMT_NONE \/
   (is_hwaccel_pix_fmt av_pix_fmt_desc_get r = Some false /\ cur_hwaccel c' = None) \/
   (is_hw r /\ exists h, cur_hwaccel c' = Some h /\ In h hwaccels /\
      hw_id h = codec_id c /\ hw_pix_fmt h = r /\
      (forall f, hw_frames_ctx c' = Some f -> f = r))).
Proof.
  unfold ff_get_format. destruct (fmt_prefix fmt) as [|f0 rest] eqn:Ep; [discriminate|].
  destruct av_malloc_array_ok; cbn [negb].
  - intros H. apply get_format_loop_spec in H. cbn [codec_id sw_pix_fmt set_sw_pix_fmt] in H.
    destruct H as (_ & Hsw & Hr). split; [exact Hsw|exact Hr].
  - intros H. injection H as <- <-. cbn. split; [reflexivity|]. left. reflexivity.
Qed.

Lemma remove_choice_in (r : Z) (l : list Z) :
  r <> AV_PIX_FMT_NONE -> In r l ->
  exists l', remove_choice r l = Some l' /\ S (List.length l') = List.length l.
Proof.
  intros Hr. induction l as [|f rest IH]; [intros []|].
  intros Hin. cbn [remove_choice].
  destruct (r =? AV_PIX_FMT_NONE) eqn:E; [apply Z.eqb_eq in E; contradiction|].
  destruct (f =? r) eqn:Ef.
  - exists rest. split; reflexivity.
  - destruct Hin as [Hf|Hin]; [subst; rewrite Z.eqb_refl in Ef; discriminate|].
    destruct (IH Hin) as [l' [Hl' Hlen]]. exists (f :: l'). rewrite Hl'.
    split; [reflexivity|]. cbn. rewrite Hlen. reflexivity.
Qed.

Lemma get_format_loop_total (fuel : nat) :
  av_pix_fmt_desc_get AV_PIX_FMT_NONE = None ->
  (forall l, exists r hwf, get_format l = Some (r, hwf) /\ (In r l \/ r = AV_PIX_FMT_NONE)) ->
  forall (c : gf_ctx) (choices : list Z), (List.length choices < fuel)%nat ->
  get_format_loop av_pix_fmt_desc_get hwaccels av_mallocz_ok get_format fuel c choices <> None.
Proof.
  intros Hnone Hcb. induction fuel as [|fuel IH]; intros c choices Hlen; [lia|].
  cbn [get_format_loop].
  destruct (Hcb choices) as (r & hwf & Hg & Hr). rewrite Hg.
  destruct (av_pix_fmt_desc_get r) as [desc|] eqn:Ed; [|discriminate].
  assert (Hrn : r <> AV_PIX_FMT_NONE) by (intros ->; congruence).
  destruct Hr as [Hin|]; [|contradiction].
  destruct (Z.land (desc_flags desc) AV_PIX_FMT_FLAG_HWACCEL =? 0); [discriminate|].
  destruct (match hw_frames_ctx _ with Some f => negb (f =? r) | None => false end);
    [discriminate|].
  destruct (setup_hwaccel hwaccels av_mallocz_ok _ r) as [c1 r1].
  destruct (r1 =? 0); [discriminate|].
  destruct (remove_choice_in r choices Hrn Hin) as [l' [Hl' Hlen']]. rewrite Hl'.
  apply IH. lia.
Qed.

(** [ff_get_format] always returns, without a failed assertion, when the
    [get_format] callback picks one of the formats it is offered (or
    [AV_PIX_FMT_NONE]) and the list is non-empty: each rejected hwaccel
    format is removed from the offered list, so the loop runs at most once
    per listed format plus once. *)
Theorem ff_get_format_terminates (c : gf_ctx) (fmt : list Z) :
  av_pix_fmt_desc_get AV_PIX_FMT_NONE = None ->
  (forall l, exists r hwf, get_format l = Some (r, hwf) /\ (In r l \/ r = AV_PIX_FMT_NONE)) ->
  fmt_prefix fmt <> [] ->
  exists c' r,
    ff_get_format av_pix_fmt_desc_get hwaccels av_mallocz_ok av_malloc_array_ok get_format c fmt =
      Some (c', r).
Proof.
  intros Hnone Hcb Hne. unfold ff_get_format.
  destruct (fmt_prefix fmt) as [|f0 rest]; [contradiction|].
  destruct av_malloc_array_ok; cbn [negb].
  - destruct (get_format_loop _ _ _ _ _ _ _) as [[c' r]|] eqn:E.
    + exists c', r. reflexivity.
    + exfalso. eapply get_format_loop_total; [exact Hnone|exact Hcb| |exact E]. cbn. lia.
  - eexists. eexists. reflexivity.
Qed.

(** With the default callback and a successful copy of the list,
    [ff_get_format] returns what [avcodec_default_get_format] picks. *)
Lemma ff_get_format_default_ok (c : gf_ctx) (fmt : list Z) :
  av_pix_fmt_desc_get AV_PIX_FMT_NONE = None ->
  Forall (fun f => av_pix_fmt_desc_get f <> None) (fmt_prefix fmt) ->
  fmt_prefix fmt <> [] ->
  exists c' r,
    avcodec_default_get_format av_pix_fmt_desc_get fmt = Some r /\
    ff_get_format av_pix_fmt_desc_get hwaccels av_mallocz_ok true
      (default_get_format_cb av_pix_fmt_desc_get) c fmt = Some (c', r) /\
    cur_hwaccel c' = None /\ hwaccel_priv_data c' = false /\ hw_frames_ctx c' = None.
Proof.
  intros Hnone Hall Hne.
  destruct (avcodec_default_get_format av_pix_fmt_desc_get fmt) as [r|] eqn:Ed;
    [|exfalso; exact (default_get_format_total fmt Hall Ed)].
  pose proof (default_get_format_spec fmt r Ed) as Hs.
  rewrite <- default_get_format_prefix in Ed.
  unfold ff_get_format. destruct (fmt_prefix fmt) as [|f0 rest]; [contradiction|].
  cbn [negb get_format_loop]. unfold default_get_format_cb. rewrite Ed. cbn [option_map].
  destruct Hs as [[Hr0 _]|(pre & post & _ & _ & Hr)].
  - rewrite Hr0 in *. rewrite Hnone. eexists. exists AV_PIX_FMT_NONE. split; [reflexivity|].
    split; [reflexivity|]. cbn. repeat split.
  - unfold is_hwaccel_pix_fmt in Hr.
    destruct (av_pix_fmt_desc_get r) as [d|]; [|discriminate].
    injection Hr as Hr. apply negb_false_iff in Hr. rewrite Hr.
    eexists. exists r. split; [reflexivity|]. split; [reflexivity|]. cbn. repeat split.
Qed.

(** With the default callback ([avcodec_default_get_format]),
    [ff_get_format] always returns.  When its copy of the format list is
    allocated, it returns what [avcodec_default_get_format] picks (the
    first software format, or [AV_PIX_FMT_NONE]) and leaves no hwaccel,
    no hwaccel private data and no [hw_frames_ctx] in the context.  When
    [av_malloc_array] fails, it returns [AV_PIX_FMT_NONE] and only
    [sw_pix_fmt] has changed: the previous hwaccel and [hw_frames_ctx]
    stay in place. *)
Theorem ff_get_format_default (c : gf_ctx) (fmt : list Z) :
  av_pix_fmt_desc_get AV_PIX_FMT_NONE = None ->
  Forall (fun f => av_pix_fmt_desc_get f <> None) (fmt_prefix fmt) ->
  fmt_prefix fmt <> [] ->
  exists c' r,
    ff_get_format av_pix_fmt_desc_get hwaccels av_mallocz_ok av_malloc_array_ok
      (default_get_format_cb av_pix_fmt_desc_get) c fmt = Some (c', r) /\
    (av_malloc_array_ok = true ->
     avcodec_default_get_format av_pix_fmt_desc_get fmt = Some r /\
     cur_hwaccel c' = None /\ hwaccel_priv_data c' = false /\ hw_frames_ctx c' = None) /\
    (av_malloc_array_ok = false ->
     r = AV_PIX_FMT_NONE /\ c' = set_sw_pix_fmt c (last (fmt_prefix fmt) AV_PIX_FMT_NONE)).
Proof.
  intros Hnone Hall Hne. destruct av_malloc_array_ok.
  - destruct (ff_get_format_default_ok c fmt Hnone Hall Hne) as (c' & r & Hd & Hf & Hh).
    exists c', r. split; [exact Hf|]. split; [auto|discriminate].
  - unfold ff_get_format. destruct (fmt_prefix fmt) as [|f0 rest]; [contradiction|].
    cbn [negb]. eexists. eexists. split; [reflexivity|].
    split; [discriminate|]. split; reflexivity.
Qed.

End Facts.
End GetFormatFacts.


Module GetBufferFacts.
Import GetBuffer SetNthFacts.

(** The number of leading planes [i, i+1, ...] (at most [n]) that have a
    pool. *)
Fixpoint lead (n i : nat) (pools : list (option Z)) : nat :=
  match n with
  | O => i
  | S n' => match nth i pools None with None => i | Some _ => lead n' (S i) pools end
  end.


(** [frame->extended_data[j]] *)
Definition ext_nth (f : gframe) (j : nat) : option Z :=
  match extended_data f with
  | ExtIsData => nth j (data f) None
  | ExtNull => None
  | ExtArray l => nth j l None
  end.

(** The kind of [extended_data] and the length of its array. *)
Definition ext_shape (f : gframe) : option nat :=
  match extended_data f with
  | ExtIsData => Some AV_NUM_DATA_POINTERS
  | ExtNull => None
  | ExtArray l => Some (List.length l)
  end.

Definition ext_is_data (f : gframe) : bool :=
  match extended_data f with ExtIsData => true | _ => false end.

Section Facts.

Variable AState : Type.
Variable av_buffer_pool_get : AState -> Z -> AState * option Z.
Variable av_mallocz : AState -> Z -> AState * bool.

Definition wf_planes (f : gframe) : Prop :=
  List.length (data f) = AV_NUM_DATA_POINTERS /\ List.length (linesize f) = AV_NUM_DATA_POINTERS /\
  List.length (buf f) = AV_NUM_DATA_POINTERS.

Lemma video_alloc_planes_spec (n : nat) : forall i pool s pic s' pic' k,
  video_alloc_planes AState av_buffer_pool_get n i pool s pic = (s', Some (pic', k)) ->
  (i + n <= AV_NUM_DATA_POINTERS)%nat -> wf_planes pic ->
  k = lead n i (Pool.pools pool) /\ (i <= k)%nat /\ wf_planes pic' /\
  extended_data pic' = extended_data pic /\
  (forall j, (j < i)%nat -> nth j (data pic') None = nth j (data pic) None /\
                          nth j (buf pic') None = nth j (buf pic) None /\
                          nth j (linesize pic') 0 = nth j (linesize pic) 0) /\
  (forall j, (i <= j < k)%nat -> exists b, nth j (buf pic') None = Some b /\
       nth j (data pic') None = Some b /\ nth j (linesize pic') 0 = nth j (Pool.linesize pool) 0).
Proof.
  clear av_mallocz. induction n as [|n IH]; intros i pool s pic s' pic' k H Hb Hwf.
  - cbn in H. injection H as <- <- <-. cbn.
    split; [reflexivity|]. split; [lia|]. split; [exact Hwf|]. split; [reflexivity|].
    split; [intros; repeat split; reflexivity|intros j Hj; lia].
  - cbn [video_alloc_planes lead] in *.
    destruct (nth i (Pool.pools pool) None) as [h|] eqn:Eh.
    + destruct (av_buffer_pool_get s h) as [s1 [b|]]; [|discriminate].
      apply IH in H; [|lia|].
      * destruct H as (Hk & Hik & Hwf' & Hed & Hlow & Hhigh).
        destruct Hwf as (Hd & Hl & Hbl).
        cbn in Hed, Hlow.
        split; [exact Hk|]. split; [lia|]. split; [exact Hwf'|]. split; [exact Hed|].
        split.
        -- intros j Hj. destruct (Hlow j ltac:(lia)) as (E1 & E2 & E3). rewrite E3, E1, E2.
           rewrite !nth_set_nth_ne by lia. repeat split; reflexivity.
        -- intros j Hj. destruct (Nat.eq_dec j i) as [->|Hne].
           ++ exists b. destruct (Hlow i ltac:(lia)) as (E1 & E2 & E3). rewrite E3, E1, E2.
              cbn. rewrite !nth_set_nth_eq by lia. repeat split; reflexivity.
           ++ apply Hhigh. lia.
      * destruct Hwf as (Hd & Hl & Hbl). unfold wf_planes. cbn.
        rewrite !length_set_nth'. tauto.
    + injection H as <- <- <-.
      split; [reflexivity|]. split; [lia|]. split; [exact Hwf|]. split; [reflexivity|].
      split; [intros; repeat split; reflexivity|intros j Hj; lia].
Qed.

(** [video_get_buffer] on a frame without [data[0]], when it succeeds:
    the leading planes that have a pool ([k] of them, at most four) each
    get a buffer, referenced by [buf[i]] and [data[i]], with the pool's
    [linesize[i]]; every later entry of [data] is NULL with linesize 0,
    and [extended_data] is [data]. *)
Theorem video_get_buffer_planes (pool : Pool.FramePool) (s s' : AState) (pic pic' : gframe) :
  wf_planes pic -> nth 0 (data pic) None = None ->
  video_get_buffer AState av_buffer_pool_get pool s pic = (s', pic', 0) ->
  let k := lead 4 0 (Pool.pools pool) in
  (forall j, (j < k)%nat -> exists b, nth j (buf pic') None = Some b /\
      nth j (data pic') None = Some b /\ nth j (linesize pic') 0 = nth j (Pool.linesize pool) 0) /\
  (forall j, (k <= j < AV_NUM_DATA_POINTERS)%nat ->
      nth j (data pic') None = None /\ nth j (linesize pic') 0 = 0) /\
  extended_data pic' = ExtIsData.
Proof.
  clear av_mallocz. intros Hwf H0 H. unfold video_get_buffer in H. rewrite H0 in H.
  destruct (video_alloc_planes _ _ 4 0 pool s _) as [s1 [[p k']|]] eqn:E;
    [|injection H as _ _ H; unfold AVERROR_ENOMEM in H; lia].
  injection H as <- <-.
  apply video_alloc_planes_spec in E; [|unfold AV_NUM_DATA_POINTERS; lia|].
  2: { destruct Hwf as (Hd & Hl & Hb). unfold wf_planes. cbn. tauto. }
  destruct E as (Hk & _ & Hwf' & Hed & _ & Hhigh). cbn in Hed. intros k. subst k'.
  assert (Hk4 : (lead 4 0 (Pool.pools pool) <= 4)%nat).
  { cbn. repeat (destruct (nth _ (Pool.pools pool) None); [|lia]). lia. }
  split; [|split].
  - intros j Hj. destruct (Hhigh j ltac:(lia)) as (b & Hb & Hd & Hl). exists b.
    unfold clear_planes_from, with_planes. cbn [data buf linesize].
    rewrite !nth_map_seq by (unfold AV_NUM_DATA_POINTERS; lia).
    destruct (Nat.ltb_spec j (lead 4 0 (Pool.pools pool))); [|lia].
    repeat split; assumption.
  - intros j Hj. unfold clear_planes_from, with_planes. cbn [data linesize].
    rewrite !nth_map_seq by lia.
    destruct (Nat.ltb_spec j (lead 4 0 (Pool.pools pool))); [lia|]. split; reflexivity.
  - exact Hed.
Qed.

(** [video_get_buffer] refuses a frame that already has [data[0]]
    (returning -1 and leaving frame and allocator untouched); on any other
    failure it returns [AVERROR(ENOMEM)] with the frame unreferenced. *)
Theorem video_get_buffer_errors (pool : Pool.FramePool) (s s' : AState) (pic pic' : gframe)
    (r : Z) :
  video_get_buffer AState av_buffer_pool_get pool s pic = (s', pic', r) ->
  (nth 0 (data pic) None <> None -> s' = s /\ pic' = pic /\ r = -1) /\
  (nth 0 (data pic) None = None -> r <> 0 -> r = AVERROR_ENOMEM /\ pic' = unref_frame).
Proof.
  unfold video_get_buffer. destruct (nth 0 (data pic) None) as [d0|].
  - intros H. injection H as <- <- <-. split; [intros _; auto|intros H; discriminate].
  - destruct (video_alloc_planes _ _ 4 0 pool s _) as [s1 [[p k]|]].
    + intros H. injection H as _ _ <-. split; [intros H; congruence|intros _ H; congruence].
    + intros H. injection H as _ <- <-. split; [intros H; congruence|auto].
Qed.

Lemma audio_alloc_bufs_spec (n : nat) : forall i pool0 s f s' f',
  audio_alloc_bufs AState av_buffer_pool_get n i pool0 s f = Some (s', Some f') ->
  (i + n <= AV_NUM_DATA_POINTERS)%nat -> wf_planes f ->
  wf_planes f' /\ extended_buf f' = extended_buf f /\ nb_extended_buf f' = nb_extended_buf f /\
  ext_shape f' = ext_shape f /\ ext_is_data f' = ext_is_data f /\
  (forall j, (j < i)%nat -> nth j (buf f') None = nth j (buf f) None /\
                          nth j (data f') None = nth j (data f) None /\
                          ext_nth f' j = ext_nth f j) /\
  (forall j, (i <= j < i + n)%nat -> exists b, nth j (buf f') None = Some b /\
       nth j (data f') None = Some b /\ ext_nth f' j = Some b).
Proof.
  induction n as [|n IH]; intros i pool0 s f s' f' H Hn Hwf.
  - cbn in H. injection H as <- <-.
    repeat (split; [first [exact Hwf | reflexivity]|]).
    split; [intros; repeat split; reflexivity|intros j Hj; lia].
  - cbn [audio_alloc_bufs] in H.
    destruct (av_buffer_pool_get s pool0) as [s1 [b|]]; [|discriminate].
    destruct Hwf as (Hd & Hl & Hb).
    cbn [with_planes extended_data data] in H.
    destruct (extended_data f) as [| |l] eqn:Eed; cbn [set_ext] in H.
    + destruct (Nat.ltb_spec i AV_NUM_DATA_POINTERS) as [Hi|Hi]; [|discriminate].
      apply IH in H; [| lia |].
      2: { unfold wf_planes. cbn. rewrite !length_set_nth'. tauto. }
      destruct H as (Hwf' & Heb & Hneb & Hsh & Hisd & Hlow & Hhigh).
      unfold ext_shape, ext_is_data, ext_nth in *. cbn in Heb, Hneb, Hsh, Hisd, Hlow.
      rewrite Eed.
      split; [exact Hwf'|]. split; [exact Heb|]. split; [exact Hneb|].
      split; [exact Hsh|]. split; [exact Hisd|]. split.
      * intros j Hj. destruct (Hlow j ltac:(lia)) as (E1 & E2 & E3).
        rewrite E3, E1, E2. rewrite !nth_set_nth_ne by lia. repeat split; reflexivity.
      * intros j Hj. destruct (Nat.eq_dec j i) as [->|Hne].
        -- destruct (Hlow i ltac:(lia)) as (E1 & E2 & E3). exists b.
           rewrite E3, E1, E2. rewrite !nth_set_nth_eq by (rewrite ?length_set_nth'; lia).
           repeat split; reflexivity.
        -- apply Hhigh. lia.
    + discriminate.
    + destruct (Nat.ltb_spec i (List.length l)) as [Hi|Hi]; [|discriminate].
      apply IH in H; [| lia |].
      2: { unfold wf_planes. cbn. rewrite !length_set_nth'. tauto. }
      destruct H as (Hwf' & Heb & Hneb & Hsh & Hisd & Hlow & Hhigh).
      unfold ext_shape, ext_is_data, ext_nth in *. cbn in Heb, Hneb, Hsh, Hisd, Hlow.
      rewrite Eed. rewrite length_set_nth' in Hsh.
      split; [exact Hwf'|]. split; [exact Heb|]. split; [exact Hneb|].
      split; [exact Hsh|]. split; [exact Hisd|]. split.
      * intros j Hj. destruct (Hlow j ltac:(lia)) as (E1 & E2 & E3).
        rewrite E3, E1, E2. rewrite !nth_set_nth_ne by lia. repeat split; reflexivity.
      * intros j Hj. destruct (Nat.eq_dec j i) as [->|Hne].
        -- destruct (Hlow i ltac:(lia)) as (E1 & E2 & E3). exists b.
           rewrite E3, E1, E2. rewrite !nth_set_nth_eq by (rewrite ?length_set_nth'; lia).
           repeat split; reflexivity.
        -- apply Hhigh. lia.
Qed.

Lemma audio_alloc_ext_spec (n : nat) : forall i pool0 s f s' f' eb,
  audio_alloc_ext AState av_buffer_pool_get n i pool0 s f = Some (s', Some f') ->
  extended_buf f = Some eb ->
  buf f' = buf f /\ data f' = data f /\ nb_extended_buf f' = nb_extended_buf f /\
  ext_shape f' = ext_shape f /\ ext_is_data f' = ext_is_data f /\
  (exists eb', extended_buf f' = Some eb' /\ List.length eb' = List.length eb /\
     (forall j, (j < i)%nat -> nth j eb' None = nth j eb None) /\
     (forall j, (i <= j < i + n)%nat -> nth j eb' None <> None)) /\
  (forall j, (j < i + AV_NUM_DATA_POINTERS)%nat -> ext_nth f' j = ext_nth f j) /\
  (forall j, (i + AV_NUM_DATA_POINTERS <= j < i + n + AV_NUM_DATA_POINTERS)%nat ->
     ext_nth f' j <> None).
Proof.
  induction n as [|n IH]; intros i pool0 s f s' f' eb H Heb.
  - cbn in H. injection H as <- <-.
    repeat (split; [reflexivity|]). split.
    + exists eb. split; [exact Heb|]. split; [reflexivity|].
      split; [reflexivity|intros j Hj; lia].
    + split; [intros; reflexivity|intros j Hj; lia].
  - cbn [audio_alloc_ext] in H.
    destruct (av_buffer_pool_get s pool0) as [s1 [b|]]; [|discriminate].
    rewrite Heb in H.
    destruct (Nat.ltb_spec i (List.length eb)) as [Hi|Hi]; [|discriminate].
    destruct (extended_data f) as [| |l] eqn:Eed; cbn [set_ext] in H.
    + destruct (Nat.ltb_spec (i + AV_NUM_DATA_POINTERS) AV_NUM_DATA_POINTERS); [lia|discriminate].
    + discriminate.
    + destruct (Nat.ltb_spec (i + AV_NUM_DATA_POINTERS) (List.length l)) as [Hl|Hl]; [|discriminate].
      eapply IH in H; [|reflexivity].
      destruct H as (Hb & Hd & Hneb & Hsh & Hisd & (eb' & Heb' & Hlen & Hkeep & Hset) & Hlow & Hhigh).
      unfold ext_shape, ext_is_data, ext_nth in *. cbn in Hb, Hd, Hneb, Hsh, Hisd, Hlow, Hhigh.
      rewrite Eed. rewrite length_set_nth' in Hsh, Hlen.
      split; [exact Hb|]. split; [exact Hd|]. split; [exact Hneb|].
      split; [exact Hsh|]. split; [exact Hisd|]. split.
      * exists eb'. split; [exact Heb'|]. split; [exact Hlen|].
        split.
        -- intros j Hj. rewrite Hkeep by lia. apply nth_set_nth_ne. lia.
        -- intros j Hj. destruct (Nat.eq_dec j i) as [->|Hne]; [|apply Hset; lia].
           rewrite Hkeep by lia. rewrite nth_set_nth_eq by lia. discriminate.
      * split.
        -- intros j Hj. rewrite Hlow by lia. apply nth_set_nth_ne. lia.
        -- intros j Hj. destruct (Nat.eq_dec j (i + AV_NUM_DATA_POINTERS)) as [->|Hne].
           ++ rewrite Hlow by lia. rewrite nth_set_nth_eq by lia. discriminate.
           ++ apply Hhigh. lia.
Qed.

Ltac nlia := unfold AV_NUM_DATA_POINTERS in *; lia.

(** [audio_get_buffer] succeeds only with every plane buffered: the
    first [min(planes, 8)] entries of [buf], [data] and [extended_data]
    share one buffer; with more than 8 planes, [extended_data] is an array
    of [planes] entries, all set, and [extended_buf] holds
    [planes - 8] buffers, all set. *)
Theorem audio_get_buffer_planes pool s f s' f' :
  wf_planes f ->
  audio_get_buffer AState av_buffer_pool_get av_mallocz pool s f = Some (s', f', 0) ->
  (forall j, (j < Z.to_nat (Z.min (Pool.planes pool) 8))%nat ->
     exists b, nth j (buf f') None = Some b /\ nth j (data f') None = Some b /\
               ext_nth f' j = Some b) /\
  (Pool.planes pool <= 8 -> extended_data f' = ExtIsData) /\
  (8 < Pool.planes pool ->
     nb_extended_buf f' = Pool.planes pool - 8 /\
     (exists eb, extended_buf f' = Some eb /\ List.length eb = Z.to_nat (Pool.planes pool - 8) /\
        forall j, (j < List.length eb)%nat -> nth j eb None <> None) /\
     (exists l, extended_data f' = ExtArray l /\ List.length l = Z.to_nat (Pool.planes pool) /\
        forall j, (j < List.length l)%nat -> nth j l None <> None)).
Proof.
  intros Hwf H. unfold audio_get_buffer in H.
  set (planes := Pool.planes pool) in *.
  set (f0 := set_linesize f 0 (nth 0 (Pool.linesize pool) 0)) in *.
  assert (Hwf0 : wf_planes f0).
  { destruct Hwf as (Hd & Hl & Hb). unfold wf_planes, f0, set_linesize.
    cbn [with_planes data linesize buf]. rewrite length_set_nth'. tauto. }
  change (Z.of_nat AV_NUM_DATA_POINTERS) with 8 in H.
  destruct (Z.ltb_spec 8 planes) as [Hbig|Hsmall].
  - destruct (av_mallocz s (planes * 8)) as [s1 ok1].
    destruct (av_mallocz s1 ((planes - 8) * 8)) as [s2 ok2].
    destruct (ok1 && ok2); [|discriminate].
    set (f1 := with_planes f0 (data f0) (linesize f0) (buf f0)
                 (ExtArray (repeat None (Z.to_nat planes)))
                 (Some (repeat None (Z.to_nat (planes - 8)))) (planes - 8)) in *.
    destruct (nth 0 (Pool.pools pool) None) as [p0|].
    2: { destruct (0 <? planes) eqn:E; [discriminate|]. apply Z.ltb_ge in E. nlia. }
    replace (Z.to_nat (Z.min planes 8)) with 8%nat in H |- * by nlia.
    destruct (audio_alloc_bufs AState av_buffer_pool_get 8 0 p0 s2 f1)
      as [[s3 [f2|]]|] eqn:E1; [|discriminate|discriminate].
    apply audio_alloc_bufs_spec in E1; [|nlia|exact Hwf0].
    destruct E1 as (Hwf2 & Heb2 & Hneb2 & Hsh2 & Hisd2 & _ & Hset2).
    cbn in Heb2, Hneb2, Hsh2, Hisd2. rewrite Hneb2 in H.
    destruct (audio_alloc_ext AState av_buffer_pool_get (Z.to_nat (planes - 8)) 0 p0 s3 f2)
      as [[s4 [f3|]]|] eqn:E2; [|discriminate|discriminate].
    injection H as <- <-.
    eapply audio_alloc_ext_spec in E2; [|exact Heb2].
    destruct E2 as (Hb3 & Hd3 & Hneb3 & Hsh3 & Hisd3 & (eb' & Heb' & Hlen & _ & Hset') & Hlow & Hhigh).
    split; [|split].
    + intros j Hj. destruct (Hset2 j ltac:(nlia)) as (b & E1 & E2 & E3).
      exists b. rewrite Hb3, Hd3, Hlow by nlia. auto.
    + intros; nlia.
    + intros _. split; [rewrite Hneb3, Hneb2; reflexivity|]. split.
      * exists eb'. rewrite repeat_length in Hlen. split; [exact Heb'|]. split; [exact Hlen|].
        intros j Hj. apply Hset'. nlia.
      * unfold ext_shape, ext_is_data, ext_nth in *. cbn in Hsh2, Hisd2.
        destruct (extended_data f2) as [| |l2]; try discriminate.
        destruct (extended_data f3) as [| |l3]; try discriminate.
        injection Hsh3 as Hsh3. injection Hsh2 as Hsh2. rewrite repeat_length in Hsh2.
        exists l3. split; [reflexivity|]. split; [nlia|].
        intros j Hj. destruct (Nat.ltb_spec j 8) as [Hj8|Hj8].
        -- destruct (Hset2 j ltac:(nlia)) as (b & _ & _ & E3). rewrite Hlow by nlia.
           rewrite E3. discriminate.
        -- apply Hhigh. nlia.
  - set (f1 := with_planes f0 (data f0) (linesize f0) (buf f0) ExtIsData
                 (extended_buf f0) (nb_extended_buf f0)) in *.
    destruct (nth 0 (Pool.pools pool) None) as [p0|].
    2: { destruct ((0 <? planes) || (0 <? nb_extended_buf f1)) eqn:E; [discriminate|].
         injection H as <- <-. apply orb_false_iff in E. destruct E as [E _].
         apply Z.ltb_ge in E. split; [|split; [reflexivity|nlia]].
         intros j Hj. nlia. }
    destruct (audio_alloc_bufs AState av_buffer_pool_get (Z.to_nat (Z.min planes 8)) 0 p0 s f1)
      as [[s3 [f2|]]|] eqn:E1; [|discriminate|discriminate].
    apply audio_alloc_bufs_spec in E1; [|nlia|exact Hwf0].
    destruct E1 as (Hwf2 & Heb2 & Hneb2 & Hsh2 & Hisd2 & _ & Hset2).
    cbn in Heb2, Hneb2, Hsh2, Hisd2.
    destruct (audio_alloc_ext AState av_buffer_pool_get (Z.to_nat (nb_extended_buf f2)) 0 p0 s3 f2)
      as [[s4 [f3|]]|] eqn:E2; [|discriminate|discriminate].
    injection H as <- <-.
    destruct (Z.to_nat (nb_extended_buf f2)) as [|m] eqn:Em.
    + cbn in E2. injection E2 as <- <-. split; [|split; [|nlia]].
      * intros j Hj. apply Hset2. nlia.
      * unfold ext_is_data in Hisd2. destruct (extended_data f2); congruence.
    + exfalso. cbn [audio_alloc_ext] in E2.
      destruct (av_buffer_pool_get s3 p0) as [s5 [b|]]; [|discriminate].
      destruct (extended_buf f2) as [eb|]; [|discriminate].
      destruct (Nat.ltb 0 (List.length eb)); [|discriminate].
      unfold ext_is_data in Hisd2. destruct (extended_data f2); discriminate.
Qed.

(** [audio_get_buffer] fails only with [AVERROR(ENOMEM)]: either with the
    frame unreferenced (a pool allocation failed), or, when one of the two
    arrays for more than 8 planes could not be allocated, with both
    pointers NULL while [nb_extended_buf] keeps [planes - 8]. *)
Theorem audio_get_buffer_errors pool s f s' f' r :
  audio_get_buffer AState av_buffer_pool_get av_mallocz pool s f = Some (s', f', r) ->
  r <> 0 ->
  r = AVERROR_ENOMEM /\
  (f' = unref_frame \/
   (8 < Pool.planes pool /\ extended_data f' = ExtNull /\ extended_buf f' = None /\
    nb_extended_buf f' = Pool.planes pool - 8 /\ buf f' = buf f /\ data f' = data f)).
Proof.
  intros H Hr. unfold audio_get_buffer in H.
  change (Z.of_nat AV_NUM_DATA_POINTERS) with 8 in H.
  set (planes := Pool.planes pool) in *.
  set (f0 := set_linesize f 0 (nth 0 (Pool.linesize pool) 0)) in *.
  assert (Hsel : forall f1 s1,
    match nth 0 (Pool.pools pool) None with
    | Some pool0 =>
        match audio_alloc_bufs AState av_buffer_pool_get (Z.to_nat (Z.min planes 8)) 0 pool0 s1 f1 with
        | Some (s, Some frame) =>
            match audio_alloc_ext AState av_buffer_pool_get (Z.to_nat (nb_extended_buf frame)) 0 pool0 s frame with
            | Some (s, Some frame) => Some (s, frame, 0)
            | Some (s, None) => Some (s, unref_frame, AVERROR_ENOMEM)
            | None => None
            end
        | Some (s, None) => Some (s, unref_frame, AVERROR_ENOMEM)
        | None => None
        end
    | None => if (0 <? planes) || (0 <? nb_extended_buf f1) then None else Some (s1, f1, 0)
    end = Some (s', f', r) -> r = AVERROR_ENOMEM /\ f' = unref_frame).
  { intros f1 s1 E. destruct (nth 0 (Pool.pools pool) None) as [p0|].
    - destruct (audio_alloc_bufs _ _ _ _ _ _ _) as [[s2 [f2|]]|]; [|injection E as _ <- <-; auto|discriminate].
      destruct (audio_alloc_ext _ _ _ _ _ _ _) as [[s3 [f3|]]|]; [|injection E as _ <- <-; auto|discriminate].
      injection E as _ _ <-. contradiction.
    - destruct (_ || _); [discriminate|]. injection E as _ _ <-. contradiction. }
  destruct (Z.ltb_spec 8 planes) as [Hbig|Hsmall].
  - destruct (av_mallocz s (planes * 8)) as [s1 ok1].
    destruct (av_mallocz s1 ((planes - 8) * 8)) as [s2 ok2].
    destruct (ok1 && ok2).
    + apply Hsel in H. destruct H as [-> ->]. auto.
    + injection H as _ <- <-. split; [reflexivity|]. right.
      unfold f0, set_linesize. cbn. repeat split; auto.
  - apply Hsel in H. destruct H as [-> ->]. auto.
Qed.

End Facts.

(** The entries [ff_decode_frame_props] adds for the side-data table
    [tbl] and the packet [pkt]: one per table row whose packet side data
    is present, in table order. *)
Definition expected_side_data (tbl : list (Z * Z)) (pkt : packet) : list (Z * list Z) :=
  flat_map (fun e => match Driver.get_side_data pkt (fst e) with
                     | None => []
                     | Some payload => [(snd e, payload)]
                     end) tbl.

Section Facts2.
Variable AState : Type.
Variable av_buffer_pool_get : AState -> Z -> AState * option Z.
Variable av_mallocz : AState -> Z -> AState * bool.
Variable avcodec_align_dimensions2 : Pool.pool_ctx -> Z -> Z -> (Z * Z) * list Z.
Variable av_image_fill_linesizes : Z -> Z -> list Z.
Variable av_image_fill_pointers : Z -> Z -> list Z -> list Z * Z.
Variable av_sample_fmt_is_planar : Z -> bool.
Variable av_samples_get_buffer_size : Z -> Z -> Z -> Z -> Z * Z.
Variable av_buffer_pool_init : Z -> option Z.
Variable av_hwframe_get_buffer : AState -> gframe -> AState * gframe * Z.
Variables AV_PKT_DATA_REPLAYGAIN AV_PKT_DATA_DISPLAYMATRIX AV_PKT_DATA_SPHERICAL
          AV_PKT_DATA_STEREO3D AV_PKT_DATA_AUDIO_SERVICE_TYPE : Z.
Variables AV_FRAME_DATA_REPLAYGAIN AV_FRAME_DATA_DISPLAYMATRIX AV_FRAME_DATA_SPHERICAL
          AV_FRAME_DATA_STEREO3D AV_FRAME_DATA_AUDIO_SERVICE_TYPE : Z.
Variable av_frame_new_side_data : AState -> Z -> Z -> AState * bool.
Variable get_buffer2 : gb_ctx -> AState -> gframe -> gb_ctx * AState * gframe * Z.
Variable hwaccel_alloc_frame : gb_ctx -> AState -> gframe -> gb_ctx * AState * gframe * Z.
Variable av_image_check_sar : Z -> Z -> Z * Z -> Z.
Variable av_image_check_size : Z -> Z -> Z.
Variable av_channel_layout_copy : ch_layout -> ch_layout -> ch_layout * Z.
Variable av_channel_layout_check : ch_layout -> Z.
Variable av_get_default_channel_layout : Z -> Z.
Variable FF_SANE_NB_CHANNELS : Z.

Local Abbreviation sdt := (sd_table AV_PKT_DATA_REPLAYGAIN AV_PKT_DATA_DISPLAYMATRIX
  AV_PKT_DATA_SPHERICAL AV_PKT_DATA_STEREO3D AV_PKT_DATA_AUDIO_SERVICE_TYPE
  AV_FRAME_DATA_REPLAYGAIN AV_FRAME_DATA_DISPLAYMATRIX AV_FRAME_DATA_SPHERICAL
  AV_FRAME_DATA_STEREO3D AV_FRAME_DATA_AUDIO_SERVICE_TYPE).
Local Abbreviation props := (ff_decode_frame_props AState AV_PKT_DATA_REPLAYGAIN
  AV_PKT_DATA_DISPLAYMATRIX AV_PKT_DATA_SPHERICAL AV_PKT_DATA_STEREO3D
  AV_PKT_DATA_AUDIO_SERVICE_TYPE AV_FRAME_DATA_REPLAYGAIN AV_FRAME_DATA_DISPLAYMATRIX
  AV_FRAME_DATA_SPHERICAL AV_FRAME_DATA_STEREO3D AV_FRAME_DATA_AUDIO_SERVICE_TYPE
  av_frame_new_side_data).
Local Abbreviation fgb := (ff_get_buffer AState AV_PKT_DATA_REPLAYGAIN
  AV_PKT_DATA_DISPLAYMATRIX AV_PKT_DATA_SPHERICAL AV_PKT_DATA_STEREO3D
  AV_PKT_DATA_AUDIO_SERVICE_TYPE AV_FRAME_DATA_REPLAYGAIN AV_FRAME_DATA_DISPLAYMATRIX
  AV_FRAME_DATA_SPHERICAL AV_FRAME_DATA_STEREO3D AV_FRAME_DATA_AUDIO_SERVICE_TYPE
  av_frame_new_side_data get_buffer2 hwaccel_alloc_frame av_image_check_sar
  av_image_check_size av_channel_layout_copy av_channel_layout_check
  av_get_default_channel_layout FF_SANE_NB_CHANNELS).
Local Abbreviation dgb2 := (avcodec_default_get_buffer2 AState av_buffer_pool_get av_mallocz
  avcodec_align_dimensions2 av_image_fill_linesizes av_image_fill_pointers
  av_sample_fmt_is_planar av_samples_get_buffer_size av_buffer_pool_init
  av_hwframe_get_buffer).

Lemma copy_side_data_spec (tbl : list (Z * Z)) : forall pkt s f s' f' r,
  copy_side_data AState av_frame_new_side_data tbl pkt s f = (s', f', r) ->
  f' = with_props f (color f) (reordered_opaque f) (frame_pkt_pts f) (pts f) (side_data f') /\
  ((r = 0 /\ side_data f' = side_data f ++ expected_side_data tbl pkt) \/
   (r = AVERROR_ENOMEM /\ exists pre rest, expected_side_data tbl pkt = pre ++ rest /\
      rest <> [] /\ side_data f' = side_data f ++ pre)).
Proof.
  induction tbl as [|[pt ft] tbl IH]; intros pkt s f s' f' r H; cbn [copy_side_data] in H.
  - injection H as <- <- <-. split; [destruct f; reflexivity|].
    left. split; [reflexivity|]. rewrite app_nil_r. reflexivity.
  - unfold expected_side_data. cbn [flat_map fst snd].
    fold (expected_side_data tbl pkt).
    destruct (Driver.get_side_data pkt pt) as [payload|].
    + destruct (av_frame_new_side_data s ft _) as [s1 ok].
      destruct ok; cbn [negb] in H.
      * apply IH in H. destruct H as [Hf Hr]. split.
        -- rewrite Hf. reflexivity.
        -- cbn [side_data with_props] in Hr.
           destruct Hr as [[-> Hsd]|(Hr & pre & rest & Hpr & Hne & Hsd)].
           ++ left. split; [reflexivity|]. rewrite Hsd, <- app_assoc. reflexivity.
           ++ right. split; [exact Hr|]. exists ((ft, payload) :: pre), rest.
              rewrite Hpr. split; [reflexivity|]. split; [exact Hne|].
              rewrite Hsd, <- app_assoc. reflexivity.
      * injection H as <- <- <-. split; [destruct f; reflexivity|].
        right. split; [reflexivity|]. exists [], ((ft, payload) :: expected_side_data tbl pkt).
        split; [reflexivity|]. split; [discriminate|]. rewrite app_nil_r. reflexivity.
    + apply IH in H. exact H.
Qed.

(** [ff_decode_frame_props] copies the context's colour description and
    [reordered_opaque], sets [pts] and [pkt_pts] to the pts of the last
    packet's properties, and leaves every other field but the side data
    as it was.  On success it appends, in the order of its table, one
    side-data entry per table row present in that packet; when an
    allocation fails it returns [AVERROR(ENOMEM)] with only the entries
    before the failing one appended. *)
Theorem ff_decode_frame_props_spec c s f s' f' r :
  props c s f = (s', f', r) ->
  f' = with_props f (ctx_color c) (ctx_reordered_opaque c) (pkt_pts (last_pkt_props c))
         (pkt_pts (last_pkt_props c)) (side_data f') /\
  ((r = 0 /\ side_data f' = side_data f ++ expected_side_data sdt (last_pkt_props c)) \/
   (r = AVERROR_ENOMEM /\ exists pre rest,
      expected_side_data sdt (last_pkt_props c) = pre ++ rest /\ rest <> [] /\
      side_data f' = side_data f ++ pre)).
Proof.
  unfold ff_decode_frame_props. intros H.
  apply copy_side_data_spec in H. destruct H as [Hf Hr].
  split; [rewrite Hf; reflexivity|exact Hr].
Qed.

(** For video, when [ff_get_buffer] had to pick the frame size itself
    (the frame came with no positive width or height), the frame it
    returns has exactly the context's [width] x [height], whatever size
    was allocated, unless it fails before the allocation.  The context is
    read as the allocation callback leaves it, and the codec must not
    export cropping. *)
Theorem ff_get_buffer_video_dims c s f c' s' f' r :
  codec_type c = Pool.AVMEDIA_TYPE_VIDEO -> (width f <= 0 \/ height f <= 0) ->
  ff_get_buffer AState AV_PKT_DATA_REPLAYGAIN
    AV_PKT_DATA_DISPLAYMATRIX AV_PKT_DATA_SPHERICAL AV_PKT_DATA_STEREO3D
    AV_PKT_DATA_AUDIO_SERVICE_TYPE AV_FRAME_DATA_REPLAYGAIN AV_FRAME_DATA_DISPLAYMATRIX
    AV_FRAME_DATA_SPHERICAL AV_FRAME_DATA_STEREO3D AV_FRAME_DATA_AUDIO_SERVICE_TYPE
    av_frame_new_side_data get_buffer2 hwaccel_alloc_frame av_image_check_sar
    av_image_check_size av_channel_layout_copy av_channel_layout_check
    av_get_default_channel_layout FF_SANE_NB_CHANNELS c s f = (c', s', f', r) ->
  codec_type c' = Pool.AVMEDIA_TYPE_VIDEO -> exports_cropping c' = false ->
  r < 0 \/ (width f' = ctx_width c' /\ height f' = ctx_height c').
Proof.
  intros Hty Hdim. unfold ff_get_buffer. rewrite Hty.
  replace ((width f <=? 0) || (height f <=? 0)) with true
    by (symmetry; apply orb_true_iff; destruct Hdim; [left|right]; apply Z.leb_le; assumption).
  cbv beta iota zeta.
  match goal with |- context [if ?t <? 0 then inr _ else inl _] => destruct (Z.ltb_spec t 0) end.
  - intros [= _ _ _ <-]. left. assumption.
  - match goal with |- context [props c s ?x] => destruct (props c s x) as [[s1 f2] r2] end.
    destruct (Z.ltb_spec r2 0); [intros [= _ _ _ <-]; left; assumption|].
    match goal with |- (match ?m with _ => _ end = _ -> _) =>
      destruct m as [[[c3 s3] f3] r3] end.
    intros E. injection E as <- <- <- <-. intros Hty' Hex'.
    rewrite Hty', Hex'. cbn. right. split; reflexivity.
Qed.

(** [ff_get_buffer] fails before any allocation, with the context and the
    allocator untouched, when the context's size is rejected by
    [av_image_check_size] (video), or when a frame that already has a
    channel layout with a valid [av_channel_layout_check] has more than
    [FF_SANE_NB_CHANNELS] channels ([AVERROR(EINVAL)], audio). *)
Theorem ff_get_buffer_rejects c s f :
  (codec_type c = Pool.AVMEDIA_TYPE_VIDEO ->
   av_image_check_size (ctx_width c) (ctx_height c) < 0 ->
   exists f', fgb c s f = (c, s, f', av_image_check_size (ctx_width c) (ctx_height c))) /\
  (codec_type c = Pool.AVMEDIA_TYPE_AUDIO ->
   nb_channels (frame_ch_layout f) <> 0 ->
   0 <= av_channel_layout_check (frame_ch_layout f) ->
   FF_SANE_NB_CHANNELS < nb_channels (frame_ch_layout f) ->
   exists f', fgb c s f = (c, s, f', AVERROR_EINVAL) /\ frame_ch_layout f' = frame_ch_layout f).
Proof.
  split.
  - intros Hty Hchk. unfold ff_get_buffer. rewrite Hty.
    replace (av_image_check_size (ctx_width c) (ctx_height c) <? 0) with true
      by (symmetry; apply Z.ltb_lt; exact Hchk).
    destruct ((width f <=? 0) || (height f <=? 0)); cbv beta iota zeta;
      eexists; reflexivity.
  - intros Hty Hnb Hchk Hsane. unfold ff_get_buffer. rewrite Hty.
    set (f1 := if sample_rate f =? 0 then _ else f).
    set (f2 := if format f1 <? 0 then _ else f1).
    assert (Hl2 : frame_ch_layout f2 = frame_ch_layout f)
      by (unfold f2, f1; destruct (sample_rate f =? 0); destruct (format _ <? 0); reflexivity).
    rewrite Hl2. replace (nb_channels (frame_ch_layout f) =? 0) with false
      by (symmetry; apply Z.eqb_neq; exact Hnb).
    cbv beta iota zeta. rewrite Hl2.
    replace (av_channel_layout_check (frame_ch_layout f) <? 0) with false
      by (symmetry; apply Z.ltb_ge; exact Hchk).
    replace (FF_SANE_NB_CHANNELS <? nb_channels (frame_ch_layout f)) with true
      by (symmetry; apply Z.ltb_lt; exact Hsane).
    exists f2. split; [reflexivity|exact Hl2].
Qed.

Lemma video_alloc_planes_params (n : nat) : forall i pool s pic s' pic' k,
  video_alloc_planes AState av_buffer_pool_get n i pool s pic = (s', Some (pic', k)) ->
  pool_frame_of pic' = pool_frame_of pic.
Proof.
  induction n as [|n IH]; intros i pool s pic s' pic' k H; cbn [video_alloc_planes] in H.
  - injection H as _ <- _. reflexivity.
  - destruct (nth i (Pool.pools pool) None) as [h|]; [|injection H as _ <- _; reflexivity].
    destruct (av_buffer_pool_get s h) as [s1 [b|]]; [|discriminate].
    apply IH in H. rewrite H. reflexivity.
Qed.

Lemma audio_alloc_bufs_params (n : nat) : forall i pool0 s f s' f',
  audio_alloc_bufs AState av_buffer_pool_get n i pool0 s f = Some (s', Some f') ->
  pool_frame_of f' = pool_frame_of f.
Proof.
  induction n as [|n IH]; intros i pool0 s f s' f' H; cbn [audio_alloc_bufs] in H.
  - injection H as _ <-. reflexivity.
  - destruct (av_buffer_pool_get s pool0) as [s1 [b|]]; [|discriminate].
    destruct (set_ext _ _ _ _) as [[ed d]|]; [|discriminate].
    apply IH in H. rewrite H. reflexivity.
Qed.

Lemma audio_alloc_ext_params (n : nat) : forall i pool0 s f s' f',
  audio_alloc_ext AState av_buffer_pool_get n i pool0 s f = Some (s', Some f') ->
  pool_frame_of f' = pool_frame_of f.
Proof.
  induction n as [|n IH]; intros i pool0 s f s' f' H; cbn [audio_alloc_ext] in H.
  - injection H as _ <-. reflexivity.
  - destruct (av_buffer_pool_get s pool0) as [s1 [b|]]; [|discriminate].
    destruct (extended_buf f) as [eb|]; [|discriminate].
    destruct (Nat.ltb i (List.length eb)); [|discriminate].
    destruct (set_ext _ _ _ _) as [[ed d]|]; [|discriminate].
    apply IH in H. rewrite H. reflexivity.
Qed.

Lemma video_get_buffer_params pool s f s' f' :
  video_get_buffer AState av_buffer_pool_get pool s f = (s', f', 0) ->
  pool_frame_of f' = pool_frame_of f.
Proof.
  unfold video_get_buffer. destruct (nth 0 (data f) None); [intros [=]|].
  destruct (video_alloc_planes _ _ 4 0 pool s _) as [s1 [[p k]|]] eqn:E; [|intros [=]].
  intros [= _ <-]. apply video_alloc_planes_params in E. exact E.
Qed.

Lemma audio_get_buffer_params pool s f s' f' :
  audio_get_buffer AState av_buffer_pool_get av_mallocz pool s f = Some (s', f', 0) ->
  pool_frame_of f' = pool_frame_of f.
Proof.
  unfold audio_get_buffer. cbv zeta.
  assert (Htail : forall s1 f1, pool_frame_of f1 = pool_frame_of f ->
    match nth 0 (Pool.pools pool) None with
    | Some pool0 =>
        match audio_alloc_bufs AState av_buffer_pool_get
                (Z.to_nat (Z.min (Pool.planes pool) (Z.of_nat AV_NUM_DATA_POINTERS))) 0 pool0 s1 f1 with
        | Some (s, Some frame) =>
            match audio_alloc_ext AState av_buffer_pool_get (Z.to_nat (nb_extended_buf frame)) 0 pool0 s frame with
            | Some (s, Some frame) => Some (s, frame, 0)
            | Some (s, None) => Some (s, unref_frame, AVERROR_ENOMEM)
            | None => None
            end
        | Some (s, None) => Some (s, unref_frame, AVERROR_ENOMEM)
        | None => None
        end
    | None => if (0 <? Pool.planes pool) || (0 <? nb_extended_buf f1) then None else Some (s1, f1, 0)
    end = Some (s', f', 0) -> pool_frame_of f' = pool_frame_of f).
  { intros s1 f1 Hf1. destruct (nth 0 (Pool.pools pool) None) as [p0|].
    + destruct (audio_alloc_bufs _ _ _ _ _ _ _) as [[s2 [f2|]]|] eqn:E1;
        [|intros H; injection H as _ _ H; unfold AVERROR_ENOMEM in H; lia|discriminate].
      destruct (audio_alloc_ext _ _ _ _ _ _ _) as [[s3 [f3|]]|] eqn:E2;
        [|intros H; injection H as _ _ H; unfold AVERROR_ENOMEM in H; lia|discriminate].
      intros [= _ <-]. apply audio_alloc_ext_params in E2. apply audio_alloc_bufs_params in E1.
      rewrite E2, E1. exact Hf1.
    + destruct (_ || _); [discriminate|]. intros [= _ <-]. exact Hf1. }
  destruct (Z.of_nat AV_NUM_DATA_POINTERS <? Pool.planes pool).
  - destruct (av_mallocz s _) as [s1 ok1]. destruct (av_mallocz s1 _) as [s2 ok2].
    destruct (ok1 && ok2); [|intros H; cbv beta iota in H; injection H as _ _ H; unfold AVERROR_ENOMEM in H; lia].
    apply Htail. reflexivity.
  - apply Htail. reflexivity.
Qed.

(** [avcodec_default_get_buffer2] leaves the frame pool alone when the
    context has a [hw_frames_ctx]; otherwise it aborts (in
    [update_frame_pool]) for a codec type other than video or audio, so its
    [return -1] is never reached, and on success the pool is cached under
    the returned frame's parameters. *)
Theorem avcodec_default_get_buffer2_pool c pool s f pool' s' f' r :
  dgb2 c pool s f = Some (pool', s', f', r) ->
  (has_hw_frames_ctx c = true -> pool' = pool) /\
  (has_hw_frames_ctx c = false ->
   codec_type c <> Pool.AVMEDIA_TYPE_OTHER /\
   (r = 0 -> PoolExtraFacts.pool_key_matches av_sample_fmt_is_planar (pool_ctx_of c) pool'
               (pool_frame_of f'))).
Proof.
  unfold avcodec_default_get_buffer2.
  destruct (has_hw_frames_ctx c).
  - destruct (av_hwframe_get_buffer s f) as [[s1 f1] r1]. intros [=<- _ _ _].
    split; [reflexivity|discriminate].
  - intros H. split; [discriminate|intros _].
    destruct (Pool.update_frame_pool _ _ _ _ _ _ (pool_ctx_of c) pool (pool_frame_of f))
      as [[p1 ret]|] eqn:Eu; [|discriminate].
    split.
    { intros Hty. unfold Pool.update_frame_pool, pool_ctx_of in Eu. cbn [Pool.codec_type] in Eu.
      rewrite Hty in Eu. discriminate. }
    intros Hr. pose proof (PoolExtraFacts.update_frame_pool_nonpos _ _ _ _ _ _ _ _ _ _ _ Eu) as Hle.
    destruct (Z.ltb_spec ret 0) as [Hneg|Hnn]; [injection H as _ _ _ <-; lia|].
    assert (ret = 0) as -> by lia.
    apply PoolExtraFacts.update_frame_pool_key in Eu.
    destruct (codec_type c) eqn:Hty.
    + destruct (video_get_buffer AState av_buffer_pool_get p1 s f) as [[s1 f1] r1] eqn:Ev.
      injection H as <- _ <- <-. subst r1.
      apply video_get_buffer_params in Ev. rewrite Ev. exact Eu.
    + destruct (audio_get_buffer AState av_buffer_pool_get av_mallocz p1 s f) as [[[s1 f1] r1]|] eqn:Ea;
        [|discriminate].
      injection H as <- _ <- <-. subst r1.
      apply audio_get_buffer_params in Ea. rewrite Ea. exact Eu.
    + unfold pool_ctx_of, PoolExtraFacts.pool_key_matches in Eu. cbn in Eu. rewrite Hty in Eu.
      contradiction.
Qed.

End Facts2.

End GetBufferFacts.


Module DriverExtraFacts.
Import BSF Driver DriverFacts.

Ltac dsetters :=
  cbn [set_params set_draining set_draining_done set_buffer_pkt set_buffer_frame set_in_pkt
       set_chain set_bst add_consumed set_last_pkt_props incr_frame_number set_to_free
       upd_st upd_bk cfg st bk params draining draining_done buffer_pkt buffer_pkt_valid
       buffer_frame compat_decode_frame in_pkt chain bst frame_number
       compat_decode_consumed last_pkt_props to_free
       set_frame_params set_img set_frame_pkt_dts buf0 img frame_pkt_dts] in *.

Section Facts.

Variable BState : Type.
Variable avcodec : codec BState.
Variable ff_set_dimensions : Z -> Z -> (Z * Z) * Z.
Variable av_pix_fmt_desc_get : Z -> option Cropping.pix_desc.

Local Abbreviation fnum c := (frame_number (bk c)).

Lemma fn_get_packet (c c' : dctx BState) r p :
  ff_decode_get_packet avcodec ff_set_dimensions c = (c', r, p) -> fnum c' = fnum c.
Proof.
  unfold ff_decode_get_packet. intros H. cbv zeta in H. destr_in H;
    injection H as <- _ _; reflexivity.
Qed.

Lemma fn_dsi (c c' : dctx BState) frame f' r :
  decode_simple_internal avcodec ff_set_dimensions c frame = Some (c', f', r) -> fnum c' = fnum c.
Proof.
  unfold decode_simple_internal. intros H. cbv zeta in H.
  destruct (ff_decode_get_packet avcodec ff_set_dimensions (set_in_pkt c blank_packet))
    as [[c0 r0] p0] eqn:Eg.
  apply fn_get_packet in Eg. dsetters.
  destr_in H; try discriminate; injection H as <- _ _; dsetters; congruence.
Qed.

Lemma fn_dsrf (fuel : nat) : forall (c c' : dctx BState) frame f' r,
  decode_simple_receive_frame avcodec ff_set_dimensions fuel c frame = Some (c', f', r) ->
  fnum c' = fnum c.
Proof.
  induction fuel as [|fuel IH]; intros c c' frame f' r H; cbn [decode_simple_receive_frame] in H;
    [discriminate|].
  destruct (buf0 frame); [injection H as <- _ _; reflexivity|].
  destruct (decode_simple_internal avcodec ff_set_dimensions c frame)
    as [[[c1 f1] r1]|] eqn:E; [|discriminate].
  apply fn_dsi in E. destruct (r1 <? 0).
  - injection H as <- _ _. exact E.
  - rewrite <- E. eapply IH; eauto.
Qed.

Lemma fn_run_rprog (pr : rprog BState) : forall (c c' : dctx BState) f' r,
  run_rprog avcodec ff_set_dimensions pr c = (c', f', r) -> fnum c' = fnum c.
Proof.
  induction pr as [s f ret|k IH]; intros c c' f' r H; cbn [run_rprog] in H.
  - injection H as <- _ _. reflexivity.
  - destruct (ff_decode_get_packet avcodec ff_set_dimensions c) as [[c0 r0] p0] eqn:Eg.
    apply fn_get_packet in Eg. rewrite <- Eg. eapply IH; eauto.
Qed.

Lemma fn_drfi (c c' : dctx BState) frame f' r :
  decode_receive_frame_internal avcodec ff_set_dimensions c frame = Some (c', f', r) ->
  fnum c' = fnum c.
Proof.
  unfold decode_receive_frame_internal. intros H.
  destruct (buf0 frame); [discriminate|].
  destruct (receive_frame avcodec) as [rf|] eqn:Erf.
  - destruct (run_rprog avcodec ff_set_dimensions (rf (bst (st c)) frame) c)
      as [[c1 f1] r1] eqn:E.
    apply fn_run_rprog in E. injection H as <- _ _.
    destruct (r1 =? AVERROR_EOF); exact E.
  - destruct (decode_simple_receive_frame avcodec ff_set_dimensions DECODE_LOOP_BOUND c frame)
      as [[[c1 f1] r1]|] eqn:E; [|discriminate].
    apply fn_dsrf in E. injection H as <- _ _.
    destruct (r1 =? AVERROR_EOF); exact E.
Qed.

Lemma fn_bsfs_init (c c' : dctx BState) r :
  bsfs_init avcodec c = (c', r) -> fnum c' = fnum c.
Proof. unfold bsfs_init. intros H. destr_in H; injection H as <- _; reflexivity. Qed.

(** [avcodec_receive_frame] counts the frames it returns:
    [frame_number] grows by one on each success (return code 0) and is
    left unchanged on each error; no other return code is possible. *)
Theorem receive_frame_counts_frames (c c' : dctx BState) (frame f' : dframe) (r : Z) :
  avcodec_receive_frame avcodec ff_set_dimensions av_pix_fmt_desc_get c frame = Some (c', f', r) ->
  (r = 0 /\ fnum c' = fnum c + 1) \/ (r < 0 /\ fnum c' = fnum c).
Proof.
  unfold avcodec_receive_frame. intros H. cbv zeta in H.
  destruct (is_open (cfg c) && is_decoder (cfg c)); cbn [negb] in H.
  2:{ injection H as <- _ <-. right. unfold AVERROR_EINVAL. lia. }
  destruct (bsfs_init avcodec c) as [c0 r0] eqn:Ei. apply fn_bsfs_init in Ei.
  cbv beta iota in H. destruct (r0 <? 0) eqn:E0.
  { injection H as <- _ <-. right. apply Z.ltb_lt in E0. auto. }
  remember (match buf0 (buffer_frame (st c0)) with
            | Some _ => Some (set_buffer_frame c0 unset_frame, buffer_frame (st c0), 0)
            | None => decode_receive_frame_internal avcodec ff_set_dimensions c0 unset_frame
            end) as o eqn:Eo.
  destruct o as [[[c1 f1] r1]|]; [|discriminate].
  assert (E : fnum c1 = fnum c0).
  { destruct (buf0 (buffer_frame (st c0))).
    - injection Eo as -> _ _. reflexivity.
    - symmetry in Eo. eapply fn_drfi; eauto. }
  destruct (r1 <? 0) eqn:E1.
  { injection H as <- _ <-. right. apply Z.ltb_lt in E1. split; congruence. }
  destruct (if is_video avcodec then _ else _) as [f2 r2].
  destruct (r2 <? 0) eqn:E2.
  - injection H as <- _ <-. right. apply Z.ltb_lt in E2. split; congruence.
  - injection H as <- _ <-. left. split; [reflexivity|]. dsetters. congruence.
Qed.

(** A frame buffered by [avcodec_send_packet] is handed out by the next
    [avcodec_receive_frame] without decoding: the buffer slot is emptied
    and nothing else of the decoding state changes.  For audio the
    caller gets the buffered frame as it is.  For video the caller gets
    the buffered frame with its picture as [apply_cropping] leaves it,
    or, when cropping fails, its error and an unset frame. *)
Theorem receive_frame_buffered (c c' : dctx BState) (frame f' : dframe) (r : Z) :
  is_open (cfg c) && is_decoder (cfg c) = true -> chain (st c) <> [] ->
  buf0 (buffer_frame (st c)) <> None ->
  avcodec_receive_frame avcodec ff_set_dimensions av_pix_fmt_desc_get c frame = Some (c', f', r) ->
  st c' = st (set_buffer_frame c unset_frame) /\
  (is_video avcodec = false -> r = 0 /\ f' = buffer_frame (st c)) /\
  (is_video avcodec = true ->
   let '(i, cr, _) :=
     Cropping.apply_cropping av_pix_fmt_desc_get
       {| Cropping.ctx_apply_cropping := cfg_apply_cropping (cfg c);
          Cropping.ctx_flags := cfg_flags (cfg c) |} (img (buffer_frame (st c))) in
   (0 <= cr /\ r = 0 /\ f' = set_img (buffer_frame (st c)) i) \/
   (cr < 0 /\ r = cr /\ f' = unset_frame)).
Proof.
  intros Ho Hch Hb H. unfold avcodec_receive_frame, bsfs_init in H. cbv zeta in H.
  rewrite Ho in H. cbn [negb] in H.
  destruct (chain (st c)) as [|b l] eqn:Ec; [congruence|]. cbv beta iota in H.
  destruct (buf0 (buffer_frame (st c))) as [b0|] eqn:Eb; [|congruence].
  cbn [Z.ltb Z.compare] in H. cbv beta iota in H.
  destruct (is_video avcodec) eqn:Ev.
  - dsetters. destruct (Cropping.apply_cropping _ _ _) as [[i r2] logs] eqn:Ea.
    cbv beta iota in H |- *.
    destruct (r2 <? 0) eqn:E2; injection H as <- <- <-; zbools.
    + split; [reflexivity|]. split; [discriminate|]. intros _. right. auto.
    + split; [reflexivity|]. split; [discriminate|]. intros _. left. auto.
  - cbn in H. injection H as <- <- <-. split; [reflexivity|].
    split; [auto|discriminate].
Qed.

(** One step of the simple decode API on a packet left over from the
    previous step: the codec's [decode] callback gets the packet and its
    new state is kept.  An error of the callback drops the packet and is
    returned; otherwise the step returns 0, and the packet is dropped
    when it is consumed, that is for video always and for audio when the
    callback consumed its whole size; the rest of a partly consumed audio
    packet is kept, with unset timestamps, for the next step, as are the
    timestamps of [last_pkt_props].  [compat_decode_consumed] grows by
    the size of the packet for video and by the callback's return value
    otherwise, modulo 2^64 (it is a [size_t]: an error return wraps
    it). *)
Theorem decode_simple_internal_consumption (c c' : dctx BState) (frame f' fr : dframe)
    (s : BState) (got : bool) (ret r : Z) :
  pkt_data (in_pkt (st c)) <> None -> draining_done (st c) = false ->
  thread_frame (cfg c) = false ->
  decode avcodec (bst (st c)) frame (in_pkt (st c)) = (s, fr, got, ret) ->
  decode_simple_internal avcodec ff_set_dimensions c frame = Some (c', f', r) ->
  bst (st c') = s /\
  compat_decode_consumed (bk c') = (compat_decode_consumed (bk c) +
    (if (0 <=? ret) && is_video avcodec then pkt_size (in_pkt (st c)) else ret)) mod 2 ^ 64 /\
  (ret < 0 -> r = ret /\ in_pkt (st c') = blank_packet) /\
  (0 <= ret -> r = 0) /\
  (0 <= ret -> is_video avcodec = true \/ pkt_size (in_pkt (st c)) <= ret ->
   in_pkt (st c') = blank_packet) /\
  (0 <= ret -> is_video avcodec = false -> ret < pkt_size (in_pkt (st c)) ->
   in_pkt (st c') = advance_packet (in_pkt (st c)) ret /\
   pkt_pts (last_pkt_props (bk c')) = AV_NOPTS_VALUE /\
   pkt_dts (last_pkt_props (bk c')) = AV_NOPTS_VALUE).
Proof.
  intros Hp Hd Ht Hdec H. unfold decode_simple_internal in H. cbv zeta in H.
  destruct (pkt_data (in_pkt (st c))) as [l|] eqn:El; [|congruence].
  cbn [andb] in H. cbv beta iota in H. rewrite Hd, El, Ht in H. cbn [andb negb orb] in H.
  rewrite Hdec in H. cbv beta iota in H.
  pose proof (pkt_size_nonneg (in_pkt (st c))) as Hsz.
  set (p := in_pkt (st c)) in *.
  destruct (0 <=? ret) eqn:Er; zbools.
  - assert (Hr : (ret <? 0) = false) by (apply Z.ltb_ge; lia).
    destruct (is_video avcodec) eqn:Ev; cbn [andb] in H |- *.
    + rewrite Z.leb_refl in H. cbn [orb] in H.
      destruct (pkt_size p <? 0) eqn:Es; [apply Z.ltb_lt in Es; lia|].
      destruct (draining (st c) && negb got); destruct got; destr_in H; try discriminate;
        injection H as <- _ <-; dsetters; repeat split; intros; try lia; try reflexivity.
    + rewrite Hr in H. cbn [orb] in H.
      destruct (pkt_size p <=? ret) eqn:Es; zbools.
      * destruct (draining (st c) && negb got); destr_in H; try discriminate;
          injection H as <- _ <-; dsetters; repeat split; intros; try lia; try reflexivity.
      * destruct (draining (st c) && negb got); destr_in H; try discriminate;
          injection H as <- _ <-; dsetters; repeat split; intros; try lia; try reflexivity;
          try discriminate; destruct H0; try discriminate; lia.
  - assert (Hr : (ret <? 0) = true) by (apply Z.ltb_lt; lia).
    rewrite andb_false_l, Hr, orb_true_r in H.
    destruct (draining (st c) && negb got); destr_in H; try discriminate;
      injection H as <- _ <-; dsetters; repeat split; intros; try lia; try reflexivity;
      rewrite ?Hr; reflexivity.
Qed.

End Facts.
End DriverExtraFacts.

Module CroppingExtraFacts.
Import Cropping.

(** [apply_cropping] fails only with [AVERROR_BUG], when cropping is
    enabled, the margins are valid and the frame's format has no pixel
    descriptor; the frame is then left as it was.  Otherwise it returns
    0 and either leaves the frame as it was (cropping disabled, valid
    margins, nothing logged) or clears the right and bottom margins,
    keeping the line sizes, the format and the number of planes. *)
Theorem apply_cropping_outcomes (desc_get : Z -> option pix_desc) (c : crop_ctx)
    (f f' : frame) (r : Z) (logs : list log_level) :
  apply_cropping desc_get c f = (f', r, logs) ->
  (r = AVERROR_BUG /\ f' = f /\ logs = [] /\ ctx_apply_cropping c = true /\
   desc_get (format f) = None) \/
  (r = 0 /\ f' = f /\ logs = [] /\ ctx_apply_cropping c = false) \/
  (r = 0 /\ crop_right f' = 0 /\ crop_bottom f' = 0 /\ linesize f' = linesize f /\
   format f' = format f /\ length (data f') = length (data f)).
Proof.
  unfold apply_cropping. intros H.
  destruct (_ || _ || _ || _).
  { injection H as <- <- <-. right; right. cbn. repeat split. }
  destruct (ctx_apply_cropping c) eqn:Ea; cbn [negb] in H.
  2:{ injection H as <- <- <-. right; left. auto. }
  destruct (desc_get (format f)) as [d|] eqn:Ed.
  2:{ injection H as <- <- <-. left. auto. }
  destruct (Z.land (desc_flags d) _ =? 0).
  - injection H as <- <- <-. right; right. cbn.
    rewrite length_map, length_combine, length_seq, Nat.min_id.
    destruct (Z.land (ctx_flags c) AV_CODEC_FLAG_UNALIGNED =? 0);
      [destruct (min_log2_align _ _ <? 5)|]; cbn; repeat split.
  - injection H as <- <- <-. right; right. cbn. repeat split.
Qed.

End CroppingExtraFacts.


(** ** Concrete instances of the buffer, format and driver properties *)
Module ExtraExamples.

(** *** Format negotiation: a codec with one hwaccel format (100) and one
    software format (0). *)
Module GF.
Import Cropping GetFormat GetFormatFacts.

Definition gf_desc (f : Z) : option pix_desc :=
  if f =? 0 then Some {| log2_chroma_w := 0; log2_chroma_h := 0; desc_flags := 0;
                         comp := [{| plane := 0; step := 1 |}] |}
  else if f =? 100 then Some {| log2_chroma_w := 0; log2_chroma_h := 0;
                                desc_flags := AV_PIX_FMT_FLAG_HWACCEL; comp := [] |}
  else None.

Definition gf_hwaccel : hwaccel :=
  {| hw_id := 27; hw_pix_fmt := 100; hw_priv_data_size := 16; hw_init := Some 0;
     hw_has_uninit := true |}.

Definition gf_ctx0 : gf_ctx :=
  {| codec_id := 27; cur_hwaccel := None; hwaccel_priv_data := false; hw_frames_ctx := None;
     sw_pix_fmt := AV_PIX_FMT_NONE; uninit_calls := 0 |}.

(** A callback that takes the first format offered. *)
Definition gf_first (l : list Z) : option (Z * option Z) :=
  match l with f :: _ => Some (f, None) | [] => Some (AV_PIX_FMT_NONE, None) end.

Definition gf_fmts : list Z := [100; 0; AV_PIX_FMT_NONE].

Lemma gf_first_offers (l : list Z) :
  exists r hwf, gf_first l = Some (r, hwf) /\ (In r l \/ r = AV_PIX_FMT_NONE).
Proof.
  destruct l as [|f l]; eexists; eexists; (split; [reflexivity|]); cbn; auto.
Qed.

Lemma ff_get_format_consistent_witness :
  exists c' r,
    ff_get_format gf_desc [gf_hwaccel] (fun _ => true) true gf_first gf_ctx0 gf_fmts =
      Some (c', r) /\
    sw_pix_fmt c' = last (fmt_prefix gf_fmts) AV_PIX_FMT_NONE /\
    (r = AV_PIX_FMT_NONE \/
     (is_hwaccel_pix_fmt gf_desc r = Some false /\ cur_hwaccel c' = None) \/
     (is_hw gf_desc r /\ exists h, cur_hwaccel c' = Some h /\ In h [gf_hwaccel] /\
        hw_id h = codec_id gf_ctx0 /\ hw_pix_fmt h = r /\
        (forall f, hw_frames_ctx c' = Some f -> f = r))).
Proof.
  pose (o := ff_get_format gf_desc [gf_hwaccel] (fun _ => true) true gf_first gf_ctx0 gf_fmts).
  assert (H : o = Some (match o with Some x => fst x | None => gf_ctx0 end,
                        match o with Some x => snd x | None => 0 end))
    by (vm_compute; reflexivity).
  exists (match o with Some x => fst x | None => gf_ctx0 end),
         (match o with Some x => snd x | None => 0 end).
  split; [exact H|]. exact (ff_get_format_consistent _ _ _ _ _ _ _ _ _ H).
Defined.

Lemma ff_get_format_terminates_witness :
  gf_desc AV_PIX_FMT_NONE = None /\ fmt_prefix gf_fmts <> [] /\
  exists c' r,
    ff_get_format gf_desc [gf_hwaccel] (fun _ => false) true gf_first gf_ctx0 gf_fmts =
      Some (c', r).
Proof.
  assert (H1 : gf_desc AV_PIX_FMT_NONE = None) by reflexivity.
  assert (H2 : fmt_prefix gf_fmts <> []) by (vm_compute; discriminate).
  split; [exact H1|]. split; [exact H2|].
  exact (ff_get_format_terminates gf_desc [gf_hwaccel] (fun _ => false) true gf_first
           gf_ctx0 gf_fmts H1 gf_first_offers H2).
Defined.

Lemma ff_get_format_default_witness :
  gf_desc AV_PIX_FMT_NONE = None /\
  Forall (fun f => gf_desc f <> None) (fmt_prefix gf_fmts) /\ fmt_prefix gf_fmts <> [] /\
  exists c' r,
    ff_get_format gf_desc [gf_hwaccel] (fun _ => true) false
      (default_get_format_cb gf_desc) gf_ctx0 gf_fmts = Some (c', r) /\
    (false = true ->
     avcodec_default_get_format gf_desc gf_fmts = Some r /\
     cur_hwaccel c' = None /\ hwaccel_priv_data c' = false /\ hw_frames_ctx c' = None) /\
    (false = false ->
     r = AV_PIX_FMT_NONE /\ c' = set_sw_pix_fmt gf_ctx0 (last (fmt_prefix gf_fmts) AV_PIX_FMT_NONE)).
Proof.
  assert (H1 : gf_desc AV_PIX_FMT_NONE = None) by reflexivity.
  assert (H2 : Forall (fun f => gf_desc f <> None) (fmt_prefix gf_fmts))
    by (vm_compute; repeat constructor; discriminate).
  assert (H3 : fmt_prefix gf_fmts <> []) by (vm_compute; discriminate).
  split; [exact H1|]. split; [exact H2|]. split; [exact H3|].
  exact (ff_get_format_default gf_desc [gf_hwaccel] (fun _ => true) false gf_ctx0 gf_fmts H1 H2 H3).
Defined.

End GF.

(** *** The frame pool: the gray 16x16 pool of [PoolFacts] and a 32x16
    request. *)
Module PL.
Import Pool PoolFacts PoolExtraFacts.

(** [av_image_fill_pointers] for one plane of [linesize[0] * h] bytes. *)
Definition pl_pointers (_ h : Z) (ls : list Z) : list Z * Z := ([0; 0; 0; 0], nth 0 ls 0 * h).
Definition pl_samples (l _ _ _ : Z) : Z * Z := (l, 0).
Definition pl_init_fail (_ : Z) : option Z := None.

Lemma update_frame_pool_cached_witness :
  exists p',
    update_frame_pool ex_align ex_linesizes pl_pointers (fun _ => false) pl_samples Some
      ex_ctx ex_pool ex_frame = Some (p', 0) /\
    pool_key_matches (fun _ => false) ex_ctx p' ex_frame /\
    update_frame_pool ex_align ex_linesizes pl_pointers (fun _ => false) pl_samples Some
      ex_ctx p' ex_frame = Some (p', 0).
Proof.
  pose (o := update_frame_pool ex_align ex_linesizes pl_pointers (fun _ => false) pl_samples
               Some ex_ctx ex_pool ex_frame).
  assert (H : o = Some (match o with Some x => fst x | None => ex_pool end, 0))
    by (vm_compute; reflexivity).
  exists (match o with Some x => fst x | None => ex_pool end).
  split; [exact H|].
  exact (update_frame_pool_cached ex_align ex_linesizes pl_pointers (fun _ => false)
           pl_samples Some ex_ctx ex_pool ex_frame _ H).
Defined.

Lemma update_frame_pool_video_aligned_witness :
  codec_type ex_ctx = AVMEDIA_TYPE_VIDEO /\ linesizes_aligned ex_pool /\
  exists p',
    update_frame_pool ex_align ex_linesizes pl_pointers (fun _ => false) pl_samples Some
      ex_ctx ex_pool ex_frame = Some (p', 0) /\
    linesizes_aligned p'.
Proof.
  assert (H1 : codec_type ex_ctx = AVMEDIA_TYPE_VIDEO) by reflexivity.
  assert (H2 : linesizes_aligned ex_pool)
    by (intros [|[|[|[|i]]]] Hi; [reflexivity..|lia]).
  pose (o := update_frame_pool ex_align ex_linesizes pl_pointers (fun _ => false) pl_samples
               Some ex_ctx ex_pool ex_frame).
  assert (H : o = Some (match o with Some x => fst x | None => ex_pool end, 0))
    by (vm_compute; reflexivity).
  split; [exact H1|]. split; [exact H2|].
  exists (match o with Some x => fst x | None => ex_pool end).
  split; [exact H|].
  exact (update_frame_pool_video_aligned ex_align ex_linesizes pl_pointers (fun _ => false)
           pl_samples Some ex_ctx ex_pool ex_frame _ H1 H2 H).
Defined.

Lemma update_frame_pool_error_reset_witness :
  exists p',
    update_frame_pool ex_align ex_linesizes pl_pointers (fun _ => false) pl_samples pl_init_fail
      ex_ctx ex_pool ex_frame = Some (p', AVERROR_ENOMEM) /\
    pool_is_reset p'.
Proof.
  pose (o := update_frame_pool ex_align ex_linesizes pl_pointers (fun _ => false) pl_samples
               pl_init_fail ex_ctx ex_pool ex_frame).
  assert (H : o = Some (match o with Some x => fst x | None => ex_pool end, AVERROR_ENOMEM))
    by (vm_compute; reflexivity).
  exists (match o with Some x => fst x | None => ex_pool end).
  split; [exact H|].
  exact (update_frame_pool_error_reset ex_align ex_linesizes pl_pointers (fun _ => false)
           pl_samples pl_init_fail ex_ctx ex_pool ex_frame _ _ H ltac:(discriminate)
           (or_intror eq_refl)).
Defined.

End PL.

(** *** Buffer allocation: a [nat] allocator state counting the calls;
    pool buffers are numbered from the pool handle and the state. *)
Module GBX.
Import GetBuffer GetBufferFacts.

Definition gb_pool_get (s : nat) (h : Z) : nat * option Z := (S s, Some (h * 1000 + Z.of_nat s)).
Definition gb_mallocz (s : nat) (_ : Z) : nat * bool := (S s, true).
Definition gb_mallocz_fail (s : nat) (_ : Z) : nat * bool := (S s, false).

(** A gray 32x16 picture pool with one plane pool, and a 10-channel
    planar audio pool. *)
Definition gb_vpool : Pool.FramePool :=
  {| Pool.format := 0; Pool.width := 32; Pool.height := 16;
     Pool.stride_align := [1; 1; 1; 1]; Pool.linesize := [32; 0; 0; 0];
     Pool.planes := 0; Pool.channels := 0; Pool.samples := 0;
     Pool.pools := [Some 7; None; None; None] |}.

Definition gb_apool : Pool.FramePool :=
  {| Pool.format := 8; Pool.width := 0; Pool.height := 0;
     Pool.stride_align := [0; 0; 0; 0]; Pool.linesize := [64; 0; 0; 0];
     Pool.planes := 10; Pool.channels := 10; Pool.samples := 16;
     Pool.pools := [Some 5; None; None; None] |}.

Lemma video_get_buffer_planes_witness :
  wf_planes unref_frame /\ nth 0 (data unref_frame) None = None /\
  exists s' pic',
    video_get_buffer nat gb_pool_get gb_vpool 0%nat unref_frame = (s', pic', 0) /\
    let k := lead 4 0 (Pool.pools gb_vpool) in
    (forall j, (j < k)%nat -> exists b, nth j (buf pic') None = Some b /\
        nth j (data pic') None = Some b /\
        nth j (linesize pic') 0 = nth j (Pool.linesize gb_vpool) 0) /\
    (forall j, (k <= j < AV_NUM_DATA_POINTERS)%nat ->
        nth j (data pic') None = None /\ nth j (linesize pic') 0 = 0) /\
    extended_data pic' = ExtIsData.
Proof.
  assert (H1 : wf_planes unref_frame) by (repeat split).
  assert (H2 : nth 0 (data unref_frame) None = None) by reflexivity.
  pose (o := video_get_buffer nat gb_pool_get gb_vpool 0%nat unref_frame).
  assert (H : o = (fst (fst o), snd (fst o), 0)) by (vm_compute; reflexivity).
  split; [exact H1|]. split; [exact H2|].
  exists (fst (fst o)), (snd (fst o)). split; [exact H|].
  eapply video_get_buffer_planes; eassumption.
Defined.

Lemma video_get_buffer_errors_witness :
  exists s' pic' r,
    video_get_buffer nat (fun s _ => (S s, None)) gb_vpool 0%nat unref_frame = (s', pic', r) /\
    (nth 0 (data unref_frame) None <> None -> s' = 0%nat /\ pic' = unref_frame /\ r = -1) /\
    (nth 0 (data unref_frame) None = None -> r <> 0 -> r = AVERROR_ENOMEM /\ pic' = unref_frame).
Proof.
  pose (o := video_get_buffer nat (fun s _ => (S s, None)) gb_vpool 0%nat unref_frame).
  assert (H : o = (fst (fst o), snd (fst o), snd o)) by (vm_compute; reflexivity).
  exists (fst (fst o)), (snd (fst o)), (snd o). split; [exact H|].
  eapply video_get_buffer_errors; eassumption.
Defined.

Lemma audio_get_buffer_planes_witness :
  wf_planes unref_frame /\
  exists s' f',
    audio_get_buffer nat gb_pool_get gb_mallocz gb_apool 0%nat unref_frame = Some (s', f', 0) /\
    (forall j, (j < Z.to_nat (Z.min (Pool.planes gb_apool) 8))%nat ->
       exists b, nth j (buf f') None = Some b /\ nth j (data f') None = Some b /\
                 ext_nth f' j = Some b) /\
    (Pool.planes gb_apool <= 8 -> extended_data f' = ExtIsData) /\
    (8 < Pool.planes gb_apool ->
       nb_extended_buf f' = Pool.planes gb_apool - 8 /\
       (exists eb, extended_buf f' = Some eb /\
          List.length eb = Z.to_nat (Pool.planes gb_apool - 8) /\
          forall j, (j < List.length eb)%nat -> nth j eb None <> None) /\
       (exists l, extended_data f' = ExtArray l /\
          List.length l = Z.to_nat (Pool.planes gb_apool) /\
          forall j, (j < List.length l)%nat -> nth j l None <> None)).
Proof.
  assert (H1 : wf_planes unref_frame) by (repeat split).
  pose (o := audio_get_buffer nat gb_pool_get gb_mallocz gb_apool 0%nat unref_frame).
  pose (x := match o with Some (s', f', _) => (s', f') | None => (0%nat, unref_frame) end).
  assert (H : o = Some (fst x, snd x, 0)) by (vm_compute; reflexivity).
  split; [exact H1|]. exists (fst x), (snd x). split; [exact H|].
  eapply audio_get_buffer_planes; eassumption.
Defined.

Lemma audio_get_buffer_errors_witness :
  exists s' f' r,
    audio_get_buffer nat gb_pool_get gb_mallocz_fail gb_apool 0%nat unref_frame =
      Some (s', f', r) /\ r <> 0 /\
    r = AVERROR_ENOMEM /\
    (f' = unref_frame \/
     (8 < Pool.planes gb_apool /\ extended_data f' = ExtNull /\ extended_buf f' = None /\
      nb_extended_buf f' = Pool.planes gb_apool - 8 /\ buf f' = buf unref_frame /\
      data f' = data unref_frame)).
Proof.
  pose (o := audio_get_buffer nat gb_pool_get gb_mallocz_fail gb_apool 0%nat unref_frame).
  pose (x := match o with Some (s', f', r) => (s', f', r) | None => (0%nat, unref_frame, 0) end).
  assert (H : o = Some (fst (fst x), snd (fst x), snd x)) by (vm_compute; reflexivity).
  assert (Hr : snd x <> 0) by (vm_compute; discriminate).
  exists (fst (fst x)), (snd (fst x)), (snd x). split; [exact H|]. split; [exact Hr|].
  eapply audio_get_buffer_errors; eassumption.
Defined.

(** Example enumerator values for the side-data table, a callback that
    allocates a padded 64x32 picture, and permissive image and layout
    checks. *)
Definition gb_sdt := sd_table 4 5 17 6 7 5 6 13 2 10.
Definition gb_new_sd (s : nat) (_ _ : Z) : nat * bool := (S s, true).
Definition gb_get_buffer2 (c : gb_ctx) (s : nat) (f : gframe) : gb_ctx * nat * gframe * Z :=
  (c, S s, set_wh f 64 32, 0).
Definition gb_check_size (w h : Z) : Z := if (0 <? w) && (0 <? h) then 0 else AVERROR_EINVAL.

Definition gb_fgb (c : gb_ctx) (s : nat) (f : gframe) : gb_ctx * nat * gframe * Z :=
  ff_get_buffer nat 4 5 17 6 7 5 6 13 2 10 gb_new_sd gb_get_buffer2 gb_get_buffer2
    (fun _ _ _ => 0) gb_check_size (fun _ src => (src, 0)) (fun _ => 0) (fun _ => 0) 64 c s f.

(** A 32x16 gray video decoder context whose last packet carries a
    display matrix. *)
Definition gb_vctx : gb_ctx :=
  {| codec_type := Pool.AVMEDIA_TYPE_VIDEO; ctx_width := 32; ctx_height := 16;
     coded_width := 32; coded_height := 16; pix_fmt := 0; sw_pix_fmt := -1;
     ctx_sar := (1, 1); ctx_sample_rate := 0; sample_fmt := -1;
     ctx_ch_layout := frame_ch_layout unref_frame; ctx_hwaccel := None;
     has_hw_frames_ctx := false; exports_cropping := false; ctx_color := color unref_frame;
     ctx_reordered_opaque := 3;
     last_pkt_props := {| pkt_data := None; pkt_side := [(5, [1; 0; 0; 1])];
                          pkt_pts := 42; pkt_dts := 42 |} |}.

Lemma ff_decode_frame_props_spec_witness :
  exists s' f' r,
    ff_decode_frame_props nat 4 5 17 6 7 5 6 13 2 10 gb_new_sd gb_vctx 0%nat unref_frame =
      (s', f', r) /\
    f' = with_props unref_frame (ctx_color gb_vctx) (ctx_reordered_opaque gb_vctx)
           (pkt_pts (last_pkt_props gb_vctx)) (pkt_pts (last_pkt_props gb_vctx)) (side_data f') /\
    ((r = 0 /\ side_data f' = side_data unref_frame ++
                              expected_side_data gb_sdt (last_pkt_props gb_vctx)) \/
     (r = AVERROR_ENOMEM /\ exists pre rest,
        expected_side_data gb_sdt (last_pkt_props gb_vctx) = pre ++ rest /\ rest <> [] /\
        side_data f' = side_data unref_frame ++ pre)).
Proof.
  pose (o := ff_decode_frame_props nat 4 5 17 6 7 5 6 13 2 10 gb_new_sd gb_vctx 0%nat unref_frame).
  assert (H : o = (fst (fst o), snd (fst o), snd o)) by (vm_compute; reflexivity).
  exists (fst (fst o)), (snd (fst o)), (snd o). split; [exact H|].
  eapply ff_decode_frame_props_spec; eassumption.
Defined.

Lemma ff_get_buffer_video_dims_witness :
  codec_type gb_vctx = Pool.AVMEDIA_TYPE_VIDEO /\
  (width unref_frame <= 0 \/ height unref_frame <= 0) /\
  exists c' s' f' r,
    gb_fgb gb_vctx 0%nat unref_frame = (c', s', f', r) /\
    codec_type c' = Pool.AVMEDIA_TYPE_VIDEO /\ exports_cropping c' = false /\
    (r < 0 \/ (width f' = ctx_width c' /\ height f' = ctx_height c')).
Proof.
  assert (H1 : codec_type gb_vctx = Pool.AVMEDIA_TYPE_VIDEO) by reflexivity.
  assert (H2 : width unref_frame <= 0 \/ height unref_frame <= 0) by (left; vm_compute; discriminate).
  pose (o := gb_fgb gb_vctx 0%nat unref_frame).
  assert (H : o = (fst (fst (fst o)), snd (fst (fst o)), snd (fst o), snd o))
    by (vm_compute; reflexivity).
  assert (H3 : codec_type (fst (fst (fst o))) = Pool.AVMEDIA_TYPE_VIDEO)
    by (vm_compute; reflexivity).
  assert (H4 : exports_cropping (fst (fst (fst o))) = false) by (vm_compute; reflexivity).
  split; [exact H1|]. split; [exact H2|].
  exists (fst (fst (fst o))), (snd (fst (fst o))), (snd (fst o)), (snd o).
  split; [exact H|]. split; [exact H3|]. split; [exact H4|].
  unfold o, gb_fgb in H.
  eapply ff_get_buffer_video_dims; [exact H1|exact H2|exact H|exact H3|exact H4].
Defined.

(** A 32x16 gray request. *)
Definition gb_vframe : gframe :=
  with_params unref_frame 32 16 0 (1, 1) 0 (frame_ch_layout unref_frame) 0.

Lemma avcodec_default_get_buffer2_pool_witness :
  exists pool' s' f' r,
    avcodec_default_get_buffer2 nat gb_pool_get gb_mallocz PoolFacts.ex_align
      PoolFacts.ex_linesizes PL.pl_pointers (fun _ => false) PL.pl_samples Some
      (fun s f => (s, f, 0)) gb_vctx PoolFacts.ex_pool 0%nat gb_vframe =
      Some (pool', s', f', r) /\
    (has_hw_frames_ctx gb_vctx = true -> pool' = PoolFacts.ex_pool) /\
    (has_hw_frames_ctx gb_vctx = false ->
     codec_type gb_vctx <> Pool.AVMEDIA_TYPE_OTHER /\
     (r = 0 -> PoolExtraFacts.pool_key_matches (fun _ => false) (pool_ctx_of gb_vctx) pool'
                 (pool_frame_of f'))).
Proof.
  pose (o := avcodec_default_get_buffer2 nat gb_pool_get gb_mallocz PoolFacts.ex_align
               PoolFacts.ex_linesizes PL.pl_pointers (fun _ => false) PL.pl_samples Some
               (fun s f => (s, f, 0)) gb_vctx PoolFacts.ex_pool 0%nat gb_vframe).
  pose (x := match o with Some y => y | None => (PoolFacts.ex_pool, 0%nat, gb_vframe, 1) end).
  assert (H : o = Some (fst (fst (fst x)), snd (fst (fst x)), snd (fst x), snd x))
    by (vm_compute; reflexivity).
  exists (fst (fst (fst x))), (snd (fst (fst x))), (snd (fst x)), (snd x). split; [exact H|].
  eapply avcodec_default_get_buffer2_pool; exact H.
Defined.

End GBX.

(** *** The driver: the packet-per-frame decoders of [DriverFacts]. *)
Module DRV.
Import BSF Driver DriverFacts DriverExtraFacts.

Lemma receive_frame_counts_frames_witness :
  exists c' f' r,
    avcodec_receive_frame (dx_codec None dx_decode Pool.AVMEDIA_TYPE_VIDEO) dx_fsd dx_desc
      dx_leftover unset_frame = Some (c', f', r) /\
    ((r = 0 /\ frame_number (bk c') = frame_number (bk dx_leftover) + 1) \/
     (r < 0 /\ frame_number (bk c') = frame_number (bk dx_leftover))).
Proof.
  pose (o := avcodec_receive_frame (dx_codec None dx_decode Pool.AVMEDIA_TYPE_VIDEO) dx_fsd
               dx_desc dx_leftover unset_frame).
  pose (x := match o with Some y => y | None => (dx_leftover, unset_frame, 1) end).
  assert (H : o = Some (fst (fst x), snd (fst x), snd x)) by (vm_compute; reflexivity).
  exists (fst (fst x)), (snd (fst x)), (snd x). split; [exact H|].
  eapply receive_frame_counts_frames; exact H.
Defined.

(** An open decoder with its filter chain in place and a frame buffered. *)
Definition dx_buffered : dctx nat :=
  set_buffer_frame (set_chain dx_fresh [mk_bsf 1]) (dx_buf_frame 5).

Lemma receive_frame_buffered_witness :
  is_open (cfg dx_buffered) && is_decoder (cfg dx_buffered) = true /\
  chain (st dx_buffered) <> [] /\ buf0 (buffer_frame (st dx_buffered)) <> None /\
  exists c' f' r,
    avcodec_receive_frame (dx_codec None dx_decode Pool.AVMEDIA_TYPE_VIDEO) dx_fsd dx_desc
      dx_buffered unset_frame = Some (c', f', r) /\
    st c' = st (set_buffer_frame dx_buffered unset_frame) /\
    (is_video (dx_codec None dx_decode Pool.AVMEDIA_TYPE_VIDEO) = false ->
     r = 0 /\ f' = buffer_frame (st dx_buffered)) /\
    (is_video (dx_codec None dx_decode Pool.AVMEDIA_TYPE_VIDEO) = true ->
     let '(i, cr, _) :=
       Cropping.apply_cropping dx_desc
         {| Cropping.ctx_apply_cropping := cfg_apply_cropping (cfg dx_buffered);
            Cropping.ctx_flags := cfg_flags (cfg dx_buffered) |} (img (buffer_frame (st dx_buffered))) in
     (0 <= cr /\ r = 0 /\ f' = set_img (buffer_frame (st dx_buffered)) i) \/
     (cr < 0 /\ r = cr /\ f' = unset_frame)).
Proof.
  assert (H1 : is_open (cfg dx_buffered) && is_decoder (cfg dx_buffered) = true) by reflexivity.
  assert (H2 : chain (st dx_buffered) <> []) by (vm_compute; discriminate).
  assert (H3 : buf0 (buffer_frame (st dx_buffered)) <> None) by (vm_compute; discriminate).
  pose (o := avcodec_receive_frame (dx_codec None dx_decode Pool.AVMEDIA_TYPE_VIDEO) dx_fsd
               dx_desc dx_buffered unset_frame).
  pose (x := match o with Some y => y | None => (dx_buffered, unset_frame, 1) end).
  assert (H : o = Some (fst (fst x), snd (fst x), snd x)) by (vm_compute; reflexivity).
  split; [exact H1|]. split; [exact H2|]. split; [exact H3|].
  exists (fst (fst x)), (snd (fst x)), (snd x). split; [exact H|].
  exact (receive_frame_buffered nat (dx_codec None dx_decode Pool.AVMEDIA_TYPE_VIDEO) dx_fsd dx_desc
           dx_buffered (fst (fst x)) unset_frame (snd (fst x)) (snd x) H1 H2 H3 H).
Defined.

(** An audio decoder that consumes one byte per call, on a decoder
    holding a four-byte packet. *)
Definition dx_decode_byte (s : nat) (fr : dframe) (p : packet) : nat * dframe * bool * Z :=
  (S s, dx_buf_frame (Z.of_nat s), true, 1).

Definition dx_leftover4 : dctx nat :=
  set_in_pkt dx_fresh {| pkt_data := Some [1; 2; 3; 4]; pkt_side := []; pkt_pts := 9;
                         pkt_dts := 9 |}.

Lemma decode_simple_internal_consumption_witness :
  let cod := dx_codec None dx_decode_byte Pool.AVMEDIA_TYPE_AUDIO in
  pkt_data (in_pkt (st dx_leftover4)) <> None /\ draining_done (st dx_leftover4) = false /\
  thread_frame (cfg dx_leftover4) = false /\
  decode cod (bst (st dx_leftover4)) unset_frame (in_pkt (st dx_leftover4)) =
    (1%nat, dx_buf_frame 0, true, 1) /\
  exists c' f' r,
    decode_simple_internal cod dx_fsd dx_leftover4 unset_frame = Some (c', f', r) /\
    bst (st c') = 1%nat /\
    compat_decode_consumed (bk c') = (compat_decode_consumed (bk dx_leftover4) +
      (if (0 <=? 1) && is_video cod then pkt_size (in_pkt (st dx_leftover4)) else 1)) mod 2 ^ 64 /\
    (1 < 0 -> r = 1 /\ in_pkt (st c') = blank_packet) /\
    (0 <= 1 -> r = 0) /\
    (0 <= 1 -> is_video cod = true \/ pkt_size (in_pkt (st dx_leftover4)) <= 1 ->
     in_pkt (st c') = blank_packet) /\
    (0 <= 1 -> is_video cod = false -> 1 < pkt_size (in_pkt (st dx_leftover4)) ->
     in_pkt (st c') = advance_packet (in_pkt (st dx_leftover4)) 1 /\
     pkt_pts (last_pkt_props (bk c')) = AV_NOPTS_VALUE /\
     pkt_dts (last_pkt_props (bk c')) = AV_NOPTS_VALUE).
Proof.
  intros cod.
  assert (H1 : pkt_data (in_pkt (st dx_leftover4)) <> None) by (vm_compute; discriminate).
  assert (H2 : draining_done (st dx_leftover4) = false) by reflexivity.
  assert (H3 : thread_frame (cfg dx_leftover4) = false) by reflexivity.
  assert (H4 : decode cod (bst (st dx_leftover4)) unset_frame (in_pkt (st dx_leftover4)) =
                 (1%nat, dx_buf_frame 0, true, 1)) by reflexivity.
  pose (o := decode_simple_internal cod dx_fsd dx_leftover4 unset_frame).
  pose (x := match o with Some y => y | None => (dx_leftover4, unset_frame, 1) end).
  assert (H : o = Some (fst (fst x), snd (fst x), snd x)) by (vm_compute; reflexivity).
  split; [exact H1|]. split; [exact H2|]. split; [exact H3|]. split; [exact H4|].
  exists (fst (fst x)), (snd (fst x)), (snd x). split; [exact H|].
  exact (decode_simple_internal_consumption nat cod dx_fsd dx_leftover4 _ unset_frame _ _ _ _ _ _
           H1 H2 H3 H4 H).
Defined.

End DRV.

(** *** Cropping *)
Module CR.
Import Cropping CroppingFacts CroppingExtraFacts.

Lemma apply_cropping_outcomes_witness :
  exists f' r logs,
    apply_cropping desc_get_gray8 {| ctx_apply_cropping := true; ctx_flags := 0 |}
      (gray_frame 16 16 2 2 0 4) = (f', r, logs) /\
    ((r = AVERROR_BUG /\ f' = gray_frame 16 16 2 2 0 4 /\ logs = [] /\
      ctx_apply_cropping {| ctx_apply_cropping := true; ctx_flags := 0 |} = true /\
      desc_get_gray8 (format (gray_frame 16 16 2 2 0 4)) = None) \/
     (r = 0 /\ f' = gray_frame 16 16 2 2 0 4 /\ logs = [] /\
      ctx_apply_cropping {| ctx_apply_cropping := true; ctx_flags := 0 |} = false) \/
     (r = 0 /\ crop_right f' = 0 /\ crop_bottom f' = 0 /\
      linesize f' = linesize (gray_frame 16 16 2 2 0 4) /\
      format f' = format (gray_frame 16 16 2 2 0 4) /\
      length (data f') = length (data (gray_frame 16 16 2 2 0 4)))).
Proof.
  pose (o := apply_cropping desc_get_gray8 {| ctx_apply_cropping := true; ctx_flags := 0 |}
               (gray_frame 16 16 2 2 0 4)).
  assert (H : o = (fst (fst o), snd (fst o), snd o)) by (vm_compute; reflexivity).
  exists (fst (fst o)), (snd (fst o)), (snd o). split; [exact H|].
  exact (apply_cropping_outcomes _ _ _ _ _ _ H).
Defined.

End CR.

End ExtraExamples.
